(** * FootballScoutPro: the player analytics and recommendation engine

    A shallow embedding of [models/data_processor.py] (the Normalizer and the
    Metric Calculator) and [models/recommender.py] (the Feature Preprocessor,
    the similarity index, the cluster model and the two query modes), with
    the properties of the engine's specification stated over it.

    Numbers.  A float64 is modelled by [fnum]: an exact rational, plus the
    three IEEE specials the code handles explicitly (NaN, +inf, -inf).
    Rounding and signed zeros are not modelled.

    Tables.  A pandas DataFrame is modelled column by column, as pandas
    stores it: every column has a dtype, numeric (float64/int64) or object,
    and the operations of the source that depend on the dtype
    ([select_dtypes], [fillna], arithmetic, comparisons) are written out. *)

From Stdlib Require Import String Ascii ZArith QArith Bool Lia Lqa.
From Stdlib Require Import List Sorted Permutation.
Import ListNotations.

Local Open Scope string_scope.
Local Open Scope list_scope.

(* ================================================================== *)
(** ** Python values, exceptions *)
(* ================================================================== *)

(** The exceptions the modelled code can raise inside its [try] blocks. *)
Inductive exn : Type :=
| KeyError (k : string)
| TypeError
| AttributeError
| ValueError
| IndexError
| ZeroDivisionError.

Inductive res (A : Type) : Type :=
| Ok (a : A)
| Raise (e : exn).
Arguments Ok {A} a.
Arguments Raise {A} e.

Definition bind {A B : Type} (m : res A) (k : A -> res B) : res B :=
  match m with
  | Ok a => k a
  | Raise e => Raise e
  end.

Notation "x <- m ;; k" := (bind m (fun x => k))
  (at level 100, m at next level, right associativity).

Fixpoint mapM {A B : Type} (f : A -> res B) (l : list A) : res (list B) :=
  match l with
  | [] => Ok []
  | a :: l' => b <- f a ;; bs <- mapM f l' ;; Ok (b :: bs)
  end.

(** float64 *)
Inductive fnum : Type :=
| Fin (q : Q)
| PInf
| NInf
| NaN.

Definition Qltb (a b : Q) : bool := negb (Qle_bool b a).

Definition is_nan (x : fnum) : bool :=
  match x with NaN => true | _ => false end.

Definition is_finite (x : fnum) : bool :=
  match x with Fin _ => true | _ => false end.

(** [x > 0], [x >= y], [x <= y], [x == y] on float64: every comparison with
    NaN is false. *)
Definition fgt0 (x : fnum) : bool :=
  match x with
  | Fin q => Qltb 0 q
  | PInf => true
  | NInf | NaN => false
  end.

Definition fle (x y : fnum) : bool :=
  match x, y with
  | NaN, _ | _, NaN => false
  | NInf, _ => true
  | _, PInf => true
  | Fin a, Fin b => Qle_bool a b
  | _, _ => false
  end.

Definition fge (x y : fnum) : bool := fle y x.

Definition feq (x y : fnum) : bool :=
  match x, y with
  | Fin a, Fin b => Qeq_bool a b
  | PInf, PInf | NInf, NInf => true
  | _, _ => false
  end.

(** numpy's float64 division: [x / 0] is an infinity of the sign of [x],
    and [0 / 0] is NaN; nothing is raised. *)
Definition fdiv (x y : fnum) : fnum :=
  match x, y with
  | NaN, _ | _, NaN => NaN
  | Fin a, Fin b =>
      if Qeq_bool b 0 then
        (if Qeq_bool a 0 then NaN else if Qltb 0 a then PInf else NInf)
      else Fin (a / b)
  | Fin _, (PInf | NInf) => Fin 0
  | PInf, Fin b => if Qltb b 0 then NInf else PInf
  | NInf, Fin b => if Qltb b 0 then PInf else NInf
  | (PInf | NInf), (PInf | NInf) => NaN
  end.

Definition fmul (x y : fnum) : fnum :=
  match x, y with
  | NaN, _ | _, NaN => NaN
  | Fin a, Fin b => Fin (a * b)
  | Fin a, PInf | PInf, Fin a =>
      if Qeq_bool a 0 then NaN else if Qltb 0 a then PInf else NInf
  | Fin a, NInf | NInf, Fin a =>
      if Qeq_bool a 0 then NaN else if Qltb 0 a then NInf else PInf
  | PInf, PInf | NInf, NInf => PInf
  | PInf, NInf | NInf, PInf => NInf
  end.

Set Warnings "-register-all".

(** A Python object as [json] decoding yields it, which is also what a cell
    of an object column holds: [None], a number, a [str], a list or a dict
    (a dict keeps its items in insertion order). *)
Inductive pyobj : Type :=
| PNone
| PNum (x : fnum)
| PStr (s : string)
| PList (l : list pyobj)
| PDict (d : list (string * pyobj)).

Fixpoint assoc {A : Type} (k : string) (d : list (string * A)) : option A :=
  match d with
  | [] => None
  | (k', v) :: d' => if String.eqb k k' then Some v else assoc k d'
  end.

(** [o.get(k, default)]: only a dict has [get]. *)
Definition py_get (o : pyobj) (k : string) (default : pyobj) : res pyobj :=
  match o with
  | PDict d => Ok (match assoc k d with Some v => v | None => default end)
  | _ => Raise AttributeError
  end.

(** Truth value of an object ([if not players], [and criteria['position']]). *)
Definition py_truthy (o : pyobj) : bool :=
  match o with
  | PNone => false
  | PNum (Fin q) => negb (Qeq_bool q 0)
  | PNum _ => true
  | PStr s => negb (String.eqb s "")
  | PList l => match l with [] => false | _ => true end
  | PDict d => match d with [] => false | _ => true end
  end.

Fixpoint chars (s : string) : list pyobj :=
  match s with
  | EmptyString => []
  | String c s' => PStr (String c EmptyString) :: chars s'
  end.

(** [for x in o]: a list yields its items, a dict its keys, a str its
    characters; [None] and numbers are not iterable. *)
Definition py_iter (o : pyobj) : res (list pyobj) :=
  match o with
  | PList l => Ok l
  | PDict d => Ok (map (fun kv => PStr (fst kv)) d)
  | PStr s => Ok (chars s)
  | PNone | PNum _ => Raise TypeError
  end.

(** Python's [a == b]. *)
Fixpoint py_eq (a b : pyobj) {struct a} : bool :=
  match a, b with
  | PNone, PNone => true
  | PNum x, PNum y => feq x y
  | PStr s, PStr t => String.eqb s t
  | PList l, PList m =>
      (fix go (l : list pyobj) (m : list pyobj) {struct l} : bool :=
         match l, m with
         | [], [] => true
         | x :: l', y :: m' => py_eq x y && go l' m'
         | _, _ => false
         end) l m
  | PDict d, PDict e =>
      (fix go (d : list (string * pyobj)) (e : list (string * pyobj))
           {struct d} : bool :=
         match d, e with
         | [], [] => true
         | (k, x) :: d', (k', y) :: e' =>
             String.eqb k k' && py_eq x y && go d' e'
         | _, _ => false
         end) d e
  | _, _ => false
  end.

(** Python's [a <= b]: defined between two numbers and between two strings,
    a [TypeError] otherwise. *)
Definition py_le (a b : pyobj) : res bool :=
  match a, b with
  | PNum x, PNum y => Ok (fle x y)
  | PStr s, PStr t => Ok (String.leb s t)
  | _, _ => Raise TypeError
  end.

Definition py_ge (a b : pyobj) : res bool := py_le b a.

(* ================================================================== *)
(** ** pandas: Series and DataFrame *)
(* ================================================================== *)

(** A column with its dtype.  [NumCol] is a float64 or int64 column (what
    [select_dtypes(include=[np.number])] selects), [ObjCol] a column of
    dtype object (what [select_dtypes(include=['object'])] selects). *)
Inductive Series : Type :=
| NumCol (v : list fnum)
| ObjCol (v : list pyobj).

Definition series_len (s : Series) : nat :=
  match s with
  | NumCol v => length v
  | ObjCol v => length v
  end.

(** The cells of a column, as Python objects. *)
Definition cells (s : Series) : list pyobj :=
  match s with
  | NumCol v => map PNum v
  | ObjCol v => v
  end.

(** A DataFrame with the default [RangeIndex]: [df_len] rows, and the
    columns in their order.  The tables of the engine all come from
    [pd.DataFrame(processed_data)], whose index is the default one, so that
    an index label is a row position. *)
Record DataFrame : Type := mkDF {
  df_len : nat;
  df_cols : list (string * Series)
}.

(** [col in df.columns] and [df[col]]. *)
Definition has_col (df : DataFrame) (c : string) : bool :=
  match assoc c (df_cols df) with Some _ => true | None => false end.

Definition getcol (df : DataFrame) (c : string) : res Series :=
  match assoc c (df_cols df) with
  | Some s => Ok s
  | None => Raise (KeyError c)
  end.

(** [df[c] = s]: replaces the column in place when it exists, appends it
    otherwise. *)
Fixpoint set_assoc {A : Type} (c : string) (s : A) (cols : list (string * A))
  : list (string * A) :=
  match cols with
  | [] => [(c, s)]
  | (c', s') :: cols' =>
      if String.eqb c c' then (c', s) :: cols'
      else (c', s') :: set_assoc c s cols'
  end.

Definition setcol (df : DataFrame) (c : string) (s : Series) : DataFrame :=
  mkDF (df_len df) (set_assoc c s (df_cols df)).

(** The cell of column [c] at row position [i]. *)
Definition cell_at (df : DataFrame) (c : string) (i : nat) : option pyobj :=
  match assoc c (df_cols df) with
  | Some s => nth_error (cells s) i
  | None => None
  end.

(** The float64 value of a numeric column [c] at row position [i]. *)
Definition num_at (df : DataFrame) (c : string) (i : nat) : option fnum :=
  match assoc c (df_cols df) with
  | Some (NumCol v) => nth_error v i
  | _ => None
  end.

(** [pd.isna] on an object cell. *)
Definition py_isna (o : pyobj) : bool :=
  match o with
  | PNone | PNum NaN => true
  | _ => false
  end.

Definition is_num_or_none (o : pyobj) : bool :=
  match o with PNum _ | PNone => true | _ => false end.

Definition is_num (o : pyobj) : bool :=
  match o with PNum _ => true | _ => false end.

Definition to_float (o : pyobj) : fnum :=
  match o with PNum x => x | _ => NaN end.

(** dtype inference of the DataFrame constructor: numbers, possibly with
    [None] among them, give a numeric column where [None] becomes NaN;
    anything else, and a column of [None] only, gives an object column.
    A number is modelled by its value, so that a Python int is not told
    apart from a float: an int that fits neither int64 nor uint64, which
    pandas keeps as a Python object in an object column, is outside the
    model. *)
Definition infer_series (vals : list pyobj) : Series :=
  if forallb is_num_or_none vals && existsb is_num vals
  then NumCol (map to_float vals)
  else ObjCol vals.

Definition record := list (string * pyobj).

(** [pd.DataFrame(records)] for a list of dicts: no column at all for the
    empty list; otherwise one column per key, a key a record lacks reading
    as missing. *)
Definition DataFrame_of (records : list record) : DataFrame :=
  match records with
  | [] => mkDF 0 []
  | r :: _ =>
      mkDF (length records)
        (map (fun kv =>
                (fst kv,
                 infer_series
                   (map (fun r' => match assoc (fst kv) r' with
                                   | Some v => v
                                   | None => PNone
                                   end) records)))
             r)
  end.

Definition fillna_num (x : fnum) : fnum := if is_nan x then Fin 0 else x.

Definition fillna_obj (o : pyobj) : pyobj := if py_isna o then PStr "" else o.

Definition inf_to_nan (x : fnum) : fnum :=
  match x with PInf | NInf => NaN | _ => x end.

Definition inf_to_nan_obj (o : pyobj) : pyobj :=
  match o with PNum x => PNum (inf_to_nan x) | _ => o end.

Definition replace_series (s : Series) : Series :=
  match s with
  | NumCol v => NumCol (map inf_to_nan v)
  | ObjCol v => ObjCol (map inf_to_nan_obj v)
  end.

(** [df.replace([np.inf, -np.inf], np.nan, inplace=True)] *)
Definition replace_inf (df : DataFrame) : DataFrame :=
  mkDF (df_len df)
    (map (fun cs => (fst cs, replace_series (snd cs))) (df_cols df)).

(** The value a float is left with by the clean-up that ends the Metric
    Calculator: an infinity becomes NaN, NaN becomes 0. *)
Definition clean (x : fnum) : fnum := fillna_num (inf_to_nan x).

Fixpoint map2 {A B C : Type} (f : A -> B -> C) (l : list A) (m : list B)
  : list C :=
  match l, m with
  | a :: l', b :: m' => f a b :: map2 f l' m'
  | _, _ => []
  end.

Fixpoint mapM2 {A B C : Type} (f : A -> B -> res C) (l : list A) (m : list B)
  : res (list C) :=
  match l, m with
  | a :: l', b :: m' => c <- f a b ;; cs <- mapM2 f l' m' ;; Ok (c :: cs)
  | _, _ => Ok []
  end.

(** Division of two Python objects: between two numbers a zero divisor
    raises, anything else than a number is a [TypeError]. *)
Definition py_div (a b : pyobj) : res pyobj :=
  match a, b with
  | PNum x, PNum (Fin q) =>
      if Qeq_bool q 0 then Raise ZeroDivisionError
      else Ok (PNum (fdiv x (Fin q)))
  | PNum x, PNum y => Ok (PNum (fdiv x y))
  | _, _ => Raise TypeError
  end.

(** The second attempt of pandas on object arrays: the operation on the
    pairs without a missing value, NaN for the others. *)
Definition masked (op : pyobj -> pyobj -> res pyobj) (a b : pyobj) : res pyobj :=
  if py_isna a || py_isna b then Ok (PNum NaN) else op a b.

(** [a / b] as soon as one array is of dtype object.  numpy divides the
    Python objects pair by pair (the cells of a numeric column as Python
    numbers) and stops at the first exception.  On a [TypeError] pandas
    tries again on the pairs without a missing value; any other exception,
    of the first or of the second attempt, is raised. *)
Definition obj_div (x y : list pyobj) : res (list pyobj) :=
  match mapM2 py_div x y with
  | Raise TypeError => mapM2 (masked py_div) x y
  | r => r
  end.

(** [a / b] on two columns: float64 arithmetic on numeric columns (nothing
    is raised), [obj_div] as soon as one column is of dtype object (the
    result is then of dtype object). *)
Definition series_div (a b : Series) : res Series :=
  match a, b with
  | NumCol x, NumCol y => Ok (NumCol (map2 fdiv x y))
  | _, _ => v <- obj_div (cells a) (cells b) ;; Ok (ObjCol v)
  end.

Definition py_mul_num (k : fnum) (o : pyobj) : res pyobj :=
  match o with
  | PNum x => Ok (PNum (fmul x k))
  | _ => Raise TypeError
  end.

(** [a * k] for a number [k]. *)
Definition series_mul (a : Series) (k : fnum) : res Series :=
  match a with
  | NumCol x => Ok (NumCol (map (fun e => fmul e k) x))
  | ObjCol x => v <- mapM (py_mul_num k) x ;; Ok (ObjCol v)
  end.

(** One cell of an object column compared with [0]: a missing cell
    answers [False]; a str cannot be compared with an int. *)
Definition py_gt0 (o : pyobj) : res bool :=
  match o with
  | PNum x => Ok (fgt0 x)
  | PNone => Ok false
  | _ => Raise TypeError
  end.

(** [a > 0] *)
Definition series_gt0 (a : Series) : res (list bool) :=
  match a with
  | NumCol x => Ok (map fgt0 x)
  | ObjCol x => mapM py_gt0 x
  end.

(** [np.where(cond, a, 0)] *)
Definition np_where0 (cond : list bool) (a : Series) : Series :=
  match a with
  | NumCol x => NumCol (map2 (fun (c : bool) e => if c then e else Fin 0) cond x)
  | ObjCol x =>
      ObjCol (map2 (fun (c : bool) e => if c then e else PNum (Fin 0)) cond x)
  end.

(* ================================================================== *)
(** ** models/data_processor.py *)
(* ================================================================== *)

Module DataProcessor.

(** The messages [processing_error] is emitted with. *)
Inductive error : Type :=
| EmptyInputError            (* "No player data found in the API response" *)
| ProcessingError (e : exn)  (* "Error processing player data: ..." *)
| MetricsError (e : exn).    (* "Error calculating metrics: ..." *)

Inductive signal : Type :=
| processing_complete (df : DataFrame)
| processing_error (err : error).

(** The state of a [DataProcessor]: its [players_df] attribute. *)
Record t : Type := mk { players_df : option DataFrame }.

(** *** handle_missing_values *)

Definition fill_series (s : Series) : Series :=
  match s with
  | NumCol v => NumCol (map fillna_num v)
  | ObjCol v => ObjCol (map fillna_obj v)
  end.

Definition handle_missing_values (df : DataFrame) : DataFrame :=
  mkDF (df_len df) (map (fun cs => (fst cs, fill_series (snd cs))) (df_cols df)).

(** *** process_players_data *)

(** The nested blocks a row is read from. *)
Inductive block : Type :=
| BPlayer | BTeam | BLeague | BGames | BShots | BGoals | BPasses | BTackles
| BDuels.

(** The dict literal appended to [processed_data]: column, block, key. *)
Definition fields : list (string * (block * string)) :=
  [ ("player_id", (BPlayer, "id"));
    ("name", (BPlayer, "name"));
    ("firstname", (BPlayer, "firstname"));
    ("lastname", (BPlayer, "lastname"));
    ("age", (BPlayer, "age"));
    ("nationality", (BPlayer, "nationality"));
    ("height", (BPlayer, "height"));
    ("weight", (BPlayer, "weight"));
    ("position", (BPlayer, "position"));
    ("team_id", (BTeam, "id"));
    ("team_name", (BTeam, "name"));
    ("league_id", (BLeague, "id"));
    ("league_name", (BLeague, "name"));
    ("appearances", (BGames, "appearances"));
    ("minutes_played", (BGames, "minutes"));
    ("rating", (BGames, "rating"));
    ("shots_total", (BShots, "total"));
    ("shots_on_target", (BShots, "on"));
    ("goals_total", (BGoals, "total"));
    ("assists", (BGoals, "assists"));
    ("passes_total", (BPasses, "total"));
    ("passes_accuracy", (BPasses, "accuracy"));
    ("tackles_total", (BTackles, "total"));
    ("tackles_blocks", (BTackles, "blocks"));
    ("tackles_interceptions", (BTackles, "interceptions"));
    ("duels_total", (BDuels, "total"));
    ("duels_won", (BDuels, "won")) ].

Definition stat_blocks : list (block * string) :=
  [ (BTeam, "team"); (BLeague, "league"); (BGames, "games");
    (BShots, "shots"); (BGoals, "goals"); (BPasses, "passes");
    (BTackles, "tackles"); (BDuels, "duels") ].

Definition block_eqb (a b : block) : bool :=
  match a, b with
  | BPlayer, BPlayer | BTeam, BTeam | BLeague, BLeague | BGames, BGames
  | BShots, BShots | BGoals, BGoals | BPasses, BPasses | BTackles, BTackles
  | BDuels, BDuels => true
  | _, _ => false
  end.

Fixpoint block_of (b : block) (env : list (block * pyobj)) : pyobj :=
  match env with
  | [] => PNone
  | (b', o) :: env' => if block_eqb b b' then o else block_of b env'
  end.

(** The body of [for stat in stats]: the eight [stat.get(..., {})], then the
    dict literal. *)
Definition row_of (player_info stat : pyobj) : res record :=
  env <- mapM (fun bk => o <- py_get stat (snd bk) (PDict []) ;; Ok (fst bk, o))
              stat_blocks ;;
  mapM (fun f => v <- py_get (block_of (fst (snd f)) ((BPlayer, player_info) :: env))
                             (snd (snd f)) PNone ;;
                 Ok (fst f, v))
       fields.

(** The body of [for player in players]. *)
Definition rows_of_player (player : pyobj) : res (list record) :=
  player_info <- py_get player "player" (PDict []) ;;
  stats <- py_get player "statistics" (PList []) ;;
  sts <- py_iter stats ;;
  mapM (row_of player_info) sts.

Definition normalize (players : list pyobj) : res (list record) :=
  rs <- mapM rows_of_player players ;;
  Ok (concat rs).

Definition process_players_data (self : t) (data : pyobj) : list signal * t :=
  match
    (players <- py_get data "response" (PList []) ;;
     if negb (py_truthy players) then Ok None
     else
       ps <- py_iter players ;;
       processed_data <- normalize ps ;;
       Ok (Some (handle_missing_values (DataFrame_of processed_data))))
  with
  | Ok None => ([processing_error EmptyInputError], self)
  | Ok (Some df) => ([processing_complete df], mk (Some df))
  | Raise e => ([processing_error (ProcessingError e)], self)
  end.

(** *** calculate_player_metrics *)

(** What [calculate_player_metrics(df)] returns, for the frame [df] it is
    called with (without argument it works on a copy of [self.players_df]).
    In the [except] branch [processing_error] is emitted with
    [MetricsError e] and the frame is returned as the assignments made
    before the exception left it. *)
Inductive outcome : Type :=
| Enriched (df : DataFrame)
| MetricsFailed (e : exn) (df : DataFrame).

(** [df['minutes_per_appearance'] = df['minutes_played'] / df['appearances']] *)
Definition minutes_per_appearance (df : DataFrame) : res DataFrame :=
  a <- getcol df "minutes_played" ;;
  b <- getcol df "appearances" ;;
  q <- series_div a b ;;
  Ok (setcol df "minutes_per_appearance" q).

(** [df['pass_completion_rate'] = df['passes_accuracy']] *)
Definition pass_completion_rate (df : DataFrame) : res DataFrame :=
  a <- getcol df "passes_accuracy" ;;
  Ok (setcol df "pass_completion_rate" a).

(** [df[out] = np.where(df[den] > 0, df[num] / df[den] * 100, 0)] *)
Definition rate (out num den : string) (df : DataFrame) : res DataFrame :=
  d <- getcol df den ;;
  cond <- series_gt0 d ;;
  n <- getcol df num ;;
  q <- series_div n d ;;
  m <- series_mul q (Fin 100) ;;
  Ok (setcol df out (np_where0 cond m)).

Definition shot_conversion_rate : DataFrame -> res DataFrame :=
  rate "shot_conversion_rate" "goals_total" "shots_total".

Definition duels_success_rate : DataFrame -> res DataFrame :=
  rate "duels_success_rate" "duels_won" "duels_total".

(** The assignments of the [try] block, in order: an exception leaves the
    frame as the assignments before it made it. *)
Fixpoint run (steps : list (DataFrame -> res DataFrame)) (df : DataFrame)
  : outcome :=
  match steps with
  | [] => Enriched (handle_missing_values (replace_inf df))
  | step :: steps' =>
      match step df with
      | Ok df' => run steps' df'
      | Raise e => MetricsFailed e df
      end
  end.

Definition calculate_player_metrics (df : DataFrame) : outcome :=
  run [ minutes_per_appearance; pass_completion_rate;
        shot_conversion_rate; duels_success_rate ] df.

End DataProcessor.

(* ================================================================== *)
(** ** More of pandas: masks, positions, sorting *)
(* ================================================================== *)

(** Insertion sort, stable: of two elements neither of which is before the
    other, the one that comes first in the input comes first in the
    output. *)
Fixpoint insert {A : Type} (le : A -> A -> bool) (x : A) (l : list A) : list A :=
  match l with
  | [] => [x]
  | y :: l' => if le x y then x :: y :: l' else y :: insert le x l'
  end.

Fixpoint isort {A : Type} (le : A -> A -> bool) (l : list A) : list A :=
  match l with
  | [] => []
  | x :: l' => insert le x (isort le l')
  end.

Definition enumerate {A : Type} (l : list A) : list (nat * A) :=
  combine (seq 0 (length l)) l.

(** [l[mask]] *)
Definition mask_filter {A : Type} (mask : list bool) (l : list A) : list A :=
  map snd (filter fst (combine mask l)).

Definition series_filter (mask : list bool) (s : Series) : Series :=
  match s with
  | NumCol v => NumCol (mask_filter mask v)
  | ObjCol v => ObjCol (mask_filter mask v)
  end.

(** [df[mask]] for a boolean mask: the rows where the mask holds, in table
    order. *)
Definition df_filter (mask : list bool) (df : DataFrame) : DataFrame :=
  mkDF (length (filter (fun b : bool => b) mask))
       (map (fun cs => (fst cs, series_filter mask (snd cs))) (df_cols df)).

(** [l[idxs]] for positions within [l]. *)
Definition take {A : Type} (idxs : list nat) (l : list A) : list A :=
  flat_map (fun i => match nth_error l i with
                     | Some x => [x]
                     | None => []
                     end) idxs.

Definition series_take (idxs : list nat) (s : Series) : Series :=
  match s with
  | NumCol v => NumCol (take idxs v)
  | ObjCol v => ObjCol (take idxs v)
  end.

(** The rows at the given positions, in the order given. *)
Definition df_take (idxs : list nat) (df : DataFrame) : DataFrame :=
  mkDF (length idxs)
       (map (fun cs => (fst cs, series_take idxs (snd cs))) (df_cols df)).

(** [df.iloc[idxs]]: a position out of bounds raises. *)
Definition iloc (df : DataFrame) (idxs : list nat) : res DataFrame :=
  if forallb (fun i => Nat.ltb i (df_len df)) idxs
  then Ok (df_take idxs df)
  else Raise IndexError.

(** [df.head(n)]: the first [n] rows; for a negative [n], all rows but the
    last [-n]. *)
Definition head_count (len : nat) (n : Z) : nat :=
  if (0 <=? n)%Z then Nat.min (Z.to_nat n) len
  else len - Z.to_nat (- n).

Definition df_head (n : Z) (df : DataFrame) : DataFrame :=
  df_take (seq 0 (head_count (df_len df) n)) df.

(** One cell against a scalar in [s == v]: a missing cell never matches,
    and nothing matches a missing scalar. *)
Definition cell_eq (c v : pyobj) : bool :=
  negb (py_isna c) && negb (py_isna v) && py_eq c v.

(** [s == v] for a scalar [v], cell by cell. *)
Definition series_eq (s : Series) (v : pyobj) : list bool :=
  map (fun c => cell_eq c v) (cells s).

(** One cell of an object column against a scalar that is not missing, in
    [s >= v] and [s <= v]: a missing cell answers [False], the others are
    compared as Python compares them. *)
Definition cell_cmp (cmp : pyobj -> pyobj -> res bool) (v c : pyobj) : res bool :=
  if py_isna c then Ok false else cmp c v.

(** [s >= v] and [s <= v] for a scalar [v].  Against a missing scalar
    ([None], NaN) every cell answers [False].  Otherwise a numeric column
    is compared as a whole, and only with a number; an object column cell
    by cell. *)
Definition series_ge (s : Series) (v : pyobj) : res (list bool) :=
  if py_isna v then Ok (map (fun _ => false) (cells s))
  else
    match s with
    | NumCol x =>
        match v with
        | PNum y => Ok (map (fun e => fge e y) x)
        | _ => Raise TypeError
        end
    | ObjCol x => mapM (cell_cmp py_ge v) x
    end.

Definition series_le (s : Series) (v : pyobj) : res (list bool) :=
  if py_isna v then Ok (map (fun _ => false) (cells s))
  else
    match s with
    | NumCol x =>
        match v with
        | PNum y => Ok (map (fun e => fle e y) x)
        | _ => Raise TypeError
        end
    | ObjCol x => mapM (cell_cmp py_le v) x
    end.

(** The order of [sort_values(ascending=False)] on the cells of the sort
    column: missing values last, larger values first. *)
Definition desc_before (a b : pyobj) : bool :=
  match a, b with
  | _, (PNone | PNum NaN) => true
  | (PNone | PNum NaN), _ => false
  | PNum x, PNum y => fge x y
  | PStr s, PStr t => String.leb t s
  | _, _ => true
  end.

(** A column can be sorted when its values, the missing ones apart, are all
    numbers or all strings; Python raises on comparing a str to a number. *)
Definition sortable (v : list pyobj) : bool :=
  let present := filter (fun o => negb (py_isna o)) v in
  forallb is_num present
  || forallb (fun o => match o with PStr _ => true | _ => false end) present.

(** The row positions in the order [sort_values(by=..., ascending=False)]
    puts them.  pandas does not promise an order among equal keys; here the
    earlier row comes first. *)
Definition argsort_desc (s : Series) : res (list nat) :=
  if sortable (cells s)
  then Ok (map fst (isort (fun a b => desc_before (snd a) (snd b))
                          (enumerate (cells s))))
  else Raise TypeError.

Definition sort_values_desc (by_col : string) (df : DataFrame) : res DataFrame :=
  s <- getcol df by_col ;;
  order <- argsort_desc s ;;
  Ok (df_take order df).

(* ================================================================== *)
(** ** models/recommender.py *)
(* ================================================================== *)

(** The numeric primitives of numpy and scikit-learn that the model does
    not compute itself: the square root of a float, Python's [float(s)] on
    a string, and the labels a seeded k-means run assigns to the rows of a
    matrix. *)
Class Numerics : Type := {
  sqrt : Q -> Q;
  float_of_str : string -> option fnum;
  kmeans_fit_predict : list (list Q) -> nat -> list Z
}.

Module Recommender.

Section WithNumerics.

Context {num : Numerics}.

Definition Qsum (l : list Q) : Q := fold_right Qplus 0%Q l.

Definition mean (l : list Q) : Q := (Qsum l / inject_Z (Z.of_nat (length l)))%Q.

(** Equality of two vectors of numbers, component by component. *)
Fixpoint vec_eqb (a b : list Q) : bool :=
  match a, b with
  | [], [] => true
  | x :: a', y :: b' => Qeq_bool x y && vec_eqb a' b'
  | _, _ => false
  end.

(** *** The preprocessing pipeline: SimpleImputer, then StandardScaler *)

Record StandardScaler : Type := mkScaler {
  mean_ : list Q;
  scale_ : list Q
}.

(** The fitted pipeline: the imputer's [statistics_] (the mean of the
    present values of each column; none for a column with no present
    value) and the scaler. *)
Record Pipeline : Type := mkPipeline {
  statistics_ : list (option Q);
  scaler_step : StandardScaler
}.

(** Conversion of a cell to float64 when the frame is turned into an array. *)
Definition cell_to_float (o : pyobj) : res fnum :=
  match o with
  | PNum x => Ok x
  | PNone => Ok NaN
  | PStr s => match float_of_str s with
              | Some x => Ok x
              | None => Raise ValueError
              end
  | PList _ | PDict _ => Raise TypeError
  end.

Definition series_to_float (s : Series) : res (list fnum) :=
  match s with
  | NumCol v => Ok v
  | ObjCol v => mapM cell_to_float v
  end.

Definition is_inf (x : fnum) : bool :=
  match x with PInf | NInf => true | _ => false end.

(** [df[cols]] as the float array the pipeline is fitted on, row by row.
    An infinite value is rejected. *)
Definition to_array (df : DataFrame) (cols : list string) : res (list (list fnum)) :=
  columns <- mapM (fun c => s <- getcol df c ;; series_to_float s) cols ;;
  if existsb (existsb is_inf) columns then Raise ValueError
  else Ok (map (fun i => map (fun col => nth i col NaN) columns)
               (seq 0 (df_len df))).

Definition column {A : Type} (d : A) (j : nat) (M : list (list A)) : list A :=
  map (fun r => nth j r d) M.

Definition present (v : list fnum) : list Q :=
  flat_map (fun x => match x with Fin q => [q] | _ => [] end) v.

Definition width {A : Type} (M : list (list A)) : nat :=
  match M with
  | [] => 0
  | r :: _ => length r
  end.

(** [SimpleImputer(strategy='mean').fit] *)
Definition imputer_fit (M : list (list fnum)) : list (option Q) :=
  map (fun j => match present (column NaN j M) with
                | [] => None
                | xs => Some (mean xs)
                end)
      (seq 0 (width M)).

(** [SimpleImputer.transform] on one row: a missing value becomes the
    column's statistic; a column without statistic is dropped. *)
Fixpoint impute_row (stats : list (option Q)) (row : list fnum) : list Q :=
  match stats, row with
  | st :: stats', x :: row' =>
      match st with
      | None => impute_row stats' row'
      | Some m => match x with
                  | Fin q => q
                  | _ => m
                  end :: impute_row stats' row'
      end
  | _, _ => []
  end.

Definition variance (l : list Q) : Q :=
  let m := mean l in
  mean (map (fun x => (x - m) * (x - m))%Q l).

(** [np.finfo(np.float64).eps] *)
Definition eps : Q := 1 / inject_Z (2 ^ 52).

(** scikit-learn's [_is_constant_feature(var, mean, n_samples)]: the
    variance is within the rounding bound of its computation, as a zero
    variance is. *)
Definition is_constant_feature (var mean : Q) (n_samples : nat) : bool :=
  let n := inject_Z (Z.of_nat n_samples) in
  Qle_bool var (n * eps * var + (n * mean * eps) * (n * mean * eps)).

(** [StandardScaler().fit]: the means and the deviations of the columns; a
    constant column is scaled by 1. *)
Definition scaler_fit (M : list (list Q)) : res StandardScaler :=
  if Nat.eqb (width M) 0 then Raise ValueError
  else
    Ok (mkScaler
          (map (fun j => mean (column 0%Q j M)) (seq 0 (width M)))
          (map (fun j => let v := variance (column 0%Q j M) in
                         if is_constant_feature v (mean (column 0%Q j M)) (length M)
                         then 1%Q else sqrt v)
               (seq 0 (width M)))).

(** [StandardScaler.transform] on one row. *)
Fixpoint scale_row (means scales : list Q) (row : list Q) : list Q :=
  match means, scales, row with
  | m :: means', s :: scales', x :: row' =>
      ((x - m) / s)%Q :: scale_row means' scales' row'
  | _, _, _ => []
  end.

Definition pipeline_fit (M : list (list fnum)) : res Pipeline :=
  let stats := imputer_fit M in
  sc <- scaler_fit (map (impute_row stats) M) ;;
  Ok (mkPipeline stats sc).

Definition transform_row (p : Pipeline) (row : list fnum) : list Q :=
  scale_row (mean_ (scaler_step p)) (scale_ (scaler_step p))
            (impute_row (statistics_ p) row).

(** [preprocessing.fit_transform(X)] *)
Definition fit_transform (M : list (list fnum)) : res (list (list Q) * Pipeline) :=
  p <- pipeline_fit M ;;
  Ok (map (transform_row p) M, p).

(** *** The similarity index: NearestNeighbors *)

Record NearestNeighbors : Type := mkKnn {
  n_neighbors : nat;
  fit_X : list (list Q)
}.

Record KMeans : Type := mkKMeans {
  n_clusters : nat;
  labels_ : list Z
}.

Definition euclidean (a b : list Q) : Q :=
  sqrt (Qsum (map2 (fun x y => (x - y) * (x - y))%Q a b)).

Definition dist_le (a b : Q * nat) : bool := Qle_bool (fst a) (fst b).

(** [knn_model.kneighbors(q, n_neighbors=k)]: the [k] fitted rows nearest
    to [q], as (distance, row position), nearest first.  scikit-learn
    does not promise an order among rows at the same distance; here the
    earlier row comes first. *)
Definition kneighbors (m : NearestNeighbors) (q : list Q) (k : Z)
  : res (list (Q * nat)) :=
  if (k <=? 0)%Z then Raise ValueError
  else if negb (Nat.eqb (length q) (width (fit_X m))) then Raise ValueError
  else if (Z.of_nat (length (fit_X m)) <? k)%Z then Raise ValueError
  else Ok (firstn (Z.to_nat k)
             (isort dist_le
                (map (fun ir => (euclidean q (snd ir), fst ir))
                     (enumerate (fit_X m))))).

(** *** The engine *)

(** The messages [error_occurred] is emitted with. *)
Inductive error : Type :=
| NoDataError                  (* "No data available for preprocessing" *)
| InsufficientFeaturesError    (* "Insufficient features for recommendation" *)
| PreprocessingError (e : exn) (* "Error preprocessing data: ..." *)
| TrainingError (e : exn)      (* "Error training recommendation models: ..." *)
| UntrainedModelError          (* "Recommendation model not available" *)
| PlayerNotFoundError (player_id : Z) (* "Player with ID ... not found" *)
| RecommendationError (e : exn) (* "Error generating recommendations: ..." *)
| NoPlayerDataError            (* "No player data available" *)
| CriteriaError (e : exn).     (* "Error generating criteria-based recommendations: ..." *)

Inductive signal : Type :=
| model_trained
| recommendation_ready (df : DataFrame)
| error_occurred (err : error).

(** The attributes of a [PlayerRecommender]. *)
Record t : Type := mk {
  knn_model : option NearestNeighbors;
  kmeans_model : option KMeans;
  feature_columns : option (list string);
  scaler : option StandardScaler;
  players_df : option DataFrame
}.

(** [__init__] *)
Definition init : t := mk None None None None None.

Definition set_data (self : t) (df : DataFrame) : t :=
  mk (knn_model self) (kmeans_model self) (feature_columns self)
     (scaler self) (Some df).

Definition candidate_features : list string :=
  [ "age"; "minutes_played"; "rating";
    "shots_total"; "shots_on_target"; "goals_total"; "assists";
    "passes_total"; "passes_accuracy"; "tackles_total";
    "tackles_blocks"; "tackles_interceptions";
    "duels_total"; "duels_won" ].

Definition existing_columns (df : DataFrame) : list string :=
  filter (has_col df) candidate_features.

(** [preprocess_data()]: what it returns ([None, None] or the matrix and
    the columns), what it emits, and the attributes afterwards. *)
Definition preprocess_data (self : t)
  : option (list (list Q) * list string) * list signal * t :=
  match players_df self with
  | None => (None, [error_occurred NoDataError], self)
  | Some df =>
      if Nat.eqb (df_len df) 0 then (None, [error_occurred NoDataError], self)
      else
        let self1 := mk (knn_model self) (kmeans_model self)
                        (Some candidate_features) (scaler self) (players_df self) in
        let existing := existing_columns df in
        if Nat.ltb (length existing) 5 then
          (None, [error_occurred InsufficientFeaturesError], self1)
        else
          match (X <- to_array df existing ;; fit_transform X) with
          | Ok (X_processed, p) =>
              (Some (X_processed, existing), [],
               mk (knn_model self1) (kmeans_model self1) (feature_columns self1)
                  (Some (scaler_step p)) (players_df self1))
          | Raise e => (None, [error_occurred (PreprocessingError e)], self1)
          end
  end.

Definition label_cell (z : Z) : fnum := Fin (inject_Z z).

(** [train_models()] *)
Definition train_models (self : t) : list signal * t :=
  match preprocess_data self with
  | (None, sigs, self1) => (sigs, self1)
  | (Some (X, features), sigs, self1) =>
      let knn := mkKnn (Nat.min 11 (length X)) X in
      let self2 := mk (Some knn) (kmeans_model self1) (feature_columns self1)
                      (scaler self1) (players_df self1) in
      let k := Nat.min 8 (length X) in
      let cluster_labels := kmeans_fit_predict X k in
      let self3 := mk (knn_model self2) (Some (mkKMeans k cluster_labels))
                      (feature_columns self2) (scaler self2) (players_df self2) in
      match players_df self3 with
      | Some df =>
          if Nat.eqb (length cluster_labels) (df_len df) then
            (sigs ++ [model_trained],
             mk (knn_model self3) (kmeans_model self3) (feature_columns self3)
                (scaler self3)
                (Some (setcol df "cluster" (NumCol (map label_cell cluster_labels)))))
          else (sigs ++ [error_occurred (TrainingError ValueError)], self3)
      | None => (sigs ++ [error_occurred (TrainingError TypeError)], self3)
      end
  end.

(** [self.players_df.index[self.players_df['player_id'] == player_id].tolist()] *)
Definition positions_of (mask : list bool) : list nat :=
  map fst (filter snd (enumerate mask)).

Definition similarity_score (distance : Q) : fnum :=
  fdiv (Fin 1) (Fin (1 + distance)).

(** The vector the index is searched with and the number of neighbours
    asked for: lines 154 to 179 of [recommend_similar_players], up to the
    call of [kneighbors]. *)
Record Query : Type := mkQuery {
  q_model : NearestNeighbors;
  q_df : DataFrame;
  q_idx : nat;
  q_vector : list Q;
  q_k : Z
}.

Definition prepare_query (self : t) (player_id : Z) (n_recommendations : Z)
  : option Query * list signal * t :=
  let '(sigs0, self1) :=
    match knn_model self with
    | None => train_models self
    | Some _ => ([], self)
    end in
  match knn_model self1 with
  | None => (None, sigs0 ++ [error_occurred UntrainedModelError], self1)
  | Some knn =>
      match players_df self1 with
      | None =>
          (None, sigs0 ++ [error_occurred (RecommendationError AttributeError)], self1)
      | Some df =>
          match getcol df "player_id" with
          | Raise e => (None, sigs0 ++ [error_occurred (RecommendationError e)], self1)
          | Ok ids =>
              match positions_of (series_eq ids (PNum (Fin (inject_Z player_id)))) with
              | [] => (None, sigs0 ++ [error_occurred (PlayerNotFoundError player_id)], self1)
              | player_idx :: _ =>
                  match preprocess_data self1 with
                  | (None, sigs1, self2) => (None, sigs0 ++ sigs1, self2)
                  | (Some (X, _), sigs1, self2) =>
                      match nth_error X player_idx with
                      | None =>
                          (None,
                           sigs0 ++ sigs1 ++ [error_occurred (RecommendationError IndexError)],
                           self2)
                      | Some v =>
                          (Some (mkQuery knn df player_idx v (n_recommendations + 1)),
                           sigs0 ++ sigs1, self2)
                      end
                  end
              end
          end
      end
  end.

(** What a query computes before it emits the frame: the positions and the
    distances of the neighbours kept, and the rows with their score. *)
Record SimilarityResult : Type := mkResult {
  similar_indices : list nat;
  similar_distances : list Q;
  similar_players : DataFrame
}.

(** Lines 177 to 188: the search, the removal of the first result, the rows
    and their score. *)
Definition answer (q : Query) : res SimilarityResult :=
  neighbours <- kneighbors (q_model q) (q_vector q) (q_k q) ;;
  let similar_indices := map snd (tl neighbours) in
  let similar_distances := map fst (tl neighbours) in
  similar_players <- iloc (q_df q) similar_indices ;;
  Ok (mkResult similar_indices similar_distances
        (setcol similar_players "similarity_score"
                (NumCol (map similarity_score similar_distances)))).

Definition recommend_similar_players (self : t) (player_id : Z) (n_recommendations : Z)
  : list signal * t :=
  match prepare_query self player_id n_recommendations with
  | (None, sigs, self') => (sigs, self')
  | (Some q, sigs, self') =>
      match answer q with
      | Ok r => (sigs ++ [recommendation_ready (similar_players r)], self')
      | Raise e => (sigs ++ [error_occurred (RecommendationError e)], self')
      end
  end.

(** *** Criteria mode *)

(** [key.startswith(p)] and [key[4:]] *)
Fixpoint startswith (p key : string) : bool :=
  match p, key with
  | EmptyString, _ => true
  | String a p', String b key' => Ascii.eqb a b && startswith p' key'
  | String _ _, EmptyString => false
  end.

Definition drop4 (key : string) : string :=
  substring 4 (String.length key - 4) key.

(** One turn of [for key, value in criteria.items()]. *)
Definition apply_threshold (filtered_df : DataFrame) (kv : string * pyobj)
  : res DataFrame :=
  let '(key, value) := kv in
  if startswith "min_" key && negb (py_eq value PNone) then
    let col_name := drop4 key in
    if has_col filtered_df col_name then
      s <- getcol filtered_df col_name ;;
      mask <- series_ge s value ;;
      Ok (df_filter mask filtered_df)
    else Ok filtered_df
  else if startswith "max_" key && negb (py_eq value PNone) then
    let col_name := drop4 key in
    if has_col filtered_df col_name then
      s <- getcol filtered_df col_name ;;
      mask <- series_le s value ;;
      Ok (df_filter mask filtered_df)
    else Ok filtered_df
  else Ok filtered_df.

Fixpoint apply_thresholds (filtered_df : DataFrame) (items : list (string * pyobj))
  : res DataFrame :=
  match items with
  | [] => Ok filtered_df
  | kv :: items' =>
      df' <- apply_threshold filtered_df kv ;;
      apply_thresholds df' items'
  end.

(** ['position' in criteria and criteria['position']] *)
Definition position_of (criteria : list (string * pyobj)) : option pyobj :=
  match assoc "position" criteria with
  | Some p => if py_truthy p then Some p else None
  | None => None
  end.

Definition filter_position (df : DataFrame) (criteria : list (string * pyobj))
  : res DataFrame :=
  match position_of criteria with
  | Some p =>
      s <- getcol df "position" ;;
      Ok (df_filter (series_eq s p) df)
  | None => Ok df
  end.

Definition criteria_rows (df : DataFrame) (criteria : list (string * pyobj))
           (n_recommendations : Z) : res DataFrame :=
  filtered_df <- filter_position df criteria ;;
  filtered_df <- apply_thresholds filtered_df criteria ;;
  filtered_df <- (if has_col filtered_df "rating"
                  then sort_values_desc "rating" filtered_df
                  else Ok filtered_df) ;;
  Ok (df_head n_recommendations filtered_df).

Definition recommend_by_criteria (self : t) (criteria : list (string * pyobj))
           (n_recommendations : Z) : list signal * t :=
  match players_df self with
  | None => ([error_occurred NoPlayerDataError], self)
  | Some df =>
      match criteria_rows df criteria n_recommendations with
      | Ok recommendations => ([recommendation_ready recommendations], self)
      | Raise e => ([error_occurred (CriteriaError e)], self)
      end
  end.

End WithNumerics.

End Recommender.

(* ================================================================== *)
(** ** Reading a raw entry, as the specification describes it *)
(* ================================================================== *)

Module RawRecord.

Import DataProcessor.

(** [o.get(k, {})] and [o.get(k)] when nothing can go wrong. *)
Definition getd (o : pyobj) (k : string) : pyobj :=
  match o with
  | PDict d => match assoc k d with Some v => v | None => PDict [] end
  | _ => PDict []
  end.

Definition getn (o : pyobj) (k : string) : pyobj :=
  match o with
  | PDict d => match assoc k d with Some v => v | None => PNone end
  | _ => PNone
  end.

Definition is_dict (o : pyobj) : bool :=
  match o with PDict _ => true | _ => false end.

(** A nested block is a dict when it is there. *)
Definition block_ok (o : pyobj) (k : string) : bool :=
  match o with
  | PDict d => match assoc k d with
               | Some v => is_dict v
               | None => true
               end
  | _ => false
  end.

Definition stat_ok (stat : pyobj) : bool :=
  forallb (fun bk => block_ok stat (snd bk)) stat_blocks.

(** A raw entry: a dict with, when they are there, a dict under ['player']
    and a list of statistics blocks under ['statistics']. *)
Definition entry_ok (player : pyobj) : bool :=
  match player with
  | PDict d =>
      match assoc "player" d with
      | Some v => is_dict v
      | None => true
      end
      && match assoc "statistics" d with
         | Some (PList l) => forallb stat_ok l
         | Some _ => false
         | None => true
         end
  | _ => false
  end.

Definition info_of (player : pyobj) : pyobj := getd player "player".

Definition stats_of (player : pyobj) : list pyobj :=
  match player with
  | PDict d => match assoc "statistics" d with
               | Some (PList l) => l
               | _ => []
               end
  | _ => []
  end.

(** The (player, statistics block) pairs of the input, in input order. *)
Definition pairs (players : list pyobj) : list (pyobj * pyobj) :=
  flat_map (fun p => map (fun st => (info_of p, st)) (stats_of p)) players.

Definition env_of (stat : pyobj) : list (block * pyobj) :=
  map (fun bk => (fst bk, getd stat (snd bk))) stat_blocks.

(** The row of one pair. *)
Definition record_of (pr : pyobj * pyobj) : record :=
  map (fun f => (fst f,
                 getn (block_of (fst (snd f)) ((BPlayer, fst pr) :: env_of (snd pr)))
                      (snd (snd f))))
      fields.

End RawRecord.

(* ================================================================== *)
(** ** Sample inputs *)
(* ================================================================== *)

Module Samples.

Definition f (z : Z) : fnum := Fin (inject_Z z).

Definition n (z : Z) : pyobj := PNum (f z).

(** A square root that can be run: the root rounded down to a multiple of
    [2^-20], exact on the squares of such multiples. *)
Definition sqrt_floor (q : Q) : Q :=
  Qred (Qmake (Z.sqrt (Qnum q * Zpos (Qden q) * 2 ^ 40)) (Qden q * 2 ^ 20)).

(** The primitives the samples run with: no string of the samples stands
    for a number, and the sample labelling puts every row in cluster 0. *)
#[local] Instance numerics : Numerics := {|
  sqrt := sqrt_floor;
  float_of_str := fun _ => None;
  kmeans_fit_predict := fun X _ => map (fun _ => 0%Z) X
|}.

(** One player with two stints. *)
Definition raw_two_stints : pyobj :=
  PDict [("response",
          PList [PDict [("player", PDict [("id", n 1); ("name", PStr "A");
                                          ("position", PStr "Defender")]);
                        ("statistics",
                         PList [PDict [("team", PDict [("id", n 10)]);
                                       ("games", PDict [("appearances", n 0);
                                                        ("minutes", n 0)])];
                                PDict [("team", PDict [("id", n 11)]);
                                       ("games", PDict [("appearances", n 2);
                                                        ("minutes", n 180)])]])]])].

(** A table with every column the Metric Calculator reads: three goals out
    of two shots on the first row, no appearance on the second. *)
Definition metrics_table : DataFrame :=
  mkDF 2
    [ ("player_id", NumCol [f 1; f 2]);
      ("appearances", NumCol [f 2; f 0]);
      ("minutes_played", NumCol [f 180; f 0]);
      ("passes_accuracy", NumCol [f 80; f 0]);
      ("shots_total", NumCol [f 2; f 0]);
      ("goals_total", NumCol [f 3; f 0]);
      ("duels_total", NumCol [f 4; f 0]);
      ("duels_won", NumCol [f 1; f 0]) ].

(** Two stints of player 1 in one table, with five candidate columns. *)
Definition two_stints : DataFrame :=
  mkDF 2
    [ ("player_id", NumCol [f 1; f 1]);
      ("age", NumCol [f 20; f 20]);
      ("minutes_played", NumCol [f 0; f 2]);
      ("shots_total", NumCol [f 0; f 0]);
      ("goals_total", NumCol [f 0; f 0]);
      ("assists", NumCol [f 0; f 0]) ].

(** Four players, five candidate columns. *)
Definition four_players : DataFrame :=
  mkDF 4
    [ ("player_id", NumCol [f 1; f 2; f 3; f 4]);
      ("age", NumCol [f 0; f 0; f 2; f 2]);
      ("minutes_played", NumCol [f 0; f 0; f 2; f 2]);
      ("shots_total", NumCol [f 0; f 2; f 0; f 2]);
      ("goals_total", NumCol [f 0; f 0; f 0; f 0]);
      ("assists", NumCol [f 0; f 0; f 0; f 0]) ].

(** The same players with other minutes. *)
Definition two_players_later : DataFrame :=
  mkDF 2
    [ ("player_id", NumCol [f 1; f 1]);
      ("age", NumCol [f 20; f 20]);
      ("minutes_played", NumCol [f 2; f 4]);
      ("shots_total", NumCol [f 0; f 0]);
      ("goals_total", NumCol [f 0; f 0]);
      ("assists", NumCol [f 0; f 0]) ].

(** Three of the candidate columns only. *)
Definition three_features : DataFrame :=
  mkDF 2
    [ ("player_id", NumCol [f 1; f 2]);
      ("age", NumCol [f 20; f 30]);
      ("rating", NumCol [f 7; f 8]);
      ("assists", NumCol [f 0; f 1]) ].

(** No row and no column: [pd.DataFrame([])]. *)
Definition empty_table : DataFrame := mkDF 0 [].

(** Scenario B of the specification. *)
Definition defenders : DataFrame :=
  mkDF 3
    [ ("player_id", NumCol [f 1; f 2; f 3]);
      ("position", ObjCol [PStr "Defender"; PStr "Defender"; PStr "Defender"]);
      ("tackles_total", NumCol [f 40; f 55; f 70]);
      ("rating", NumCol [f 7; f 6; f 8]) ].

Definition defenders_criteria : list (string * pyobj) :=
  [ ("position", PStr "Defender"); ("min_tackles_total", n 50) ].

(** An entry without [shots] block: 90 minutes and no appearance. *)
Definition raw_no_shots : pyobj :=
  PDict [("response",
          PList [PDict [("player", PDict [("id", n 1); ("name", PStr "A")]);
                        ("statistics",
                         PList [PDict [("games", PDict [("appearances", n 0);
                                                        ("minutes", n 90)])]])]])].

(** Two entries without [shots] block, none with an appearance: one with
    minutes and one without. *)
Definition raw_idle : pyobj :=
  PDict [("response",
          PList [PDict [("player", PDict [("id", n 1)]);
                        ("statistics",
                         PList [PDict [("games", PDict [("appearances", n 0);
                                                        ("minutes", n 90)])]])];
                 PDict [("player", PDict [("id", n 2)]);
                        ("statistics",
                         PList [PDict [("games", PDict [("appearances", n 0);
                                                        ("minutes", n 0)])]])]])].

End Samples.

(* ================================================================== *)
(** ** Predicates of the statements *)
(* ================================================================== *)

(** Every cell of every numeric column is a finite number. *)
Definition numeric_finite (df : DataFrame) : Prop :=
  forall c v, In (c, NumCol v) (df_cols df) ->
              Forall (fun x => exists q, x = Fin q) v.

(** Every cell of column [c], if the table has it, satisfies [P]. *)
Definition column_all (df : DataFrame) (c : string) (P : pyobj -> Prop) : Prop :=
  forall s, assoc c (df_cols df) = Some s -> Forall P (cells s).

(** Nearest first. *)
Definition nearer (a b : Q * nat) : Prop := (fst a <= fst b)%Q.

(** The attributes a fit leaves behind when it gets to the pipeline. *)
Definition fitted (self : Recommender.t) (p : Recommender.Pipeline) : Recommender.t :=
  Recommender.mk (Recommender.knn_model self) (Recommender.kmeans_model self)
                 (Some Recommender.candidate_features)
                 (Some (Recommender.scaler_step p)) (Recommender.players_df self).

(* ================================================================== *)
(** ** More of pandas: rows, sorting in either direction *)
(* ================================================================== *)

(** [df.iloc[i]] as a dict: the cells of row [i], column by column. *)
Definition df_row (df : DataFrame) (i : nat) : record :=
  map (fun cs => (fst cs, nth i (cells (snd cs)) PNone)) (df_cols df).

(** The order of [sort_values(ascending=True)]: missing values last,
    smaller values first. *)
Definition asc_before (a b : pyobj) : bool :=
  match a, b with
  | _, (PNone | PNum NaN) => true
  | (PNone | PNum NaN), _ => false
  | PNum x, PNum y => fle x y
  | PStr s, PStr t => String.leb s t
  | _, _ => true
  end.

Definition before (ascending : bool) : pyobj -> pyobj -> bool :=
  if ascending then asc_before else desc_before.

(** The row positions in the order [sort_values(by=..., ascending=...)]
    puts them; as in [argsort_desc], the earlier of two rows with equal
    keys comes first. *)
Definition argsort (ascending : bool) (s : Series) : res (list nat) :=
  if sortable (cells s)
  then Ok (map fst (isort (fun a b => before ascending (snd a) (snd b))
                          (enumerate (cells s))))
  else Raise TypeError.

Definition sort_values (by_col : string) (ascending : bool) (df : DataFrame)
  : res DataFrame :=
  s <- getcol df by_col ;;
  order <- argsort ascending s ;;
  Ok (df_take order df).

(* ================================================================== *)
(** ** models/data_processor.py: the lookups *)
(* ================================================================== *)

Module DataQueries.

Import DataProcessor.

(** [get_player_by_id(player_id)]: [None], or the first row of the player
    as a Series.  A table without [player_id] column raises. *)
Definition get_player_by_id (self : t) (player_id : Z) : res (option record) :=
  match players_df self with
  | None => Ok None
  | Some df =>
      ids <- getcol df "player_id" ;;
      let player := df_filter (series_eq ids (PNum (Fin (inject_Z player_id)))) df in
      if Nat.eqb (df_len player) 0 then Ok None
      else Ok (Some (df_row player 0))
  end.

(** [get_players_by_position(position)] *)
Definition get_players_by_position (self : t) (position : pyobj)
  : res (option DataFrame) :=
  match players_df self with
  | None => Ok None
  | Some df =>
      s <- getcol df "position" ;;
      Ok (Some (df_filter (series_eq s position) df))
  end.

(** [get_top_players_by_metric(metric, n, ascending)]; the defaults are
    [n=10] and [ascending=False]. *)
Definition get_top_players_by_metric (self : t) (metric : string) (n : Z)
           (ascending : bool) : res (option DataFrame) :=
  match players_df self with
  | None => Ok None
  | Some df =>
      if negb (has_col df metric) then Ok None
      else
        sorted <- sort_values metric ascending df ;;
        Ok (Some (df_head n sorted))
  end.

End DataQueries.

(* ================================================================== *)
(** ** controllers/main_controller.py *)
(* ================================================================== *)

Module MainController.

(** The criteria dict [on_recommend_clicked] builds from the widgets: the
    position of the combo box ([None] for "All Positions"), the minimum
    rating and the maximum age of the spin boxes, and one threshold per
    ticked box, in insertion order. *)
Definition build_criteria (position : string) (min_rating : Q) (max_age : Z)
           (passing defensive finishing physical : bool)
  : list (string * pyobj) :=
  [ ("position",
     if negb (String.eqb position "All Positions") then PStr position else PNone);
    ("min_rating", PNum (Fin min_rating));
    ("max_age", PNum (Fin (inject_Z max_age))) ]
  ++ (if passing then [("min_passes_accuracy", PNum (Fin 80))] else [])
  ++ (if defensive then [("min_tackles_total", PNum (Fin 3))] else [])
  ++ (if finishing then [("min_shot_conversion_rate", PNum (Fin 20))] else [])
  ++ (if physical then [("min_duels_success_rate", PNum (Fin 60))] else []).

End MainController.

(* ================================================================== *)
(** ** More predicates of the statements *)
(* ================================================================== *)

(** Every column of the frame has [df_len] cells. *)
Definition wf_df (df : DataFrame) : Prop :=
  Forall (fun cs => series_len (snd cs) = df_len df) (df_cols df).

(** No cell of the table is missing: no [None] and no NaN. *)
Definition no_missing (df : DataFrame) : Prop :=
  forall c s, In (c, s) (df_cols df) ->
              Forall (fun o => py_isna o = false) (cells s).

(** The columns [calculate_player_metrics] assigns. *)
Definition derived_columns : list string :=
  [ "minutes_per_appearance"; "pass_completion_rate";
    "shot_conversion_rate"; "duels_success_rate" ].

(** The columns [calculate_player_metrics] reads. *)
Definition read_columns : list string :=
  [ "minutes_played"; "appearances"; "passes_accuracy";
    "shots_total"; "goals_total"; "duels_total"; "duels_won" ].

(** The exceptions the arithmetic of [calculate_player_metrics] can meet:
    a column that is not there, a cell that is not a number, a Python
    number divided by a Python zero in an object column. *)
Definition metrics_exn (e : exn) : Prop :=
  e = TypeError \/ e = ZeroDivisionError \/
  exists c, In c read_columns /\ e = KeyError c.

(** [np.where(d > 0, n / d * 100, 0)] on two numeric columns. *)
Definition rate_values (n d : list fnum) : list fnum :=
  map2 (fun (c : bool) e => if c then e else Fin 0)
       (map fgt0 d)
       (map (fun e => fmul e (Fin 100)) (map2 fdiv n d)).

(** What an assignment of the [try] block does to the frame, and how it
    can fail. *)
Definition assignment (step : DataFrame -> res DataFrame) : Prop :=
  forall df,
    match step df with
    | Ok df1 => exists c s, In c derived_columns /\ df1 = setcol df c s
    | Raise e => metrics_exn e
    end.

(** A table with one cell per row in every column and a numeric [rating]
    column. *)
Definition ranked_table (df : DataFrame) : Prop :=
  wf_df df /\ exists v, assoc "rating" (df_cols df) = Some (NumCol v).

(** The reference row is strictly nearer to the query vector than every
    other fitted row. *)
Definition strictly_nearest {num : Numerics} (q : Recommender.Query) : bool :=
  match nth_error (Recommender.fit_X (Recommender.q_model q)) (Recommender.q_idx q) with
  | None => false
  | Some row0 =>
      forallb (fun ir : nat * list Q =>
                 Nat.eqb (fst ir) (Recommender.q_idx q)
                 || negb (Qle_bool
                            (Recommender.euclidean (Recommender.q_vector q) (snd ir))
                            (Recommender.euclidean (Recommender.q_vector q) row0)))
              (enumerate (Recommender.fit_X (Recommender.q_model q)))
  end.

(** [out] holds rows of [df], each at most once: the rows at pairwise
    distinct positions of [df], in some order. *)
Definition row_selection (df out : DataFrame) : Prop :=
  exists idxs,
    NoDup idxs /\ Forall (fun i => (i < df_len df)%nat) idxs /\
    out = df_take idxs df.

(* ================================================================== *)
(** ** Columns and cells: lookup lemmas *)
(* ================================================================== *)

Lemma assoc_set_assoc {A : Type} (c c' : string) (s : A) (cols : list (string * A)) :
  assoc c (set_assoc c' s cols) = if String.eqb c c' then Some s else assoc c cols.
Proof.
  induction cols as [|[k v] cols IH]; simpl.
  - destruct (String.eqb c c'); reflexivity.
  - destruct (String.eqb c' k) eqn:Ek; simpl.
    + apply String.eqb_eq in Ek. subst k.
      destruct (String.eqb c c'); reflexivity.
    + rewrite IH. destruct (String.eqb c k) eqn:Ec; [|reflexivity].
      apply String.eqb_eq in Ec. subst k.
      destruct (String.eqb c c') eqn:Ecc; [|reflexivity].
      apply String.eqb_eq in Ecc. subst c'.
      rewrite String.eqb_refl in Ek. discriminate.
Qed.

Lemma assoc_map_values {A B : Type} (g : A -> B) (c : string) (cols : list (string * A)) :
  assoc c (map (fun cs => (fst cs, g (snd cs))) cols) = option_map g (assoc c cols).
Proof.
  induction cols as [|[k v] cols IH]; simpl; [reflexivity|].
  destruct (String.eqb c k); [reflexivity|exact IH].
Qed.

Lemma assoc_In {A : Type} (c : string) (s : A) (cols : list (string * A)) :
  assoc c cols = Some s -> In (c, s) cols.
Proof.
  induction cols as [|[k v] cols IH]; simpl; [discriminate|].
  destruct (String.eqb c k) eqn:E.
  - intros H. injection H as ->. apply String.eqb_eq in E. subst. now left.
  - intros H. right. now apply IH.
Qed.

Lemma nth_error_map2 {A B C : Type} (g : A -> B -> C) (l : list A) (m : list B) (i : nat) :
  nth_error (map2 g l m) i =
  match nth_error l i, nth_error m i with
  | Some a, Some b => Some (g a b)
  | _, _ => None
  end.
Proof.
  revert m i. induction l as [|a l IH]; intros m i; simpl.
  - destruct i; reflexivity.
  - destruct m as [|b m]; simpl.
    + destruct i; simpl; [reflexivity|]. destruct (nth_error l i); reflexivity.
    + destruct i; simpl; [reflexivity|apply IH].
Qed.

Lemma bind_Ok_l {A B : Type} (a : A) (k : A -> res B) : bind (Ok a) k = k a.
Proof. reflexivity. Qed.

Lemma bind_Ok {A B : Type} (m : res A) (k : A -> res B) (b : B) :
  bind m k = Ok b -> exists a, m = Ok a /\ k a = Ok b.
Proof. destruct m; simpl; [eauto|discriminate]. Qed.

Lemma getcol_Ok (df : DataFrame) (c : string) (s : Series) :
  getcol df c = Ok s -> assoc c (df_cols df) = Some s.
Proof.
  unfold getcol. destruct (assoc c (df_cols df)); [|discriminate].
  intros H. now injection H as ->.
Qed.

Lemma mapM_ok {A B : Type} (g : A -> res B) (h : A -> B) (l : list A) :
  (forall a, In a l -> g a = Ok (h a)) -> mapM g l = Ok (map h l).
Proof.
  induction l as [|a l IH]; intros H; simpl; [reflexivity|].
  rewrite (H a (or_introl eq_refl)). simpl.
  rewrite IH by (intros; apply H; now right). reflexivity.
Qed.

Lemma mapM_length {A B : Type} (g : A -> res B) (l : list A) (r : list B) :
  mapM g l = Ok r -> length r = length l.
Proof.
  revert r. induction l as [|a l IH]; intros r; simpl.
  - intros H. injection H as <-. reflexivity.
  - destruct (g a); simpl; [|discriminate].
    destruct (mapM g l); simpl; [|discriminate].
    intros H. injection H as <-. simpl. f_equal. now apply IH.
Qed.

Lemma clean_finite (x : fnum) : exists q, clean x = Fin q.
Proof. unfold clean. destruct x; simpl; eexists; reflexivity. Qed.

Lemma clean_Fin (q : Q) : clean (Fin q) = Fin q.
Proof. reflexivity. Qed.

Lemma clean_not_Fin (x : fnum) : is_finite x = false -> clean x = Fin 0.
Proof. unfold clean. destruct x; simpl; intros; try reflexivity; discriminate. Qed.

Lemma Qltb_lt (a b : Q) : Qltb a b = true <-> (a < b)%Q.
Proof.
  unfold Qltb. rewrite negb_true_iff. split.
  - intros H. apply Qnot_le_lt. intros Hle.
    apply Qle_bool_iff in Hle. congruence.
  - intros H. destruct (Qle_bool b a) eqn:E; [|reflexivity].
    apply Qle_bool_iff in E. exfalso. now apply (Qlt_not_le a b).
Qed.

Lemma Qltb_nlt (a b : Q) : Qltb a b = false <-> (b <= a)%Q.
Proof.
  unfold Qltb. rewrite negb_false_iff. apply Qle_bool_iff.
Qed.


(** Against a scalar that is not missing, [==] on a column is Python's
    [==] on its cells. *)
Lemma cell_eq_present (c v : pyobj) :
  py_isna v = false -> cell_eq c v = py_eq c v.
Proof.
  intros Hv. unfold cell_eq. rewrite Hv.
  destruct (py_isna c) eqn:Hc; simpl; [|reflexivity].
  destruct c as [|[]| | |]; try discriminate Hc;
    destruct v as [|[]| | |]; try discriminate Hv; reflexivity.
Qed.

Lemma cell_eq_int (c : pyobj) (z : Z) :
  cell_eq c (PNum (Fin (inject_Z z))) = py_eq c (PNum (Fin (inject_Z z))).
Proof. now apply cell_eq_present. Qed.

Lemma cell_eq_str (c : pyobj) (t : string) :
  cell_eq c (PStr t) = py_eq c (PStr t).
Proof. now apply cell_eq_present. Qed.

Lemma series_eq_int (s : Series) (z : Z) :
  series_eq s (PNum (Fin (inject_Z z)))
  = map (fun c => py_eq c (PNum (Fin (inject_Z z)))) (cells s).
Proof. unfold series_eq. apply map_ext. intros c. apply cell_eq_int. Qed.

Lemma series_eq_str (s : Series) (t : string) :
  series_eq s (PStr t) = map (fun c => py_eq c (PStr t)) (cells s).
Proof. unfold series_eq. apply map_ext. intros c. apply cell_eq_str. Qed.

Lemma positions_from (s : nat) (mask : list bool) :
  map fst (filter snd (combine (seq (S s) (length mask)) mask))
  = map S (map fst (filter snd (combine (seq s (length mask)) mask))).
Proof.
  revert s. induction mask as [|b mask IH]; intros s; simpl; [reflexivity|].
  destruct b; simpl; now rewrite IH.
Qed.

Lemma positions_of_cons (b : bool) (mask : list bool) :
  Recommender.positions_of (b :: mask)
  = (if b then [0%nat] else []) ++ map S (Recommender.positions_of mask).
Proof.
  unfold Recommender.positions_of, enumerate. simpl.
  destruct b; simpl; now rewrite positions_from.
Qed.

(** The first position a mask selects: the mask holds there and nowhere
    before. *)
Lemma positions_of_first (mask : list bool) :
  match Recommender.positions_of mask with
  | [] => Forall (fun b => b = false) mask
  | i :: _ => nth_error mask i = Some true /\
              forall j, (j < i)%nat -> nth_error mask j = Some false
  end.
Proof.
  induction mask as [|b mask IH]; [constructor|].
  rewrite positions_of_cons. destruct b; simpl.
  - split; [reflexivity|]. intros j Hj. lia.
  - destruct (Recommender.positions_of mask) as [|i rest]; simpl.
    + constructor; [reflexivity|exact IH].
    + destruct IH as [Hi Hbefore]. split; [exact Hi|].
      intros [|j] Hj; [reflexivity|]. apply Hbefore. lia.
Qed.

(** The row a query takes for the reference player: the first row whose
    [player_id] cell equals the id. *)
Lemma first_position_of_id (ids : Series) (z : Z) (i : nat) :
  hd_error (Recommender.positions_of (series_eq ids (PNum (Fin (inject_Z z)))))
  = Some i ->
  exists c,
    nth_error (cells ids) i = Some c /\
    py_eq c (PNum (Fin (inject_Z z))) = true /\
    forall j c', (j < i)%nat -> nth_error (cells ids) j = Some c' ->
                 py_eq c' (PNum (Fin (inject_Z z))) = false.
Proof.
  rewrite series_eq_int. intros H.
  pose proof (positions_of_first
                (map (fun c => py_eq c (PNum (Fin (inject_Z z)))) (cells ids)))
    as Hfirst.
  destruct (Recommender.positions_of _) as [|i0 rest]; [discriminate|].
  injection H as ->. destruct Hfirst as [Hi Hbefore].
  rewrite nth_error_map in Hi.
  destruct (nth_error (cells ids) i) as [c|] eqn:Hc; [|discriminate].
  injection Hi as Hi. exists c. split; [reflexivity|]. split; [exact Hi|].
  intros j c' Hj Hc'. specialize (Hbefore j Hj).
  rewrite nth_error_map, Hc' in Hbefore. now injection Hbefore.
Qed.

(* ================================================================== *)
(** ** The Metric Calculator *)
(* ================================================================== *)

Module MetricFacts.

Import DataProcessor.

Lemma assoc_cleaned (c : string) (df : DataFrame) :
  assoc c (df_cols (handle_missing_values (replace_inf df))) =
  option_map (fun s => fill_series (replace_series s)) (assoc c (df_cols df)).
Proof.
  unfold handle_missing_values, replace_inf. simpl.
  etransitivity; [apply (assoc_map_values fill_series)|].
  etransitivity; [apply f_equal, (assoc_map_values replace_series)|].
  destruct (assoc c (df_cols df)); reflexivity.
Qed.

Lemma num_at_cleaned (c : string) (df : DataFrame) (i : nat) (x : fnum) :
  num_at (handle_missing_values (replace_inf df)) c i = Some x ->
  exists v x0, assoc c (df_cols df) = Some (NumCol v) /\
               nth_error v i = Some x0 /\ x = clean x0.
Proof.
  unfold num_at. rewrite assoc_cleaned.
  destruct (assoc c (df_cols df)) as [[v|v]|]; simpl; try discriminate.
  rewrite map_map. rewrite nth_error_map.
  destruct (nth_error v i) as [x0|] eqn:E; simpl; [|discriminate].
  intros H. injection H as <-. exists v, x0. repeat split; assumption.
Qed.

Lemma num_at_cleaned_intro (c : string) (df : DataFrame) (i : nat) v x0 :
  assoc c (df_cols df) = Some (NumCol v) ->
  nth_error v i = Some x0 ->
  num_at (handle_missing_values (replace_inf df)) c i = Some (clean x0).
Proof.
  intros Hc Hi. unfold num_at. rewrite assoc_cleaned, Hc. simpl.
  rewrite map_map, nth_error_map, Hi. reflexivity.
Qed.

Lemma cleaned_numeric_finite (df : DataFrame) :
  numeric_finite (handle_missing_values (replace_inf df)).
Proof.
  intros c v Hin. unfold handle_missing_values, replace_inf in Hin. simpl in Hin.
  rewrite map_map in Hin. simpl in Hin.
  apply in_map_iff in Hin. destruct Hin as [[k s] [Heq _]]. simpl in Heq.
  injection Heq as _ Hs.
  destruct s as [v0|v0]; simpl in Hs; [|discriminate].
  injection Hs as <-.
  apply Forall_forall. intros x Hx.
  apply in_map_iff in Hx. destruct Hx as [y [<- Hy]].
  apply in_map_iff in Hy. destruct Hy as [z [<- _]].
  exact (clean_finite z).
Qed.

(** The four assignments of a run that reaches the clean-up. *)
Lemma calculate_enriched (df df' : DataFrame) :
  calculate_player_metrics df = Enriched df' ->
  exists a b q pa d1 c1 n1 q1 m1 d2 c2 n2 q2 m2,
    assoc "minutes_played" (df_cols df) = Some a /\
    assoc "appearances" (df_cols df) = Some b /\
    series_div a b = Ok q /\
    assoc "passes_accuracy" (df_cols df) = Some pa /\
    assoc "shots_total" (df_cols df) = Some d1 /\
    series_gt0 d1 = Ok c1 /\
    assoc "goals_total" (df_cols df) = Some n1 /\
    series_div n1 d1 = Ok q1 /\
    series_mul q1 (Fin 100) = Ok m1 /\
    assoc "duels_total" (df_cols df) = Some d2 /\
    series_gt0 d2 = Ok c2 /\
    assoc "duels_won" (df_cols df) = Some n2 /\
    series_div n2 d2 = Ok q2 /\
    series_mul q2 (Fin 100) = Ok m2 /\
    df' = handle_missing_values
            (replace_inf
               (setcol
                  (setcol
                     (setcol (setcol df "minutes_per_appearance" q)
                             "pass_completion_rate" pa)
                     "shot_conversion_rate" (np_where0 c1 m1))
                  "duels_success_rate" (np_where0 c2 m2))).
Proof.
  unfold calculate_player_metrics, run.
  destruct (minutes_per_appearance df) as [df1|] eqn:E1; [|discriminate].
  destruct (pass_completion_rate df1) as [df2|] eqn:E2; [|discriminate].
  destruct (shot_conversion_rate df2) as [df3|] eqn:E3; [|discriminate].
  destruct (duels_success_rate df3) as [df4|] eqn:E4; [|discriminate].
  intros H. injection H as <-.
  unfold minutes_per_appearance in E1.
  apply bind_Ok in E1. destruct E1 as [a [Ha E1]].
  apply bind_Ok in E1. destruct E1 as [b [Hb E1]].
  apply bind_Ok in E1. destruct E1 as [q [Hq E1]].
  injection E1 as <-.
  unfold pass_completion_rate in E2.
  apply bind_Ok in E2. destruct E2 as [pa [Hpa E2]].
  injection E2 as <-.
  unfold shot_conversion_rate, rate in E3.
  apply bind_Ok in E3. destruct E3 as [d1 [Hd1 E3]].
  apply bind_Ok in E3. destruct E3 as [c1 [Hc1 E3]].
  apply bind_Ok in E3. destruct E3 as [n1 [Hn1 E3]].
  apply bind_Ok in E3. destruct E3 as [q1 [Hq1 E3]].
  apply bind_Ok in E3. destruct E3 as [m1 [Hm1 E3]].
  injection E3 as <-.
  unfold duels_success_rate, rate in E4.
  apply bind_Ok in E4. destruct E4 as [d2 [Hd2 E4]].
  apply bind_Ok in E4. destruct E4 as [c2 [Hc2 E4]].
  apply bind_Ok in E4. destruct E4 as [n2 [Hn2 E4]].
  apply bind_Ok in E4. destruct E4 as [q2 [Hq2 E4]].
  apply bind_Ok in E4. destruct E4 as [m2 [Hm2 E4]].
  injection E4 as <-.
  apply getcol_Ok in Ha, Hb, Hpa, Hd1, Hn1, Hd2, Hn2.
  unfold setcol in Hpa, Hd1, Hn1, Hd2, Hn2. simpl in Hpa, Hd1, Hn1, Hd2, Hn2.
  repeat (rewrite assoc_set_assoc in Hpa; simpl in Hpa).
  repeat (rewrite assoc_set_assoc in Hd1; simpl in Hd1).
  repeat (rewrite assoc_set_assoc in Hn1; simpl in Hn1).
  repeat (rewrite assoc_set_assoc in Hd2; simpl in Hd2).
  repeat (rewrite assoc_set_assoc in Hn2; simpl in Hn2).
  exists a, b, q, pa, d1, c1, n1, q1, m1, d2, c2, n2, q2, m2.
  repeat split; assumption.
Qed.

(** *** The cell of a derived column *)

Ltac q_bool :=
  repeat match goal with
         | H : Qeq_bool _ _ = true |- _ => apply Qeq_bool_iff in H
         | H : Qeq_bool _ _ = false |- _ => apply Qeq_bool_neq in H
         | H : Qltb _ _ = true |- _ => apply Qltb_lt in H
         | H : Qltb _ _ = false |- _ => apply Qltb_nlt in H
         end.

Lemma Qdiv_0_l (a : Q) : (0 / a == 0)%Q.
Proof. unfold Qdiv. apply Qmult_0_l. Qed.

Ltac close_cell :=
  intros;
  first [ reflexivity | contradiction | lra | exfalso; lra
        | symmetry; apply Qdiv_0_l | rewrite Qdiv_0_l; lra ].

Ltac cell_is x :=
  exists x; split; [reflexivity | repeat (split; [close_cell|]); close_cell].

Lemma quotient_cell (m0 a0 : fnum) (m a : Q) :
  clean m0 = Fin m -> clean a0 = Fin a ->
  exists x, clean (fdiv m0 a0) = Fin x /\
            (0 < a -> x == m / a)%Q /\ (a == 0 -> x == 0)%Q.
Proof.
  unfold clean.
  destruct m0 as [m1| | |], a0 as [a1| | |]; simpl;
    intros Hm Ha; injection Hm as <-; injection Ha as <-;
    try (cell_is 0%Q).
  - destruct (Qeq_bool a1 0) eqn:E.
    + q_bool.
      destruct (Qeq_bool m1 0), (Qltb 0 m1); simpl; cell_is 0%Q.
    + q_bool. simpl. cell_is (m1 / a1)%Q.
  - destruct (Qltb a1 0); simpl; cell_is 0%Q.
  - destruct (Qltb a1 0); simpl; cell_is 0%Q.
Qed.

Lemma rate_cell (g0 s0 : fnum) (g s : Q) :
  clean g0 = Fin g -> clean s0 = Fin s ->
  exists x,
    clean (if fgt0 s0 then fmul (fdiv g0 s0) (Fin 100) else Fin 0) = Fin x /\
    (0 < s -> x == g / s * 100)%Q /\
    (s <= 0 -> x == 0)%Q /\
    (0 <= g -> g <= s -> 0 <= x /\ x <= 100)%Q.
Proof.
  intros Hg Hs.
  assert (Hrange : forall x : Q,
             (0 < s -> x == g / s * 100)%Q -> (s <= 0 -> x == 0)%Q ->
             (0 <= g -> g <= s -> 0 <= x /\ x <= 100)%Q).
  { intros x Hpos Hzero Hg0 Hgs.
    destruct (Qlt_le_dec 0 s) as [Hlt|Hle].
    - rewrite (Hpos Hlt).
      assert (H0 : (0 <= g / s)%Q)
        by (apply Qle_shift_div_l; [assumption|lra]).
      assert (H1 : (g / s <= 1)%Q)
        by (apply Qle_shift_div_r; [assumption|lra]).
      split; lra.
    - rewrite (Hzero Hle). split; lra. }
  assert (Hgoal : exists x,
             clean (if fgt0 s0 then fmul (fdiv g0 s0) (Fin 100) else Fin 0) = Fin x /\
             (0 < s -> x == g / s * 100)%Q /\ (s <= 0 -> x == 0)%Q).
  { revert Hg Hs. unfold clean.
    destruct g0 as [g1| | |], s0 as [s1| | |]; simpl;
      intros Hg Hs; injection Hg as <-; injection Hs as <-;
      try (cell_is 0%Q); try (cell_is (0 * 100)%Q).
    - destruct (Qltb 0 s1) eqn:E; q_bool.
      + destruct (Qeq_bool s1 0) eqn:E0; q_bool; [exfalso; lra|].
        simpl. cell_is (g1 / s1 * 100)%Q.
      + simpl. cell_is 0%Q.
    - destruct (Qltb 0 s1) eqn:E; q_bool.
      + assert (E1 : Qltb s1 0 = false) by (apply Qltb_nlt; lra).
        rewrite E1. simpl. cell_is 0%Q.
      + simpl. cell_is 0%Q.
    - destruct (Qltb 0 s1) eqn:E; q_bool.
      + assert (E1 : Qltb s1 0 = false) by (apply Qltb_nlt; lra).
        rewrite E1. simpl. cell_is 0%Q.
      + simpl. cell_is 0%Q.
    - destruct (Qltb 0 s1) eqn:E; q_bool; simpl; cell_is 0%Q. }
  destruct Hgoal as [x [Hx [Hpos Hzero]]].
  exists x. repeat split; try assumption; now apply Hrange.
Qed.

Ltac unset H := repeat (rewrite assoc_set_assoc in H; simpl in H).

(** The derived rate of row [i], for a numerator and a denominator that are
    numeric columns of the input. *)
Lemma rate_column (vg vs : list fnum) (c : list bool) (q m : Series)
      (i : nat) (g0 s0 : fnum) :
  series_gt0 (NumCol vs) = Ok c ->
  series_div (NumCol vg) (NumCol vs) = Ok q ->
  series_mul q (Fin 100) = Ok m ->
  nth_error vg i = Some g0 -> nth_error vs i = Some s0 ->
  exists w, np_where0 c m = NumCol w /\
            nth_error w i =
            Some (if fgt0 s0 then fmul (fdiv g0 s0) (Fin 100) else Fin 0).
Proof.
  simpl. intros Hc Hq Hm Hg Hs.
  injection Hc as <-. injection Hq as <-. simpl in Hm. injection Hm as <-.
  simpl. eexists. split; [reflexivity|].
  rewrite nth_error_map2, !nth_error_map, nth_error_map2, Hg, Hs.
  reflexivity.
Qed.

End MetricFacts.

(* ================================================================== *)
(** ** Properties of the Metric Calculator *)
(* ================================================================== *)

Module MetricCalculator.

Import DataProcessor MetricFacts.

(** On a run of the Metric Calculator that gets to its clean-up, every
    cell of every numeric column of the table returned is a finite number:
    no NaN, no infinity, nothing missing. *)
Theorem enriched_numeric_finite (df df' : DataFrame) :
  calculate_player_metrics df = Enriched df' ->
  forall c v, In (c, NumCol v) (df_cols df') ->
              Forall (fun x => exists q, x = Fin q) v.
Proof.
  intros H.
  destruct (calculate_enriched df df' H)
    as (a & b & q & pa & d1 & c1 & n1 & q1 & m1 & d2 & c2 & n2 & q2 & m2 & Hdf).
  decompose [and] Hdf. subst df'.
  apply cleaned_numeric_finite.
Qed.

Lemma enriched_numeric_finite_witness :
  exists df', calculate_player_metrics Samples.metrics_table = Enriched df' /\
              forall c v, In (c, NumCol v) (df_cols df') ->
                          Forall (fun x => exists q, x = Fin q) v.
Proof.
  eexists. split; [vm_compute; reflexivity|].
  apply (enriched_numeric_finite Samples.metrics_table). vm_compute. reflexivity.
Defined.

(** On a run of the Metric Calculator that gets to its clean-up, every
    row of the table returned has [minutes_per_appearance] equal to
    [minutes_played / appearances] when [appearances > 0] and to [0] when
    [appearances = 0]. *)
Theorem minutes_per_appearance_spec (df df' : DataFrame) (i : nat) (a m : Q) :
  calculate_player_metrics df = Enriched df' ->
  num_at df' "appearances" i = Some (Fin a) ->
  num_at df' "minutes_played" i = Some (Fin m) ->
  exists x, num_at df' "minutes_per_appearance" i = Some (Fin x) /\
            (0 < a -> x == m / a)%Q /\ (a == 0 -> x == 0)%Q.
Proof.
  intros H Ha Hm.
  destruct (calculate_enriched df df' H)
    as (sa & sb & q & pa & d1 & c1 & n1 & q1 & m1 & d2 & c2 & n2 & q2 & m2 & Hdf).
  destruct Hdf as (Hsa & Hsb & Hq & _ & _ & _ & _ & _ & _ & _ & _ & _ & _ & _ & ->).
  apply num_at_cleaned in Ha. destruct Ha as (va & a0 & Hva & Hia & Hca).
  apply num_at_cleaned in Hm. destruct Hm as (vm & m0 & Hvm & Him & Hcm).
  unfold setcol in Hva, Hvm. simpl in Hva, Hvm. unset Hva. unset Hvm.
  rewrite Hva in Hsb. injection Hsb as <-.
  rewrite Hvm in Hsa. injection Hsa as <-.
  simpl in Hq. injection Hq as <-.
  destruct (quotient_cell m0 a0 m a (eq_sym Hcm) (eq_sym Hca))
    as (x & Hx & Hpos & Hzero).
  exists x. split; [|split; assumption].
  rewrite <- Hx.
  apply (num_at_cleaned_intro _ _ _ (map2 fdiv vm va)).
  - unfold setcol. simpl. repeat (rewrite assoc_set_assoc; simpl). reflexivity.
  - rewrite nth_error_map2, Him, Hia. reflexivity.
Qed.

Lemma minutes_per_appearance_witness :
  exists df' x,
    calculate_player_metrics Samples.metrics_table = Enriched df' /\
    num_at df' "minutes_per_appearance" 1 = Some (Fin x) /\
    (0 < 0 -> x == 0 / 0)%Q /\ (0 == 0 -> x == 0)%Q.
Proof.
  eexists.
  destruct (minutes_per_appearance_spec Samples.metrics_table _ 1 0 0
              ltac:(vm_compute; reflexivity) eq_refl eq_refl) as (x & Hx & Hr).
  exists x. split; [reflexivity|split; assumption].
Defined.

(** C6 fails on the code.  The Normalizer's table of an entry without
    [shots] block and without appearance has the text column
    [shots_total = ['']].  The Metric Calculator assigns
    [minutes_per_appearance = 90 / 0], raises on [shots_total > 0], and its
    [except] branch returns the frame without the clean-up:
    [minutes_per_appearance] is infinite where [appearances] is [0]. *)
Theorem minutes_per_appearance_uncleaned :
  exists df df',
    process_players_data (mk None) Samples.raw_no_shots
    = ([processing_complete df], mk (Some df)) /\
    calculate_player_metrics df = MetricsFailed TypeError df' /\
    num_at df' "appearances" 0 = Some (Samples.f 0) /\
    num_at df' "minutes_played" 0 = Some (Samples.f 90) /\
    num_at df' "minutes_per_appearance" 0 = Some PInf.
Proof.
  eexists. eexists.
  split; [vm_compute; reflexivity|].
  split; [vm_compute; reflexivity|].
  split; [|split]; vm_compute; reflexivity.
Qed.

(** C7 fails on the code, by the same [except] branch.  On the Normalizer's
    table of two entries without [shots] block and without appearance, the
    frame the Metric Calculator returns has the numeric column
    [minutes_per_appearance = [inf, NaN]]. *)
Theorem failed_run_not_finite :
  exists df df',
    process_players_data (mk None) Samples.raw_idle
    = ([processing_complete df], mk (Some df)) /\
    calculate_player_metrics df = MetricsFailed TypeError df' /\
    assoc "minutes_per_appearance" (df_cols df') = Some (NumCol [PInf; NaN]) /\
    ~ numeric_finite df'.
Proof.
  eexists. eexists.
  split; [vm_compute; reflexivity|].
  split; [vm_compute; reflexivity|].
  match goal with
  | |- ?A /\ _ => assert (Hcol : A) by (vm_compute; reflexivity)
  end.
  split; [exact Hcol|].
  intros Hfin. apply assoc_In in Hcol. apply Hfin in Hcol.
  inversion Hcol as [|? ? [q Hq] _]. discriminate Hq.
Qed.

(** C5, as the code has it.  On every row of the enriched table,
    [shot_conversion_rate] is [goals_total / shots_total * 100] when
    [shots_total > 0] and [0] otherwise, hence exactly [0] when the
    denominator is [0], and within [[0, 100]] when
    [0 <= goals_total <= shots_total]; the same holds of
    [duels_success_rate] with [duels_won] and [duels_total]. *)
Theorem rates_spec (df df' : DataFrame) (i : nat) :
  calculate_player_metrics df = Enriched df' ->
  (forall g s : Q,
      num_at df' "goals_total" i = Some (Fin g) ->
      num_at df' "shots_total" i = Some (Fin s) ->
      exists x, num_at df' "shot_conversion_rate" i = Some (Fin x) /\
                (0 < s -> x == g / s * 100)%Q /\
                (s <= 0 -> x == 0)%Q /\
                (0 <= g -> g <= s -> 0 <= x /\ x <= 100)%Q) /\
  (forall g s : Q,
      num_at df' "duels_won" i = Some (Fin g) ->
      num_at df' "duels_total" i = Some (Fin s) ->
      exists x, num_at df' "duels_success_rate" i = Some (Fin x) /\
                (0 < s -> x == g / s * 100)%Q /\
                (s <= 0 -> x == 0)%Q /\
                (0 <= g -> g <= s -> 0 <= x /\ x <= 100)%Q).
Proof.
  intros H.
  destruct (calculate_enriched df df' H)
    as (sa & sb & q & pa & d1 & c1 & n1 & q1 & m1 & d2 & c2 & n2 & q2 & m2 & Hdf).
  destruct Hdf as (_ & _ & _ & _ & Hd1 & Hc1 & Hn1 & Hq1 & Hm1
                   & Hd2 & Hc2 & Hn2 & Hq2 & Hm2 & ->).
  split; intros g s Hg Hs.
  - apply num_at_cleaned in Hg. destruct Hg as (vg & g0 & Hvg & Hig & Hcg).
    apply num_at_cleaned in Hs. destruct Hs as (vs & s0 & Hvs & His & Hcs).
    unfold setcol in Hvg, Hvs. simpl in Hvg, Hvs. unset Hvg. unset Hvs.
    rewrite Hvg in Hn1. injection Hn1 as <-.
    rewrite Hvs in Hd1. injection Hd1 as <-.
    destruct (rate_column vg vs c1 q1 m1 i g0 s0 Hc1 Hq1 Hm1 Hig His)
      as (w & Hw & Hiw).
    destruct (rate_cell g0 s0 g s (eq_sym Hcg) (eq_sym Hcs)) as (x & Hx & Hr).
    exists x. split; [|exact Hr].
    rewrite <- Hx.
    apply (num_at_cleaned_intro _ _ _ w); [|exact Hiw].
    unfold setcol. simpl. repeat (rewrite assoc_set_assoc; simpl).
    now rewrite Hw.
  - apply num_at_cleaned in Hg. destruct Hg as (vg & g0 & Hvg & Hig & Hcg).
    apply num_at_cleaned in Hs. destruct Hs as (vs & s0 & Hvs & His & Hcs).
    unfold setcol in Hvg, Hvs. simpl in Hvg, Hvs. unset Hvg. unset Hvs.
    rewrite Hvg in Hn2. injection Hn2 as <-.
    rewrite Hvs in Hd2. injection Hd2 as <-.
    destruct (rate_column vg vs c2 q2 m2 i g0 s0 Hc2 Hq2 Hm2 Hig His)
      as (w & Hw & Hiw).
    destruct (rate_cell g0 s0 g s (eq_sym Hcg) (eq_sym Hcs)) as (x & Hx & Hr).
    exists x. split; [|exact Hr].
    rewrite <- Hx.
    apply (num_at_cleaned_intro _ _ _ w); [|exact Hiw].
    unfold setcol. simpl. repeat (rewrite assoc_set_assoc; simpl).
    now rewrite Hw.
Qed.

Lemma rates_spec_witness :
  exists df',
    calculate_player_metrics Samples.metrics_table = Enriched df' /\
    exists x, num_at df' "duels_success_rate" 0 = Some (Fin x) /\
              (0 <= x /\ x <= 100)%Q.
Proof.
  eexists. split; [vm_compute; reflexivity|].
  destruct (rates_spec Samples.metrics_table _ 0
              ltac:(vm_compute; reflexivity)) as [_ Hd].
  destruct (Hd 1%Q 4%Q eq_refl eq_refl) as (x & Hx & _ & _ & Hr).
  exists x. split; [exact Hx|]. apply Hr; lra.
Defined.

(** C5, as the specification has it, fails: three goals out of two shots
    give a [shot_conversion_rate] of 150. *)
Lemma rate_above_100 :
  exists df' x,
    calculate_player_metrics Samples.metrics_table = Enriched df' /\
    num_at df' "shot_conversion_rate" 0 = Some (Fin x) /\
    ~ (0 <= x /\ x <= 100)%Q.
Proof.
  eexists. exists (300 # 2). split; [vm_compute; reflexivity|].
  split; [reflexivity|].
  intros [_ H]. revert H. apply Qlt_not_le. reflexivity.
Qed.

End MetricCalculator.

(* ================================================================== *)
(** ** Properties of the Normalizer *)
(* ================================================================== *)

Module Normalizer.

Import DataProcessor RawRecord.

Lemma py_get_dict (o : pyobj) (k : string) :
  is_dict o = true -> py_get o k (PDict []) = Ok (getd o k).
Proof. destruct o; simpl; intros; try discriminate; reflexivity. Qed.

Lemma py_get_none (o : pyobj) (k : string) :
  is_dict o = true -> py_get o k PNone = Ok (getn o k).
Proof. destruct o; simpl; intros; try discriminate; reflexivity. Qed.

Lemma getd_dict (o : pyobj) (k : string) :
  block_ok o k = true -> is_dict (getd o k) = true.
Proof.
  destruct o; simpl; try discriminate.
  destruct (assoc k d); [trivial|reflexivity].
Qed.

Lemma stat_ok_dict (stat : pyobj) : stat_ok stat = true -> is_dict stat = true.
Proof.
  unfold stat_ok. simpl. destruct stat; simpl; try discriminate. reflexivity.
Qed.

Lemma block_of_dict (info stat : pyobj) (b : block) :
  is_dict info = true -> stat_ok stat = true ->
  is_dict (block_of b ((BPlayer, info) :: env_of stat)) = true.
Proof.
  intros Hi Hs. unfold stat_ok in Hs. simpl in Hs.
  repeat (apply andb_prop in Hs; destruct Hs as [? Hs]).
  destruct b; simpl; try assumption; now apply getd_dict.
Qed.

Lemma row_of_ok (info stat : pyobj) :
  is_dict info = true -> stat_ok stat = true ->
  row_of info stat = Ok (record_of (info, stat)).
Proof.
  intros Hi Hs. unfold row_of.
  rewrite (mapM_ok _ (fun bk => (fst bk, getd stat (snd bk)))).
  - rewrite bind_Ok_l. unfold record_of. apply mapM_ok.
    intros fld _.
    rewrite py_get_none by (now apply block_of_dict). reflexivity.
  - intros bk _. rewrite py_get_dict by (now apply stat_ok_dict). reflexivity.
Qed.

Lemma rows_of_player_ok (player : pyobj) :
  entry_ok player = true ->
  rows_of_player player =
  Ok (map (fun st => record_of (info_of player, st)) (stats_of player)).
Proof.
  intros H. destruct player as [| | | |d]; try discriminate.
  simpl in H. apply andb_prop in H. destruct H as [Hp Hs].
  assert (Hinfo : is_dict (info_of (PDict d)) = true).
  { unfold info_of. simpl. destruct (assoc "player" d); [assumption|reflexivity]. }
  unfold rows_of_player.
  rewrite py_get_dict by reflexivity. fold (info_of (PDict d)).
  simpl. destruct (assoc "statistics" d) as [[| | |l|]|]; try discriminate.
  - simpl. apply mapM_ok. intros st Hst. apply row_of_ok; [assumption|].
    eapply forallb_forall in Hs; eassumption.
  - reflexivity.
Qed.

Lemma normalize_ok (players : list pyobj) :
  Forall (fun p => entry_ok p = true) players ->
  normalize players = Ok (map record_of (pairs players)).
Proof.
  intros H. unfold normalize.
  rewrite (mapM_ok _ (fun p => map (fun st => record_of (info_of p, st)) (stats_of p))).
  - simpl. f_equal. unfold pairs.
    induction players as [|p ps IH]; simpl; [reflexivity|].
    rewrite map_app, map_map. f_equal. apply IH. now inversion H.
  - intros p Hp. apply rows_of_player_ok.
    rewrite Forall_forall in H. now apply H.
Qed.




End Normalizer.

(* ================================================================== *)
(** ** Properties of the Feature Preprocessor *)
(* ================================================================== *)

Module FeaturePreprocessor.

Import Recommender.

Section WithNumerics.

Context {num : Numerics}.

(** C3, as the code has it.  On a table with fewer than 5 of the 14
    candidate columns the fit fails: with the insufficient-features error
    when the table has a row, with the no-data error when it has none.  The
    similarity index, the cluster model, the scaler and the table are left
    as they were; the feature-schema attribute is left as it was on the
    empty table and otherwise holds the 14 candidate names, the value every
    earlier fit of a table with a row has left there. *)
Theorem insufficient_features_fit (self : t) (df : DataFrame) :
  players_df self = Some df ->
  (length (existing_columns df) < 5)%nat ->
  (df_len df = 0%nat ->
   preprocess_data self = (None, [error_occurred NoDataError], self) /\
   train_models self = ([error_occurred NoDataError], self)) /\
  (df_len df <> 0%nat ->
   let self' := mk (knn_model self) (kmeans_model self)
                   (Some candidate_features) (scaler self) (players_df self) in
   preprocess_data self
   = (None, [error_occurred InsufficientFeaturesError], self') /\
   train_models self = ([error_occurred InsufficientFeaturesError], self') /\
   (feature_columns self = Some candidate_features -> self' = self)).
Proof.
  intros Hdf Hfew. split.
  - intros Hlen.
    assert (Hpre : preprocess_data self
                   = (None, [error_occurred NoDataError], self)).
    { unfold preprocess_data. rewrite Hdf, Hlen. reflexivity. }
    split; [exact Hpre|]. unfold train_models. rewrite Hpre. reflexivity.
  - intros Hlen self'.
    assert (Hpre : preprocess_data self
                   = (None, [error_occurred InsufficientFeaturesError], self')).
    { subst self'. unfold preprocess_data. rewrite Hdf.
      destruct (Nat.eqb (df_len df) 0) eqn:E;
        [apply Nat.eqb_eq in E; contradiction|].
      apply Nat.ltb_lt in Hfew. rewrite Hfew. reflexivity. }
    split; [exact Hpre|]. split.
    + unfold train_models. rewrite Hpre. reflexivity.
    + intros Hfc. subst self'. rewrite <- Hfc. destruct self; reflexivity.
Qed.

End WithNumerics.

#[local] Existing Instance Samples.numerics.

Lemma insufficient_features_fit_witness :
  train_models (set_data init Samples.three_features)
  = ([error_occurred InsufficientFeaturesError],
     mk None None (Some candidate_features) None (Some Samples.three_features)).
Proof.
  refine (proj1 (proj2 (proj2 (insufficient_features_fit
                                 (set_data init Samples.three_features)
                                 Samples.three_features eq_refl _) _))).
  - vm_compute. lia.
  - discriminate.
Defined.

(** C3, as the specification has it, fails on the empty table: none of the
    candidate columns is there, and the fit emits the no-data error. *)
Lemma empty_table_fit :
  (length (existing_columns Samples.empty_table) < 5)%nat /\
  train_models (set_data init Samples.empty_table)
  = ([error_occurred NoDataError], set_data init Samples.empty_table) /\
  fst (train_models (set_data init Samples.empty_table))
  <> [error_occurred InsufficientFeaturesError].
Proof.
  split; [vm_compute; lia|]. split; [reflexivity|]. discriminate.
Qed.

End FeaturePreprocessor.

(* ================================================================== *)
(** ** The query path of the similarity mode *)
(* ================================================================== *)

Module QueryFacts.

Import Recommender.

Section WithNumerics.

Context {num : Numerics}.

Lemma preprocess_data_some (self self' : t) X cols sigs :
  preprocess_data self = (Some (X, cols), sigs, self') ->
  exists df M p,
    players_df self = Some df /\
    df_len df <> 0%nat /\
    to_array df (existing_columns df) = Ok M /\
    pipeline_fit M = Ok p /\
    X = map (transform_row p) M /\
    sigs = [] /\
    self' = fitted self p.
Proof.
  unfold preprocess_data. cbv zeta.
  destruct (players_df self) as [df|] eqn:Hdf; [|discriminate].
  destruct (Nat.eqb (df_len df) 0) eqn:Hlen; [discriminate|].
  destruct (Nat.ltb (length (existing_columns df)) 5); [discriminate|].
  destruct (to_array df (existing_columns df)) as [M|] eqn:HM;
    [|discriminate].
  rewrite bind_Ok_l. unfold fit_transform.
  destruct (pipeline_fit M) as [p|] eqn:Hp; [|discriminate].
  rewrite bind_Ok_l. cbv beta iota. intros H. inversion H; subst; clear H.
  exists df, M, p. apply Nat.eqb_neq in Hlen.
  unfold fitted. simpl. rewrite Hdf. repeat split; assumption.
Qed.

Lemma preprocess_data_none (self self' : t) sigs :
  preprocess_data self = (None, sigs, self') ->
  (exists err, sigs = [error_occurred err]) /\
  knn_model self' = knn_model self /\
  kmeans_model self' = kmeans_model self /\
  scaler self' = scaler self /\
  players_df self' = players_df self.
Proof.
  unfold preprocess_data. cbv zeta.
  destruct (players_df self) as [df|] eqn:Hdf.
  - destruct (Nat.eqb (df_len df) 0).
    + intros H. inversion H; subst; clear H. rewrite Hdf. eauto 10.
    + destruct (Nat.ltb (length (existing_columns df)) 5).
      * intros H. inversion H; subst; clear H. simpl. eauto 10.
      * destruct (bind (to_array df (existing_columns df)) _)
          as [[X p]|e]; cbv beta iota; [discriminate|].
        intros H. inversion H; subst; clear H. simpl. eauto 10.
  - intros H. inversion H; subst; clear H. rewrite Hdf. eauto 10.
Qed.

(** A run of [train_models] either trains both models and emits
    [model_trained] alone, or emits an error and no [model_trained]. *)
Lemma train_models_cases (self self' : t) sigs :
  train_models self = (sigs, self') ->
  (exists df M p labels,
      players_df self = Some df /\
      to_array df (existing_columns df) = Ok M /\
      pipeline_fit M = Ok p /\
      sigs = [model_trained] /\
      knn_model self' = Some (mkKnn (Nat.min 11 (length M))
                                    (map (transform_row p) M)) /\
      scaler self' = Some (scaler_step p) /\
      players_df self' = Some (setcol df "cluster" (NumCol labels)))
  \/ (exists err, sigs = [error_occurred err]).
Proof.
  unfold train_models.
  destruct (preprocess_data self) as [[[[X cols]|] sigs0] self1] eqn:Hpre.
  - apply preprocess_data_some in Hpre.
    destruct Hpre as (df & M & p & Hdf & Hlen & HM & Hp & -> & -> & ->).
    simpl. rewrite Hdf.
    destruct (Nat.eqb _ (df_len df)).
    + intros H. inversion H; subst; clear H. left.
      exists df, M, p. eexists. simpl. rewrite length_map.
      repeat split; try assumption; reflexivity.
    + intros H. inversion H; subst; clear H. right. eauto.
  - apply preprocess_data_none in Hpre. destruct Hpre as [[err ->] _].
    intros H. inversion H; subst; clear H. right. eauto.
Qed.

(** What a query that reaches the search has computed. *)
Lemma prepare_query_some (self self' : t) (player_id n : Z) (q : Query) sigs :
  prepare_query self player_id n = (Some q, sigs, self') ->
  exists self1 sigs0 df ids M p row,
    (knn_model self = None /\ train_models self = (sigs0, self1)
     \/ knn_model self <> None /\ sigs0 = [] /\ self1 = self) /\
    knn_model self1 = Some (q_model q) /\
    players_df self1 = Some df /\ q_df q = df /\
    assoc "player_id" (df_cols df) = Some ids /\
    hd_error (positions_of (series_eq ids (PNum (Fin (inject_Z player_id)))))
    = Some (q_idx q) /\
    to_array df (existing_columns df) = Ok M /\
    pipeline_fit M = Ok p /\
    nth_error M (q_idx q) = Some row /\
    q_vector q = transform_row p row /\
    q_k q = (n + 1)%Z /\
    sigs = sigs0 /\
    self' = fitted self1 p.
Proof.
  unfold prepare_query.
  set (first := match knn_model self with
                | None => train_models self
                | Some _ => ([], self)
                end).
  assert (Hfirst : knn_model self = None /\ train_models self = first
                   \/ knn_model self <> None /\ first = ([], self)).
  { subst first. destruct (knn_model self); [right|left]; split;
      try reflexivity; discriminate. }
  destruct first as [sigs0 self1].
  destruct (knn_model self1) as [knn|] eqn:Hknn; [|discriminate].
  destruct (players_df self1) as [df|] eqn:Hdf; [|discriminate].
  destruct (getcol df "player_id") as [ids|] eqn:Hids; [|discriminate].
  destruct (positions_of _) as [|idx rest] eqn:Hpos; [discriminate|].
  destruct (preprocess_data self1) as [[[[X cols]|] sigs1] self2] eqn:Hpre;
    [|discriminate].
  destruct (nth_error X idx) as [v|] eqn:Hv; [|discriminate].
  intros H. inversion H; subst; clear H.
  apply preprocess_data_some in Hpre.
  destruct Hpre as (df' & M & p & Hdf' & _ & HM & Hp & -> & -> & ->).
  rewrite Hdf in Hdf'. injection Hdf' as <-.
  rewrite nth_error_map in Hv.
  destruct (nth_error M idx) as [row|] eqn:Hrow; [|discriminate].
  injection Hv as <-.
  exists self1, sigs0, df, ids, M, p, row. simpl.
  rewrite Hpos. apply getcol_Ok in Hids. rewrite app_nil_r.
  repeat split; try assumption; try reflexivity.
  destruct Hfirst as [[H1 H2]|[H1 H2]]; [left|right]; split; try assumption.
  inversion H2; subst. split; reflexivity.
Qed.

End WithNumerics.

End QueryFacts.

(* ================================================================== *)
(** ** Train/query consistency *)
(* ================================================================== *)

Module TrainQuery.

Import Recommender QueryFacts.

Section WithNumerics.

Context {num : Numerics}.

Lemma mapM_ext_in {A B : Type} (g h : A -> res B) (l : list A) :
  (forall a, In a l -> g a = h a) -> mapM g l = mapM h l.
Proof.
  induction l as [|a l IH]; intros H; simpl; [reflexivity|].
  rewrite (H a (or_introl eq_refl)), IH; [reflexivity|].
  intros; apply H; now right.
Qed.

Lemma candidate_not_cluster (c : string) :
  In c candidate_features -> String.eqb c "cluster" = false.
Proof.
  intros H.
  assert (Hall : forallb (fun c => negb (String.eqb c "cluster"))
                         candidate_features = true) by reflexivity.
  rewrite forallb_forall in Hall. apply negb_true_iff. now apply Hall.
Qed.

Lemma existing_columns_cluster (df : DataFrame) (s : Series) :
  existing_columns (setcol df "cluster" s) = existing_columns df.
Proof.
  unfold existing_columns. apply filter_ext_in. intros c Hc.
  unfold has_col, setcol. simpl. rewrite assoc_set_assoc.
  now rewrite (candidate_not_cluster c Hc).
Qed.

Lemma existing_columns_candidates (df : DataFrame) (c : string) :
  In c (existing_columns df) -> In c candidate_features.
Proof. unfold existing_columns. intros H. now apply filter_In in H. Qed.

(** The cluster labels written back on the table by [train_models] are
    not a feature: the array the pipeline is fitted on is the same with
    and without them. *)
Lemma to_array_cluster (df : DataFrame) (s : Series) :
  to_array (setcol df "cluster" s) (existing_columns (setcol df "cluster" s))
  = to_array df (existing_columns df).
Proof.
  rewrite existing_columns_cluster. unfold to_array.
  rewrite (mapM_ext_in _ (fun c => s0 <- getcol df c ;; series_to_float s0));
    [reflexivity|].
  intros c Hc. unfold getcol, setcol. simpl. rewrite assoc_set_assoc.
  now rewrite (candidate_not_cluster c (existing_columns_candidates df c Hc)).
Qed.

(** C2, as the code has it.  The vector a similarity query searches the
    index with is the transform of the reference player's row (the first
    row of the table whose [player_id] cell equals the id asked for) under a
    pipeline (imputation means, scaling mean and std) fitted again, inside
    the query, on the table the engine holds at that moment, and the
    scaler attribute is overwritten with that fit.  When the engine state
    is the one a successful [train_models] left, the array the query fits
    on is the array the training fitted on, hence the same pipeline. *)
Theorem query_vector_refit (self self' : t) (player_id n : Z) (q : Query) sigs :
  prepare_query self player_id n = (Some q, sigs, self') ->
  exists df ids c M p row,
    players_df self' = Some df /\
    assoc "player_id" (df_cols df) = Some ids /\
    nth_error (cells ids) (q_idx q) = Some c /\
    py_eq c (PNum (Fin (inject_Z player_id))) = true /\
    (forall j c', (j < q_idx q)%nat -> nth_error (cells ids) j = Some c' ->
                  py_eq c' (PNum (Fin (inject_Z player_id))) = false) /\
    to_array df (existing_columns df) = Ok M /\
    pipeline_fit M = Ok p /\
    nth_error M (q_idx q) = Some row /\
    q_vector q = transform_row p row /\
    scaler self' = Some (scaler_step p) /\
    (forall self0 sigs0 df0,
        train_models self0 = (sigs0, self) -> In model_trained sigs0 ->
        players_df self0 = Some df0 ->
        to_array df0 (existing_columns df0) = Ok M).
Proof.
  intros H. apply prepare_query_some in H.
  destruct H as (self1 & sigs0 & df & ids & M & p & row & Hfirst & Hknn & Hdf
                 & _ & Hids & Hpos & HM & Hp & Hrow & Hv & _ & _ & ->).
  destruct (first_position_of_id _ _ _ Hpos) as (c & Hc & Heq & Hbefore).
  exists df, ids, c, M, p, row. simpl. repeat split; try assumption.
  intros self0 sigs1 df0 Htrain Htrained Hdf0.
  apply train_models_cases in Htrain.
  destruct Htrain as [(df0' & M0 & p0 & labels & Hdf0' & _ & _ & _ & Hk & _ & Hdf1)
                     |[err ->]].
  - destruct Hfirst as [[Hnone _]|[_ [_ ->]]]; [congruence|].
    rewrite Hdf0 in Hdf0'. injection Hdf0' as <-.
    rewrite Hdf1 in Hdf. injection Hdf as <-.
    now rewrite to_array_cluster in HM.
  - destruct Htrained as [Habs|[]]. discriminate.
Qed.

End WithNumerics.

#[local] Existing Instance Samples.numerics.

Lemma two_stints_trained :
  train_models (set_data init Samples.two_stints)
  = ([model_trained], snd (train_models (set_data init Samples.two_stints))).
Proof. vm_compute. reflexivity. Qed.

Lemma two_stints_query :
  exists q self',
    prepare_query (snd (train_models (set_data init Samples.two_stints))) 1 1
    = (Some q, [], self').
Proof. eexists. eexists. vm_compute. reflexivity. Qed.

Lemma query_vector_refit_witness :
  exists q self' df M p row,
    prepare_query (snd (train_models (set_data init Samples.two_stints))) 1 1
    = (Some q, [], self') /\
    players_df self' = Some df /\
    to_array df (existing_columns df) = Ok M /\
    pipeline_fit M = Ok p /\
    nth_error M (q_idx q) = Some row /\
    q_vector q = transform_row p row /\
    to_array Samples.two_stints (existing_columns Samples.two_stints) = Ok M.
Proof.
  destruct two_stints_query as (q & self' & Hrun).
  exists q, self'.
  destruct (query_vector_refit _ _ _ _ _ _ Hrun)
    as (df & ids & c & M & p & row & Hdf & _ & _ & _ & _ & HM & Hp & Hrow & Hv
        & _ & Hsame).
  exists df, M, p, row. split; [exact Hrun|].
  repeat split; try assumption.
  exact (Hsame (set_data init Samples.two_stints) [model_trained]
               Samples.two_stints two_stints_trained
               (or_introl eq_refl) eq_refl).
Defined.

(** C2, as the specification has it, fails.  An engine trained on one
    table and then handed another one answers a query with a vector
    standardized on the new table, not under the state of the fit, and
    leaves a scaler that is not the one the training stored. *)
Lemma query_refits_on_current_table :
  let trained := snd (train_models (set_data init Samples.two_stints)) in
  exists p0 sc0 q self' sc' M row,
    (X <- to_array Samples.two_stints (existing_columns Samples.two_stints) ;;
     pipeline_fit X) = Ok p0 /\
    scaler trained = Some sc0 /\ sc0 = scaler_step p0 /\
    prepare_query (set_data trained Samples.two_players_later) 1 1
    = (Some q, [], self') /\
    to_array Samples.two_players_later
             (existing_columns Samples.two_players_later) = Ok M /\
    nth_error M (q_idx q) = Some row /\
    vec_eqb (q_vector q) (transform_row p0 row) = false /\
    scaler self' = Some sc' /\
    vec_eqb (mean_ sc') (mean_ sc0) = false.
Proof.
  do 7 eexists.
  split; [vm_compute; reflexivity|].
  split; [vm_compute; reflexivity|].
  split; [reflexivity|].
  split; [vm_compute; reflexivity|].
  split; [vm_compute; reflexivity|].
  split; [vm_compute; reflexivity|].
  split; [vm_compute; reflexivity|].
  split; [vm_compute; reflexivity|].
  vm_compute; reflexivity.
Qed.

End TrainQuery.

(* ================================================================== *)
(** ** The similarity index *)
(* ================================================================== *)

Module IndexFacts.

Import Recommender QueryFacts.

Lemma insert_length {A : Type} (le : A -> A -> bool) (x : A) (l : list A) :
  length (insert le x l) = S (length l).
Proof.
  induction l as [|y l IH]; simpl; [reflexivity|].
  destruct (le x y); simpl; [reflexivity|now rewrite IH].
Qed.

Lemma isort_length {A : Type} (le : A -> A -> bool) (l : list A) :
  length (isort le l) = length l.
Proof.
  induction l as [|x l IH]; simpl; [reflexivity|].
  now rewrite insert_length, IH.
Qed.

Lemma insert_In {A : Type} (le : A -> A -> bool) (x y : A) (l : list A) :
  In y (insert le x l) <-> y = x \/ In y l.
Proof.
  induction l as [|z l IH]; simpl.
  - intuition congruence.
  - destruct (le x z); simpl; [intuition congruence|].
    rewrite IH. intuition congruence.
Qed.

Lemma isort_In {A : Type} (le : A -> A -> bool) (y : A) (l : list A) :
  In y (isort le l) <-> In y l.
Proof.
  induction l as [|x l IH]; simpl; [reflexivity|].
  rewrite insert_In, IH. intuition congruence.
Qed.

Lemma insert_sorted (x : Q * nat) (l : list (Q * nat)) :
  StronglySorted nearer l -> StronglySorted nearer (insert dist_le x l).
Proof.
  induction 1 as [|y l Hs IH Hall]; simpl.
  - repeat constructor.
  - unfold dist_le at 1. destruct (Qle_bool (fst x) (fst y)) eqn:E.
    + apply Qle_bool_iff in E. constructor; [now constructor|].
      constructor; [exact E|].
      eapply Forall_impl; [|exact Hall].
      intros z Hz. unfold nearer in *. lra.
    + assert (Hyx : nearer y x).
      { unfold nearer. destruct (Qlt_le_dec (fst y) (fst x)) as [Hlt|Hle];
          [lra|]. apply Qle_bool_iff in Hle. congruence. }
      constructor; [exact IH|].
      apply Forall_forall. intros z Hz. apply insert_In in Hz.
      destruct Hz as [->|Hz]; [exact Hyx|].
      rewrite Forall_forall in Hall. now apply Hall.
Qed.

Lemma isort_sorted (l : list (Q * nat)) :
  StronglySorted nearer (isort dist_le l).
Proof.
  induction l as [|x l IH]; simpl; [constructor|now apply insert_sorted].
Qed.

Lemma firstn_sorted {A : Type} (R : A -> A -> Prop) (k : nat) (l : list A) :
  StronglySorted R l -> StronglySorted R (firstn k l).
Proof.
  intros H. revert k. induction H as [|x l Hs IH Hall]; intros k.
  - rewrite firstn_nil. constructor.
  - destruct k; simpl; constructor; [apply IH|].
    apply Forall_forall. intros y Hy.
    rewrite Forall_forall in Hall. apply Hall.
    revert Hy. clear. revert k. induction l as [|z l IHl]; intros k Hy.
    + rewrite firstn_nil in Hy. destruct Hy.
    + destruct k; simpl in Hy; [destruct Hy|].
      destruct Hy as [->|Hy]; [now left|right; eauto].
Qed.

Lemma firstn_incl {A : Type} (k : nat) (l : list A) (x : A) :
  In x (firstn k l) -> In x l.
Proof.
  revert k. induction l as [|z l IH]; intros k H.
  - rewrite firstn_nil in H. destruct H.
  - destruct k; simpl in H; [destruct H|].
    destruct H as [->|H]; [now left|right; eauto].
Qed.

Lemma tl_sorted {A : Type} (R : A -> A -> Prop) (l : list A) :
  StronglySorted R l -> StronglySorted R (tl l).
Proof. destruct 1; simpl; [constructor|assumption]. Qed.

Lemma tl_incl {A : Type} (l : list A) (x : A) : In x (tl l) -> In x l.
Proof. destruct l; simpl; [trivial|now right]. Qed.

Lemma map_fst_sorted (l : list (Q * nat)) :
  StronglySorted nearer l -> StronglySorted Qle (map fst l).
Proof.
  induction 1 as [|x l Hs IH Hall]; simpl; constructor; [assumption|].
  apply Forall_forall. intros d Hd. apply in_map_iff in Hd.
  destruct Hd as [y [<- Hy]]. rewrite Forall_forall in Hall. now apply Hall.
Qed.

Lemma enumerate_In {A : Type} (l : list A) (i : nat) (x : A) :
  In (i, x) (enumerate l) -> nth_error l i = Some x.
Proof.
  unfold enumerate.
  assert (H : forall s, In (i, x) (combine (seq s (length l)) l) ->
                        (s <= i)%nat /\ nth_error l (i - s) = Some x).
  { induction l as [|y l IH]; intros s Hin; simpl in Hin; [destruct Hin|].
    destruct Hin as [Heq|Hin].
    - injection Heq as -> ->. split; [lia|]. now rewrite Nat.sub_diag.
    - apply IH in Hin. destruct Hin as [Hle Hnth]. split; [lia|].
      replace (i - s)%nat with (S (i - S s)) by lia. exact Hnth. }
  intros Hin. apply H in Hin. destruct Hin as [_ Hnth].
  now rewrite Nat.sub_0_r in Hnth.
Qed.

Section WithNumerics.

Context {num : Numerics}.

(** What a search that returns has returned. *)
Lemma kneighbors_ok (m : NearestNeighbors) (q : list Q) (k : Z)
      (neighbours : list (Q * nat)) :
  kneighbors m q k = Ok neighbours ->
  (0 < k)%Z /\ (k <= Z.of_nat (length (fit_X m)))%Z /\
  length neighbours = Z.to_nat k /\
  StronglySorted nearer neighbours /\
  Forall (fun di => exists row, nth_error (fit_X m) (snd di) = Some row /\
                                fst di = euclidean q row) neighbours.
Proof.
  unfold kneighbors.
  destruct (Z.leb k 0) eqn:Ek; [discriminate|].
  destruct (negb _); [discriminate|].
  destruct (Z.ltb _ k) eqn:En; [discriminate|].
  apply Z.leb_gt in Ek. apply Z.ltb_ge in En.
  intros H. injection H as <-.
  split; [exact Ek|]. split; [exact En|]. split; [|split].
  - rewrite length_firstn, isort_length, length_map.
    unfold enumerate. rewrite length_combine, length_seq. lia.
  - apply firstn_sorted, isort_sorted.
  - apply Forall_forall. intros di Hdi.
    apply firstn_incl, isort_In, in_map_iff in Hdi.
    destruct Hdi as [[i row] [<- Hin]]. simpl.
    exists row. split; [now apply enumerate_In|reflexivity].
Qed.

Lemma df_take_setcol_len (df : DataFrame) idxs c s :
  df_len (setcol (df_take idxs df) c s) = length idxs.
Proof. reflexivity. Qed.

(** What an answered query has computed. *)
Lemma answer_ok (q : Query) (r : SimilarityResult) :
  answer q = Ok r ->
  exists neighbours,
    kneighbors (q_model q) (q_vector q) (q_k q) = Ok neighbours /\
    similar_indices r = map snd (tl neighbours) /\
    similar_distances r = map fst (tl neighbours) /\
    Forall (fun i => (i < df_len (q_df q))%nat) (similar_indices r) /\
    similar_players r
    = setcol (df_take (similar_indices r) (q_df q)) "similarity_score"
             (NumCol (map similarity_score (similar_distances r))).
Proof.
  unfold answer. intros H.
  apply bind_Ok in H. destruct H as [nb [Hnb H]].
  apply bind_Ok in H. destruct H as [players [Hp H]].
  injection H as <-. simpl.
  unfold iloc in Hp.
  destruct (forallb _ _) eqn:E; [|discriminate]. injection Hp as <-.
  exists nb. repeat split; try assumption.
  apply Forall_forall. intros i Hi.
  rewrite forallb_forall in E. apply Nat.ltb_lt. now apply E.
Qed.

(** The signals of the part of a query that comes before the search: never
    a recommendation, and an error when the search is not reached. *)
Lemma prepare_query_signals (self self' : t) (player_id n : Z) r sigs :
  prepare_query self player_id n = (r, sigs, self') ->
  (forall out, ~ In (recommendation_ready out) sigs) /\
  (r = None -> exists err, In (error_occurred err) sigs).
Proof.
  unfold prepare_query.
  set (first := match knn_model self with
                | None => train_models self
                | Some _ => ([], self)
                end).
  assert (Hfirst : forall out, ~ In (recommendation_ready out) (fst first)).
  { subst first. destruct (knn_model self); [intros out []|].
    destruct (train_models self) as [sigs0 self1] eqn:Ht.
    apply train_models_cases in Ht. simpl.
    destruct Ht as [(?&?&?&?&_&_&_&->&_)|[err ->]];
      intros out [H|[]]; discriminate. }
  destruct first as [sigs0 self1]. simpl in Hfirst.
  assert (Hno : forall err out,
             ~ In (recommendation_ready out) (sigs0 ++ [error_occurred err])).
  { intros err out H. apply in_app_or in H.
    destruct H as [H|[H|[]]]; [now apply (Hfirst out)|discriminate]. }
  assert (Herr : forall err, exists e,
               In (error_occurred e) (sigs0 ++ [error_occurred err])).
  { intros err. exists err. apply in_or_app. right. now left. }
  destruct (knn_model self1) as [knn|];
    [|intros H; inversion H; subst; split; [apply Hno|intros; apply Herr]].
  destruct (players_df self1) as [df|];
    [|intros H; inversion H; subst; split; [apply Hno|intros; apply Herr]].
  destruct (getcol df "player_id") as [ids|];
    [|intros H; inversion H; subst; split; [apply Hno|intros; apply Herr]].
  destruct (positions_of _) as [|idx rest];
    [intros H; inversion H; subst; split; [apply Hno|intros; apply Herr]|].
  destruct (preprocess_data self1) as [[[[X cols]|] sigs1] self2] eqn:Hpre.
  - apply preprocess_data_some in Hpre.
    destruct Hpre as (_ & _ & _ & _ & _ & _ & _ & _ & -> & _).
    destruct (nth_error X idx);
      intros H; inversion H; subst.
    + rewrite app_nil_r. split; [exact Hfirst|discriminate].
    + simpl. split; [apply Hno|intros; apply Herr].
  - apply preprocess_data_none in Hpre. destruct Hpre as [[err ->] _].
    intros H; inversion H; subst. split; [apply Hno|intros; apply Herr].
Qed.

(** A query emits a recommendation only when it got to the search and
    the search and the row lookup went through. *)
Lemma recommendation_ready_inv (self self' : t) (player_id n : Z) sigs out :
  recommend_similar_players self player_id n = (sigs, self') ->
  In (recommendation_ready out) sigs ->
  exists q r sigs0,
    prepare_query self player_id n = (Some q, sigs0, self') /\
    answer q = Ok r /\ out = similar_players r.
Proof.
  unfold recommend_similar_players.
  destruct (prepare_query self player_id n) as [[[q|] sigs0] self1] eqn:Hq.
  - destruct (prepare_query_signals _ _ _ _ _ _ Hq) as [Hno _].
    destruct (answer q) as [r|e] eqn:Hr; intros H Hin;
      inversion H; subst; apply in_app_or in Hin;
      (destruct Hin as [Hin|[Hin|[]]]; [now apply Hno in Hin|]).
    + injection Hin as <-. exists q, r, sigs0. repeat split; assumption.
    + discriminate.
  - destruct (prepare_query_signals _ _ _ _ _ _ Hq) as [Hno _].
    intros H Hin. inversion H; subst. now apply Hno in Hin.
Qed.

End WithNumerics.

End IndexFacts.

(* ================================================================== *)
(** ** Properties of the similarity mode *)
(* ================================================================== *)

Module SimilarityIndex.

Import Recommender QueryFacts IndexFacts.

Lemma Forall2_fst_snd {A B : Type} (P : A -> B -> Prop) (l : list (A * B)) :
  Forall (fun ab => P (fst ab) (snd ab)) l ->
  Forall2 P (map fst l) (map snd l).
Proof. induction 1; simpl; constructor; assumption. Qed.

Lemma Forall_tl {A : Type} (P : A -> Prop) (l : list A) :
  Forall P l -> Forall P (tl l).
Proof. destruct 1; simpl; [constructor|assumption]. Qed.

Lemma score_of_distance (d : Q) :
  (0 <= d)%Q -> similarity_score d = Fin (1 / (1 + d)).
Proof.
  intros Hd. unfold similarity_score, fdiv.
  destruct (Qeq_bool (1 + d) 0) eqn:E; [|reflexivity].
  apply Qeq_bool_iff in E. exfalso. lra.
Qed.

Lemma score_range (d : Q) :
  (0 <= d)%Q -> (0 < 1 / (1 + d) /\ 1 / (1 + d) <= 1)%Q.
Proof.
  intros Hd. split.
  - apply Qlt_shift_div_l; lra.
  - apply Qle_shift_div_r; lra.
Qed.

Lemma score_antitone (a b : Q) :
  (0 <= a)%Q -> (a <= b)%Q -> (1 / (1 + b) <= 1 / (1 + a))%Q.
Proof.
  intros Ha Hab.
  apply Qle_shift_div_l; [lra|].
  assert (E : (1 / (1 + b) * (1 + a) == (1 + a) / (1 + b))%Q)
    by (field; lra).
  rewrite E. apply Qle_shift_div_r; lra.
Qed.

Lemma scores_sorted (dists : list Q) :
  Forall (fun d => 0 <= d)%Q dists ->
  StronglySorted Qle dists ->
  StronglySorted (fun a b => b <= a)%Q (map (fun d => 1 / (1 + d))%Q dists).
Proof.
  intros Hpos Hs. induction Hs as [|d l Hs IH Hall]; simpl; constructor.
  - apply IH. now inversion Hpos.
  - apply Forall_forall. intros s Hin. apply in_map_iff in Hin.
    destruct Hin as [e [<- He]]. rewrite Forall_forall in Hall.
    apply score_antitone; [now inversion Hpos|now apply Hall].
Qed.

Section WithNumerics.

Context {num : Numerics}.

(** C10.  A similarity query that emits a recommendation asked for no
    more neighbours than the index was fitted on, [n_recommendations + 1
    <= n], and returns exactly [n_recommendations] rows; a query that asks
    for more than the [n] fitted rows emits an error and no
    recommendation. *)
Theorem neighbours_within_fitted_rows (self self' : t) (player_id n : Z) sigs :
  recommend_similar_players self player_id n = (sigs, self') ->
  (forall out, In (recommendation_ready out) sigs ->
     exists knn, knn_model self' = Some knn /\
                 (n + 1 <= Z.of_nat (length (fit_X knn)))%Z /\
                 Z.of_nat (df_len out) = n) /\
  (forall knn, knn_model self' = Some knn ->
     (Z.of_nat (length (fit_X knn)) < n + 1)%Z ->
     (forall out, ~ In (recommendation_ready out) sigs) /\
     exists err, In (error_occurred err) sigs).
Proof.
  intros Hrun.
  assert (Hready : forall out, In (recommendation_ready out) sigs ->
            exists knn, knn_model self' = Some knn /\
                        (n + 1 <= Z.of_nat (length (fit_X knn)))%Z /\
                        Z.of_nat (df_len out) = n).
  { intros out Hin.
    destruct (recommendation_ready_inv _ _ _ _ _ _ Hrun Hin)
      as (q & r & sigs0 & Hq & Hr & ->).
    apply prepare_query_some in Hq.
    destruct Hq as (self1 & s0 & df & ids & M & p & row & _ & Hknn & _ & _ & _
                    & _ & _ & _ & _ & _ & Hk & _ & ->).
    apply answer_ok in Hr.
    destruct Hr as (nb & Hnb & Hidx & _ & _ & ->).
    apply kneighbors_ok in Hnb. rewrite Hk in Hnb.
    destruct Hnb as (Hpos & Hle & Hlen & _).
    exists (q_model q). split; [exact Hknn|]. split; [exact Hle|].
    rewrite df_take_setcol_len, Hidx, length_map.
    destruct nb as [|x nb]; simpl in *; lia. }
  split; [exact Hready|].
  intros knn Hknn Hfew. split.
  - intros out Hin. destruct (Hready out Hin) as (knn' & Hk' & Hle & _).
    rewrite Hknn in Hk'. injection Hk' as <-. lia.
  - revert Hrun Hready. unfold recommend_similar_players.
    destruct (prepare_query self player_id n) as [[[q|] sigs0] self1] eqn:Hq.
    + destruct (answer q) as [r|e]; intros H Hready; inversion H; subst.
      * exfalso.
        destruct (Hready (similar_players r)) as (knn' & Hk' & Hle & _).
        { apply in_or_app. right. now left. }
        rewrite Hknn in Hk'. injection Hk' as <-. lia.
      * eexists. apply in_or_app. right. now left.
    + intros H _. inversion H; subst.
      now apply (prepare_query_signals _ _ _ _ _ _ Hq).
Qed.

(** C8.  The rows of a recommendation come by non-decreasing distance to
    the query vector; the score of each is [1 / (1 + distance)]; the scores
    do not increase along the list and lie in [(0, 1]].  The frame emitted
    is the engine's table at the row positions found, in that order, the
    [k]-th row with the score of the [k]-th distance. *)
Theorem results_ordered_by_distance (self self' : t) (player_id n : Z) sigs out :
  (forall x, 0 <= sqrt x)%Q ->
  recommend_similar_players self player_id n = (sigs, self') ->
  In (recommendation_ready out) sigs ->
  exists q r sigs0,
    prepare_query self player_id n = (Some q, sigs0, self') /\
    answer q = Ok r /\ out = similar_players r /\
    Forall2 (fun d i => exists row,
                 nth_error (fit_X (q_model q)) i = Some row /\
                 d = euclidean (q_vector q) row)
            (similar_distances r) (similar_indices r) /\
    StronglySorted Qle (similar_distances r) /\
    assoc "similarity_score" (df_cols out)
    = Some (NumCol (map (fun d => Fin (1 / (1 + d))) (similar_distances r))) /\
    StronglySorted (fun a b => b <= a)%Q
                   (map (fun d => 1 / (1 + d))%Q (similar_distances r)) /\
    Forall (fun d => 0 < 1 / (1 + d) /\ 1 / (1 + d) <= 1)%Q
           (similar_distances r) /\
    exists df,
      players_df self' = Some df /\
      Forall (fun i => (i < df_len df)%nat) (similar_indices r) /\
      length (similar_distances r) = length (similar_indices r) /\
      out = setcol (df_take (similar_indices r) df) "similarity_score"
                   (NumCol (map similarity_score (similar_distances r))).
Proof.
  intros Hsqrt Hrun Hin.
  destruct (recommendation_ready_inv _ _ _ _ _ _ Hrun Hin)
    as (q & r & sigs0 & Hq & Hr & ->).
  exists q, r, sigs0. split; [exact Hq|]. split; [exact Hr|].
  split; [reflexivity|].
  assert (Htable : exists df, players_df self' = Some df /\ q_df q = df).
  { apply prepare_query_some in Hq.
    destruct Hq as (self1 & sigs1 & df & ids & M & p & row & _ & _ & Hdf & Hqdf
                    & _ & _ & _ & _ & _ & _ & _ & _ & ->).
    exists df. split; [exact Hdf|exact Hqdf]. }
  destruct Htable as (df & Hdf & Hqdf).
  apply answer_ok in Hr.
  destruct Hr as (nb & Hnb & Hidx & Hdist & Hbound & Hplayers).
  apply kneighbors_ok in Hnb.
  destruct Hnb as (_ & _ & _ & Hsorted & Hall).
  assert (Hpos : Forall (fun d => 0 <= d)%Q (similar_distances r)).
  { rewrite Hdist. apply Forall_forall. intros d Hd.
    apply in_map_iff in Hd. destruct Hd as [di [<- Hdi]].
    apply tl_incl in Hdi. rewrite Forall_forall in Hall.
    destruct (Hall di Hdi) as (row & _ & ->). apply Hsqrt. }
  split; [|split; [|split; [|split; [|split]]]].
  - rewrite Hdist, Hidx.
    apply (Forall2_fst_snd
             (fun d i => exists row,
                  nth_error (fit_X (q_model q)) i = Some row /\
                  d = euclidean (q_vector q) row)).
    apply Forall_tl. eapply Forall_impl; [|exact Hall].
    intros di (row & H1 & H2). exists row. split; assumption.
  - rewrite Hdist. apply map_fst_sorted, tl_sorted, Hsorted.
  - rewrite Hplayers. unfold setcol. simpl.
    rewrite assoc_set_assoc, String.eqb_refl. do 2 f_equal.
    apply map_ext_in. intros d Hd. apply score_of_distance.
    rewrite Forall_forall in Hpos. now apply Hpos.
  - apply scores_sorted; [exact Hpos|].
    rewrite Hdist. apply map_fst_sorted, tl_sorted, Hsorted.
  - eapply Forall_impl; [|exact Hpos]. intros d Hd. now apply score_range.
  - exists df. rewrite Hqdf in *. split; [exact Hdf|]. split; [exact Hbound|].
    split; [now rewrite Hdist, Hidx, !length_map|exact Hplayers].
Qed.

End WithNumerics.

#[local] Existing Instance Samples.numerics.

Lemma sqrt_floor_nonneg (x : Q) : (0 <= Samples.sqrt_floor x)%Q.
Proof.
  unfold Samples.sqrt_floor. rewrite Qred_correct.
  unfold Qle. simpl. rewrite Z.mul_1_r. apply Z.sqrt_nonneg.
Qed.

Lemma neighbours_within_fitted_rows_witness :
  exists out self',
    recommend_similar_players (set_data init Samples.four_players) 1 2
    = ([model_trained; recommendation_ready out], self') /\
    exists knn, knn_model self' = Some knn /\
                (2 + 1 <= Z.of_nat (length (fit_X knn)))%Z /\
                Z.of_nat (df_len out) = 2%Z.
Proof.
  eexists. eexists. split; [vm_compute; reflexivity|].
  refine (proj1 (neighbours_within_fitted_rows
                   (set_data init Samples.four_players) _ 1 2 _ _) _ _).
  - vm_compute. reflexivity.
  - right. now left.
Defined.

Lemma results_ordered_by_distance_witness :
  exists out self',
    recommend_similar_players (set_data init Samples.four_players) 1 2
    = ([model_trained; recommendation_ready out], self') /\
    exists dists,
      StronglySorted Qle dists /\
      assoc "similarity_score" (df_cols out)
      = Some (NumCol (map (fun d => Fin (1 / (1 + d))) dists)) /\
      Forall (fun d => 0 < 1 / (1 + d) /\ 1 / (1 + d) <= 1)%Q dists.
Proof.
  eexists. eexists. split; [vm_compute; reflexivity|].
  destruct (results_ordered_by_distance (num := Samples.numerics)
              (set_data init Samples.four_players) _ 1 2 _ _
              sqrt_floor_nonneg
              ltac:(vm_compute; reflexivity)
              (or_intror (or_introl eq_refl)))
    as (q & r & sigs0 & _ & _ & _ & _ & Hs & Hscore & _ & Hrange & _).
  exists (similar_distances r). repeat split; assumption.
Defined.

(** C1 at a table that holds two stints of the reference player: the
    query for player 1 returns the row of the other stint, whose
    [player_id] is 1. *)
Lemma second_stint_recommended :
  exists out self',
    recommend_similar_players (set_data init Samples.two_stints) 1 1
    = ([model_trained; recommendation_ready out], self') /\
    df_len out = 1%nat /\
    num_at out "player_id" 0 = Some (Fin (inject_Z 1)).
Proof.
  eexists. eexists. split; [vm_compute; reflexivity|].
  split; reflexivity.
Qed.

End SimilarityIndex.

(* ================================================================== *)
(** ** Properties of the criteria mode *)
(* ================================================================== *)

Module CriteriaFacts.

Import Recommender.

Lemma mask_filter_map {A B : Type} (g : A -> B) (mask : list bool) (l : list A) :
  mask_filter mask (map g l) = map g (mask_filter mask l).
Proof.
  unfold mask_filter. revert l.
  induction mask as [|b mask IH]; intros [|x l]; simpl; try reflexivity.
  destruct b; simpl; now rewrite IH.
Qed.

Lemma mask_filter_Forall {A : Type} (P : A -> Prop) (mask : list bool) (l : list A) :
  Forall P l -> Forall P (mask_filter mask l).
Proof.
  unfold mask_filter. intros H. revert mask.
  induction H as [|x l Hx Hl IH]; intros [|b mask]; simpl; try constructor.
  destruct b; simpl; [constructor; [assumption|]|]; apply IH.
Qed.



Lemma take_map {A B : Type} (g : A -> B) (idxs : list nat) (l : list A) :
  take idxs (map g l) = map g (take idxs l).
Proof.
  unfold take. induction idxs as [|i idxs IH]; simpl; [reflexivity|].
  rewrite map_app, IH, nth_error_map.
  destruct (nth_error l i); reflexivity.
Qed.


Lemma cells_series_filter (mask : list bool) (s : Series) :
  cells (series_filter mask s) = mask_filter mask (cells s).
Proof. destruct s; simpl; [now rewrite mask_filter_map|reflexivity]. Qed.

Lemma cells_series_take (idxs : list nat) (s : Series) :
  cells (series_take idxs s) = take idxs (cells s).
Proof. destruct s; simpl; [now rewrite take_map|reflexivity]. Qed.

Lemma assoc_df_filter (mask : list bool) (df : DataFrame) (c : string) :
  assoc c (df_cols (df_filter mask df))
  = option_map (series_filter mask) (assoc c (df_cols df)).
Proof. apply (assoc_map_values (series_filter mask)). Qed.

Lemma assoc_df_take (idxs : list nat) (df : DataFrame) (c : string) :
  assoc c (df_cols (df_take idxs df))
  = option_map (series_take idxs) (assoc c (df_cols df)).
Proof. apply (assoc_map_values (series_take idxs)). Qed.

Lemma column_all_filter (mask : list bool) (df : DataFrame) c P :
  column_all df c P -> column_all (df_filter mask df) c P.
Proof.
  intros H s. rewrite assoc_df_filter.
  destruct (assoc c (df_cols df)) as [s0|] eqn:E0; simpl; [|discriminate].
  intros E. injection E as <-. rewrite cells_series_filter.
  now apply mask_filter_Forall, H.
Qed.


Lemma has_col_filter (mask : list bool) (df : DataFrame) (c : string) :
  has_col (df_filter mask df) c = has_col df c.
Proof.
  unfold has_col. rewrite assoc_df_filter.
  destruct (assoc c (df_cols df)); reflexivity.
Qed.

Lemma has_col_take (idxs : list nat) (df : DataFrame) (c : string) :
  has_col (df_take idxs df) c = has_col df c.
Proof.
  unfold has_col. rewrite assoc_df_take.
  destruct (assoc c (df_cols df)); reflexivity.
Qed.









#[local] Arguments startswith : simpl never.

(** One turn of the loop over the criteria filters rows or does nothing. *)
Lemma apply_threshold_cases (df df' : DataFrame) (kv : string * pyobj) :
  apply_threshold df kv = Ok df' ->
  df' = df \/ exists mask, df' = df_filter mask df.
Proof.
  unfold apply_threshold. destruct kv as [key value].
  destruct (startswith "min_" key && negb (py_eq value PNone)).
  - destruct (has_col df (drop4 key)); [|intros H; injection H as <-; now left].
    intros H. apply bind_Ok in H. destruct H as [s [_ H]].
    apply bind_Ok in H. destruct H as [mask [_ H]].
    injection H as <-. right. now exists mask.
  - destruct (startswith "max_" key && negb (py_eq value PNone)).
    + destruct (has_col df (drop4 key)); [|intros H; injection H as <-; now left].
      intros H. apply bind_Ok in H. destruct H as [s [_ H]].
      apply bind_Ok in H. destruct H as [mask [_ H]].
      injection H as <-. right. now exists mask.
    + intros H; injection H as <-; now left.
Qed.

Lemma apply_thresholds_keep (items : list (string * pyobj)) (df out : DataFrame) :
  apply_thresholds df items = Ok out ->
  (forall c, has_col out c = has_col df c) /\
  (forall c P, column_all df c P -> column_all out c P).
Proof.
  revert df. induction items as [|kv items IH]; intros df; simpl.
  - intros H. injection H as <-. split; auto.
  - intros H. apply bind_Ok in H. destruct H as [df' [Hstep H]].
    apply IH in H. destruct H as [Hcols Hall].
    apply apply_threshold_cases in Hstep.
    destruct Hstep as [->|[mask ->]]; [split; assumption|].
    split.
    + intros c. now rewrite Hcols, has_col_filter.
    + intros c P HP. now apply Hall, column_all_filter.
Qed.







End CriteriaFacts.

Module CriteriaMode.

Import Recommender CriteriaFacts.



End CriteriaMode.

(* ================================================================== *)
(** ** Masks, positions and well-formed frames *)
(* ================================================================== *)

Module FrameFacts.

Import Recommender CriteriaFacts.

Lemma cells_length (s : Series) : length (cells s) = series_len s.
Proof. destruct s; simpl; [apply length_map|reflexivity]. Qed.

Lemma wf_df_column (df : DataFrame) (c : string) (s : Series) :
  wf_df df -> assoc c (df_cols df) = Some s -> length (cells s) = df_len df.
Proof.
  intros Hwf Hs. apply assoc_In in Hs. unfold wf_df in Hwf.
  rewrite Forall_forall in Hwf. rewrite cells_length. exact (Hwf _ Hs).
Qed.

Lemma mask_filter_length {A : Type} (mask : list bool) (l : list A) :
  length mask = length l ->
  length (mask_filter mask l) = length (filter (fun b : bool => b) mask).
Proof.
  unfold mask_filter. revert l.
  induction mask as [|b mask IH]; intros [|x l] H; simpl in *;
    try reflexivity; try discriminate.
  injection H as H. destruct b; simpl; rewrite IH by assumption; reflexivity.
Qed.

(** The positions a mask selects, in order, are the positions of the rows
    it keeps. *)
Lemma mask_filter_positions {A : Type} (d : A) (mask : list bool) (l : list A) :
  length mask = length l ->
  mask_filter mask l = map (fun i => nth i l d) (positions_of mask).
Proof.
  revert l. induction mask as [|b mask IH]; intros [|x l] H; simpl in *;
    try reflexivity; try discriminate.
  injection H as H. rewrite positions_of_cons.
  unfold mask_filter in *. destruct b; simpl.
  - rewrite map_map. simpl. f_equal. now apply IH.
  - rewrite map_map. simpl. now apply IH.
Qed.

Lemma positions_of_length (mask : list bool) :
  length (positions_of mask) = length (filter (fun b : bool => b) mask).
Proof.
  induction mask as [|b mask IH]; [reflexivity|].
  rewrite positions_of_cons, length_app, length_map, IH.
  destruct b; reflexivity.
Qed.

Lemma wf_df_filter (mask : list bool) (df : DataFrame) :
  wf_df df -> length mask = df_len df -> wf_df (df_filter mask df).
Proof.
  unfold wf_df, df_filter. simpl. intros Hwf Hlen.
  apply Forall_map. eapply Forall_impl; [|exact Hwf].
  intros [c s] Hs. simpl in *.
  rewrite <- cells_length, cells_series_filter.
  apply mask_filter_length. now rewrite Hlen, cells_length.
Qed.

Lemma take_length {A : Type} (idxs : list nat) (l : list A) :
  Forall (fun i => (i < length l)%nat) idxs ->
  length (take idxs l) = length idxs.
Proof.
  unfold take. induction 1 as [|i idxs Hi _ IH]; simpl; [reflexivity|].
  rewrite length_app, IH.
  destruct (nth_error l i) eqn:E; [reflexivity|].
  apply nth_error_None in E. lia.
Qed.

Lemma take_nth {A : Type} (d : A) (idxs : list nat) (l : list A) :
  Forall (fun i => (i < length l)%nat) idxs ->
  take idxs l = map (fun i => nth i l d) idxs.
Proof.
  unfold take. induction 1 as [|i idxs Hi _ IH]; simpl; [reflexivity|].
  rewrite IH. destruct (nth_error l i) eqn:E.
  - simpl. f_equal. symmetry. now apply nth_error_nth.
  - apply nth_error_None in E. lia.
Qed.

Lemma wf_df_take (idxs : list nat) (df : DataFrame) :
  wf_df df -> Forall (fun i => (i < df_len df)%nat) idxs ->
  wf_df (df_take idxs df).
Proof.
  unfold wf_df, df_take. simpl. intros Hwf Hidx.
  apply Forall_map. eapply Forall_impl; [|exact Hwf].
  intros [c s] Hs. simpl in *.
  rewrite <- cells_length, cells_series_take.
  apply take_length. now rewrite cells_length, Hs.
Qed.

Lemma wf_df_setcol (df : DataFrame) (c : string) (s : Series) :
  wf_df df -> series_len s = df_len df -> wf_df (setcol df c s).
Proof.
  unfold wf_df, setcol. simpl. intros Hwf Hs.
  induction Hwf as [|[k v] cols Hv Hrest IH]; simpl.
  - repeat constructor. exact Hs.
  - destruct (String.eqb c k); constructor; assumption.
Qed.

Lemma df_row_filter_first (mask : list bool) (df : DataFrame) (i : nat) rest :
  wf_df df -> length mask = df_len df ->
  positions_of mask = i :: rest ->
  df_row (df_filter mask df) 0 = df_row df i.
Proof.
  intros Hwf Hlen Hpos. unfold df_row, df_filter. simpl.
  rewrite map_map. apply map_ext_in. intros [c s] Hin. simpl.
  f_equal. rewrite cells_series_filter.
  rewrite (mask_filter_positions PNone), Hpos; [reflexivity|].
  unfold wf_df in Hwf. rewrite Forall_forall in Hwf.
  rewrite Hlen, cells_length. symmetry. exact (Hwf (c, s) Hin).
Qed.

(** The sample tables have one cell per row in every column. *)
Lemma wf_two_stints : wf_df Samples.two_stints.
Proof. repeat constructor. Qed.

Lemma wf_defenders : wf_df Samples.defenders.
Proof. repeat constructor. Qed.

Lemma wf_metrics_table : wf_df Samples.metrics_table.
Proof. repeat constructor. Qed.

End FrameFacts.

(* ================================================================== *)
(** ** Sorting *)
(* ================================================================== *)

Module SortFacts.

Import CriteriaFacts FrameFacts IndexFacts.

Lemma insert_perm {A : Type} (le : A -> A -> bool) (x : A) (l : list A) :
  Permutation (insert le x l) (x :: l).
Proof.
  induction l as [|y l IH]; simpl; [reflexivity|].
  destruct (le x y); [reflexivity|].
  rewrite IH. apply perm_swap.
Qed.

Lemma isort_perm {A : Type} (le : A -> A -> bool) (l : list A) :
  Permutation (isort le l) l.
Proof.
  induction l as [|x l IH]; simpl; [reflexivity|].
  rewrite insert_perm. now constructor.
Qed.

(** Insertion sort sorts, for an order that is total and transitive on the
    elements at hand. *)
Lemma insert_sorted_on {A : Type} (le : A -> A -> bool) (P : A -> Prop)
      (x : A) (l : list A) :
  (forall a b, P a -> P b -> le a b = false -> le b a = true) ->
  (forall a b c, P a -> P b -> P c ->
                 le a b = true -> le b c = true -> le a c = true) ->
  P x -> Forall P l ->
  StronglySorted (fun a b => le a b = true) l ->
  StronglySorted (fun a b => le a b = true) (insert le x l).
Proof.
  intros Htot Htrans Hx HP Hs.
  induction Hs as [|y l Hs IH Hall]; simpl.
  - repeat constructor.
  - inversion HP as [|? ? Hy HPl]; subst.
    destruct (le x y) eqn:E.
    + constructor; [now constructor|]. constructor; [exact E|].
      rewrite Forall_forall in *. intros z Hz.
      apply (Htrans x y z); auto.
    + constructor; [now apply IH|].
      apply Forall_forall. intros z Hz. apply insert_In in Hz.
      destruct Hz as [->|Hz]; [now apply Htot|].
      rewrite Forall_forall in Hall. now apply Hall.
Qed.

Lemma isort_sorted_on {A : Type} (le : A -> A -> bool) (P : A -> Prop)
      (l : list A) :
  (forall a b, P a -> P b -> le a b = false -> le b a = true) ->
  (forall a b c, P a -> P b -> P c ->
                 le a b = true -> le b c = true -> le a c = true) ->
  Forall P l ->
  StronglySorted (fun a b => le a b = true) (isort le l).
Proof.
  intros Htot Htrans. induction 1 as [|x l Hx Hl IH]; simpl; [constructor|].
  apply (insert_sorted_on le P); try assumption.
  apply Forall_forall. intros y Hy. apply isort_In in Hy.
  rewrite Forall_forall in Hl. now apply Hl.
Qed.

Lemma fle_total (x y : fnum) :
  is_nan x = false -> is_nan y = false -> fle x y = false -> fle y x = true.
Proof.
  destruct x as [a| | |], y as [b| | |]; simpl; try discriminate;
    try reflexivity.
  intros _ _ H.
  destruct (Qle_bool b a) eqn:E; [reflexivity|].
  assert (Hab : ~ (a <= b)%Q) by (rewrite <- Qle_bool_iff; congruence).
  assert (Hba : ~ (b <= a)%Q) by (rewrite <- Qle_bool_iff; congruence).
  exfalso. destruct (Qlt_le_dec a b); [apply Hab|apply Hba]; lra.
Qed.

Lemma fle_trans (x y z : fnum) :
  fle x y = true -> fle y z = true -> fle x z = true.
Proof.
  destruct x as [a| | |], y as [b| | |], z as [c| | |]; simpl;
    try discriminate; try reflexivity.
  rewrite !Qle_bool_iff. intros; lra.
Qed.

Lemma fle_not_nan (x y : fnum) :
  fle x y = true -> is_nan x = false /\ is_nan y = false.
Proof. destruct x, y; simpl; try discriminate; auto. Qed.

(** The cells of a numeric column are totally ordered by the sort order,
    in either direction. *)
Lemma before_total (asc : bool) (x y : fnum) :
  before asc (PNum x) (PNum y) = false -> before asc (PNum y) (PNum x) = true.
Proof.
  destruct asc; simpl.
  - destruct y as [b| | |]; try discriminate;
      destruct x as [a| | |]; try discriminate; try reflexivity;
      intros H; apply fle_total in H; try reflexivity; exact H.
  - unfold fge.
    destruct y as [b| | |]; try discriminate;
      destruct x as [a| | |]; try discriminate; try reflexivity;
      intros H; apply fle_total in H; try reflexivity; exact H.
Qed.

Lemma before_trans (asc : bool) (x y z : fnum) :
  before asc (PNum x) (PNum y) = true ->
  before asc (PNum y) (PNum z) = true ->
  before asc (PNum x) (PNum z) = true.
Proof.
  destruct asc; simpl; unfold fge.
  - destruct z as [c| | |]; try reflexivity;
      destruct y as [b| | |]; try discriminate;
      destruct x as [a| | |]; try discriminate;
      intros H1 H2; try reflexivity;
      solve [ exact (fle_trans _ _ _ H1 H2) | discriminate ].
  - destruct z as [c| | |]; try reflexivity;
      destruct y as [b| | |]; try discriminate;
      destruct x as [a| | |]; try discriminate;
      intros H1 H2; try reflexivity;
      solve [ exact (fle_trans _ _ _ H2 H1) | discriminate ].
Qed.

Lemma enumerate_fst {A : Type} (l : list A) :
  map fst (enumerate l) = seq 0 (length l).
Proof.
  unfold enumerate. generalize 0%nat.
  induction l as [|x l IH]; intros s; simpl; [reflexivity|].
  now rewrite IH.
Qed.

Lemma numeric_sortable (v : list fnum) : sortable (map PNum v) = true.
Proof.
  unfold sortable. apply orb_true_iff. left.
  apply forallb_forall. intros o Ho. apply filter_In in Ho.
  destruct Ho as [Ho _]. apply in_map_iff in Ho.
  destruct Ho as [x [<- _]]. reflexivity.
Qed.

Lemma StronglySorted_map_inv {A B : Type} (g : A -> B) (R : B -> B -> Prop)
      (l : list A) :
  StronglySorted (fun a b => R (g a) (g b)) l -> StronglySorted R (map g l).
Proof.
  induction 1 as [|x l Hs IH Hall]; simpl; constructor; [assumption|].
  apply Forall_map. exact Hall.
Qed.

(** Sorting a numeric column: the order is a permutation of the row
    positions, along which the keys are sorted. *)
Lemma argsort_numeric (asc : bool) (v : list fnum) :
  exists order,
    argsort asc (NumCol v) = Ok order /\
    Permutation order (seq 0 (length v)) /\
    StronglySorted
      (fun i j => before asc (PNum (nth i v NaN)) (PNum (nth j v NaN)) = true)
      order.
Proof.
  unfold argsort. simpl cells. rewrite numeric_sortable.
  eexists. split; [reflexivity|]. split.
  - rewrite isort_perm, enumerate_fst. now rewrite length_map.
  - apply (StronglySorted_map_inv fst
             (fun i j => before asc (PNum (nth i v NaN)) (PNum (nth j v NaN)) = true)).
    assert (Hcell : Forall (fun ic : nat * pyobj => snd ic = PNum (nth (fst ic) v NaN))
                           (enumerate (map PNum v))).
    { apply Forall_forall. intros [i c] Hin. apply enumerate_In in Hin.
      rewrite nth_error_map in Hin. simpl.
      destruct (nth_error v i) as [x|] eqn:E; [|discriminate].
      injection Hin as <-. f_equal. symmetry. now apply nth_error_nth. }
    pose proof (isort_sorted_on
                  (fun a b : nat * pyobj => before asc (snd a) (snd b))
                  (fun ic => snd ic = PNum (nth (fst ic) v NaN))
                  (enumerate (map PNum v))) as Hsorted.
    assert (Hs : StronglySorted
                   (fun a b : nat * pyobj => before asc (snd a) (snd b) = true)
                   (isort (fun a b => before asc (snd a) (snd b))
                          (enumerate (map PNum v)))).
    { apply Hsorted; [| |exact Hcell].
      - intros a b Ha Hb. rewrite Ha, Hb. apply before_total.
      - intros a b c Ha Hb Hc. rewrite Ha, Hb, Hc. apply before_trans. }
    assert (Hcell' : Forall (fun ic : nat * pyobj => snd ic = PNum (nth (fst ic) v NaN))
                            (isort (fun a b => before asc (snd a) (snd b))
                                   (enumerate (map PNum v)))).
    { apply Forall_forall. intros ic Hic. apply isort_In in Hic.
      rewrite Forall_forall in Hcell. now apply Hcell. }
    clear Hsorted Hcell.
    induction Hs as [|a l Hs IH Hall]; constructor.
    + apply IH. now inversion Hcell'.
    + inversion Hcell' as [|? ? Ha Hl]; subst.
      rewrite Forall_forall in *. intros b Hb.
      rewrite <- Ha, <- (Hl b Hb). now apply Hall.
Qed.

Lemma take_seq_firstn {A : Type} (k : nat) (l : list A) :
  (k <= length l)%nat -> take (seq 0 k) l = firstn k l.
Proof.
  intros Hk.
  assert (H : forall s, (s + k <= length l)%nat ->
                        take (seq s k) l = firstn k (skipn s l)).
  { clear Hk. induction k as [|k IH]; intros s Hs; [reflexivity|].
    simpl seq. unfold take in *. simpl.
    rewrite IH by lia.
    destruct (nth_error l s) as [x|] eqn:E;
      [|apply nth_error_None in E; lia].
    clear IH. revert l Hs E. induction s as [|s IHs]; intros l Hs E.
    - destruct l; simpl in *; [discriminate|]. now injection E as ->.
    - destruct l as [|y l]; simpl in *; [discriminate|].
      apply IHs; [lia|exact E]. }
  now apply (H 0%nat).
Qed.

Lemma take_firstn {A : Type} (k : nat) (idxs : list nat) (l : list A) :
  Forall (fun i => (i < length l)%nat) idxs ->
  firstn k (take idxs l) = take (firstn k idxs) l.
Proof.
  intros H. revert k. unfold take.
  induction H as [|i idxs Hi _ IH]; intros k; simpl.
  - now rewrite !firstn_nil.
  - destruct (nth_error l i) as [x|] eqn:E;
      [|apply nth_error_None in E; lia].
    destruct k; simpl; [reflexivity|]. rewrite E. simpl. now rewrite IH.
Qed.

(** The head of a reordered frame is the frame at the head of the order. *)
Lemma df_head_take (n : Z) (order : list nat) (df : DataFrame) :
  wf_df df -> Forall (fun i => (i < df_len df)%nat) order ->
  df_head n (df_take order df)
  = df_take (firstn (head_count (length order) n) order) df.
Proof.
  intros Hwf Horder. unfold df_head. simpl df_len.
  set (k := head_count (length order) n).
  assert (Hk : (k <= length order)%nat).
  { subst k. unfold head_count. destruct (Z.leb 0 n); lia. }
  unfold df_take. simpl. f_equal.
  - rewrite length_seq, length_firstn. lia.
  - rewrite map_map. apply map_ext_in. intros [c s] Hin. simpl. f_equal.
    assert (Hs : Forall (fun i => (i < length (cells s))%nat) order).
    { unfold wf_df in Hwf. rewrite Forall_forall in Hwf.
      rewrite cells_length. pose proof (Hwf (c, s) Hin) as Hlen.
      simpl in Hlen. rewrite Hlen. exact Horder. }
    destruct s as [v|v]; simpl in *; f_equal.
    + rewrite length_map in Hs.
      rewrite take_seq_firstn by (rewrite take_length; assumption).
      now apply take_firstn.
    + rewrite take_seq_firstn by (rewrite take_length; assumption).
      now apply take_firstn.
Qed.

Lemma StronglySorted_split {A : Type} (R : A -> A -> Prop) (k : nat) (l : list A) :
  StronglySorted R l ->
  forall a b, In a (firstn k l) -> In b (skipn k l) -> R a b.
Proof.
  intros Hs. revert k. induction Hs as [|x l Hs IH Hall]; intros k a b Ha Hb.
  - rewrite firstn_nil in Ha. destruct Ha.
  - destruct k; simpl in *; [destruct Ha|].
    destruct Ha as [<-|Ha]; [|now apply (IH k)].
    rewrite Forall_forall in Hall. apply Hall.
    rewrite <- (firstn_skipn k l). apply in_or_app. now right.
Qed.

End SortFacts.

(* ================================================================== *)
(** ** Properties of the lookups of the data processor *)
(* ================================================================== *)

Module Lookups.

Import DataProcessor DataQueries CriteriaFacts FrameFacts SortFacts.

Lemma mask_filter_by {A B : Type} (p : A -> bool) (l : list A) (m : list B) :
  mask_filter (map p l) m
  = map snd (filter (fun ab => p (fst ab)) (combine l m)).
Proof.
  unfold mask_filter. revert m.
  induction l as [|a l IH]; intros [|b m]; simpl; try reflexivity.
  destruct (p a); simpl; now rewrite IH.
Qed.

Lemma filter_true_map {A : Type} (p : A -> bool) (l : list A) :
  length (filter (fun b : bool => b) (map p l)) = length (filter p l).
Proof.
  induction l as [|a l IH]; simpl; [reflexivity|].
  destruct (p a); simpl; now rewrite IH.
Qed.

(** X1.  [get_player_by_id] on a table with a [player_id] column: when no cell
    of the column equals the id it returns [None]; otherwise it returns
    the row at the first position whose cell equals the id, and no other
    stint of the player. *)
Theorem get_player_by_id_first_row
        (self : t) (df : DataFrame) (ids : Series) (player_id : Z) :
  players_df self = Some df ->
  wf_df df ->
  assoc "player_id" (df_cols df) = Some ids ->
  let v := PNum (Fin (inject_Z player_id)) in
  (get_player_by_id self player_id = Ok None /\
   Forall (fun c => py_eq c v = false) (cells ids))
  \/ (exists i c,
         nth_error (cells ids) i = Some c /\ py_eq c v = true /\
         (forall j c', (j < i)%nat -> nth_error (cells ids) j = Some c' ->
                       py_eq c' v = false) /\
         get_player_by_id self player_id = Ok (Some (df_row df i))).
Proof.
  intros Hdf Hwf Hids v. subst v.
  unfold get_player_by_id. rewrite Hdf. unfold getcol. rewrite Hids.
  rewrite bind_Ok_l, series_eq_int.
  set (v := PNum (Fin (inject_Z player_id))).
  set (mask := map (fun c => py_eq c v) (cells ids)).
  assert (Hlen : length mask = df_len df).
  { unfold mask. rewrite length_map. now apply (wf_df_column df "player_id"). }
  pose proof (positions_of_first mask) as Hfirst.
  pose proof (positions_of_length mask) as Hcount.
  destruct (Recommender.positions_of mask) as [|i rest] eqn:Hpos.
  - left. simpl in Hcount. unfold df_filter at 1. simpl df_len.
    rewrite <- Hcount. simpl. split; [reflexivity|].
    unfold mask in Hfirst. rewrite Forall_map in Hfirst. exact Hfirst.
  - right. destruct Hfirst as [Hi Hbefore].
    unfold mask in Hi, Hbefore.
    rewrite nth_error_map in Hi.
    destruct (nth_error (cells ids) i) as [c|] eqn:Hc; [|discriminate].
    injection Hi as Hi. exists i, c. split; [exact Hc|]. split; [exact Hi|].
    split.
    + intros j c' Hj Hc'. specialize (Hbefore j Hj).
      rewrite nth_error_map, Hc' in Hbefore. now injection Hbefore.
    + unfold df_filter at 1. simpl df_len. rewrite <- Hcount. simpl.
      now rewrite (df_row_filter_first _ _ i rest Hwf Hlen Hpos).
Qed.

(** On the table with two stints of player 1 the lookup gives the row of
    the first stint. *)
Lemma get_player_by_id_first_row_witness :
  get_player_by_id (DataProcessor.mk (Some Samples.two_stints)) 1
  = Ok (Some (df_row Samples.two_stints 0)).
Proof.
  destruct (get_player_by_id_first_row
              (DataProcessor.mk (Some Samples.two_stints)) Samples.two_stints
              (NumCol [Samples.f 1; Samples.f 1]) 1
              eq_refl wf_two_stints eq_refl)
    as [[_ Hnone]|[i [c [_ [_ [Hbefore Hrow]]]]]].
  - inversion Hnone as [|? ? Hc _]. discriminate Hc.
  - destruct i as [|i]; [exact Hrow|].
    discriminate (Hbefore 0%nat (PNum (Samples.f 1)) (Nat.lt_0_succ i) eq_refl).
Defined.

(** X2.  [get_players_by_position], for a position given as text, on a
    table with a [position] column keeps exactly the rows whose position
    cell equals the position asked for, in table order, in every column;
    the result has as many rows as there are such cells.  A missing
    position cell is a cell that does not equal the text. *)
Theorem get_players_by_position_rows
        (self : t) (df : DataFrame) (s : Series) (position : string) :
  players_df self = Some df ->
  wf_df df ->
  assoc "position" (df_cols df) = Some s ->
  exists out,
    get_players_by_position self (PStr position) = Ok (Some out) /\
    wf_df out /\
    df_len out = length (filter (fun c => py_eq c (PStr position)) (cells s)) /\
    forall c col,
      assoc c (df_cols df) = Some col ->
      exists col',
        assoc c (df_cols out) = Some col' /\
        cells col' = map snd (filter (fun pc => py_eq (fst pc) (PStr position))
                                     (combine (cells s) (cells col))).
Proof.
  intros Hdf Hwf Hs.
  unfold get_players_by_position. rewrite Hdf. unfold getcol. rewrite Hs.
  rewrite bind_Ok_l, series_eq_str. eexists. split; [reflexivity|].
  set (mask := map (fun c => py_eq c (PStr position)) (cells s)).
  assert (Hlen : length mask = df_len df).
  { unfold mask. rewrite length_map. now apply (wf_df_column df "position"). }
  split; [now apply wf_df_filter|]. split.
  - unfold df_filter, mask. simpl. apply filter_true_map.
  - intros c col Hcol. exists (series_filter mask col).
    rewrite assoc_df_filter, Hcol. split; [reflexivity|].
    rewrite cells_series_filter. unfold mask.
    exact (mask_filter_by (fun c0 => py_eq c0 (PStr position)) (cells s) (cells col)).
Qed.

Lemma get_players_by_position_rows_witness :
  exists out,
    get_players_by_position (DataProcessor.mk (Some Samples.defenders))
                            (PStr "Defender") = Ok (Some out) /\
    wf_df out /\ df_len out = 3%nat /\
    forall c col,
      assoc c (df_cols Samples.defenders) = Some col ->
      exists col',
        assoc c (df_cols out) = Some col' /\
        cells col'
        = map snd (filter (fun pc => py_eq (fst pc) (PStr "Defender"))
                          (combine [PStr "Defender"; PStr "Defender"; PStr "Defender"]
                                   (cells col))).
Proof.
  exact (get_players_by_position_rows
           (DataProcessor.mk (Some Samples.defenders)) Samples.defenders
           (ObjCol [PStr "Defender"; PStr "Defender"; PStr "Defender"])
           "Defender" eq_refl wf_defenders eq_refl).
Defined.

Lemma sort_values_numeric (metric : string) (asc : bool) (df : DataFrame)
      (v : list fnum) :
  wf_df df -> assoc metric (df_cols df) = Some (NumCol v) ->
  exists order,
    sort_values metric asc df = Ok (df_take order df) /\
    Permutation order (seq 0 (df_len df)) /\
    StronglySorted
      (fun i j => before asc (PNum (nth i v NaN)) (PNum (nth j v NaN)) = true)
      order.
Proof.
  intros Hwf Hv. destruct (argsort_numeric asc v) as [order [Hsort [Hperm Hs]]].
  exists order. unfold sort_values, getcol. rewrite Hv, bind_Ok_l, Hsort.
  split; [reflexivity|]. split; [|exact Hs].
  pose proof (wf_df_column df metric _ Hwf Hv) as Hlen.
  simpl in Hlen. rewrite length_map in Hlen. now rewrite <- Hlen.
Qed.

(** X3.  [get_top_players_by_metric] on a numeric metric column returns
    [head_count (df_len df) n] rows (the first [n] for [0 <= n], all but
    the last [-n] otherwise), taken at distinct positions of the table:
    the head of an order that is a permutation of the row positions and
    along which the metric is sorted in the direction asked for, missing
    values last.  So no row left out comes before a returned row.  The
    order among equal keys is not part of the statement. *)
Theorem get_top_players_by_metric_sorted
        (self : t) (df : DataFrame) (metric : string) (v : list fnum)
        (n : Z) (ascending : bool) :
  players_df self = Some df ->
  wf_df df ->
  assoc metric (df_cols df) = Some (NumCol v) ->
  exists order,
    let k := head_count (df_len df) n in
    let key i := PNum (nth i v NaN) in
    get_top_players_by_metric self metric n ascending
    = Ok (Some (df_take (firstn k order) df)) /\
    length (firstn k order) = k /\
    Permutation order (seq 0 (df_len df)) /\
    StronglySorted (fun i j => before ascending (key i) (key j) = true) order /\
    forall i j, In i (firstn k order) -> In j (skipn k order) ->
                before ascending (key i) (key j) = true.
Proof.
  intros Hdf Hwf Hv.
  destruct (sort_values_numeric metric ascending df v Hwf Hv)
    as [order [Hsort [Hperm Hs]]].
  exists order. cbv zeta.
  assert (Hlen : length order = df_len df).
  { rewrite (Permutation_length Hperm). apply length_seq. }
  assert (Hin : Forall (fun i => (i < df_len df)%nat) order).
  { apply Forall_forall. intros i Hi.
    apply (Permutation_in _ Hperm), in_seq in Hi. lia. }
  split; [|split; [|split; [exact Hperm|split; [exact Hs|]]]].
  - unfold get_top_players_by_metric. rewrite Hdf. unfold has_col. rewrite Hv.
    simpl negb. cbv iota. rewrite Hsort, bind_Ok_l.
    rewrite (df_head_take n order df Hwf Hin), Hlen. reflexivity.
  - rewrite length_firstn, Hlen. unfold head_count.
    destruct (Z.leb 0 n); lia.
  - now apply StronglySorted_split.
Qed.

Lemma get_top_players_by_metric_sorted_witness :
  exists order,
    get_top_players_by_metric (DataProcessor.mk (Some Samples.defenders))
                              "rating" 2 false
    = Ok (Some (df_take (firstn 2 order) Samples.defenders)) /\
    Permutation order [0; 1; 2]%nat.
Proof.
  destruct (get_top_players_by_metric_sorted
              (DataProcessor.mk (Some Samples.defenders)) Samples.defenders
              "rating" [Samples.f 7; Samples.f 6; Samples.f 8] 2 false
              eq_refl wf_defenders eq_refl)
    as [order [Hout [_ [Hperm _]]]].
  exists order. split; [exact Hout|exact Hperm].
Defined.

End Lookups.

(* ================================================================== *)
(** ** More of the Normalizer *)
(* ================================================================== *)

Module NormalizerShape.

Import DataProcessor RawRecord Normalizer FrameFacts.

Lemma mapM_raise {A B : Type} (f : A -> res B) (e : exn) (l1 l2 : list A) (x : A) :
  Forall (fun a => exists b, f a = Ok b) l1 -> f x = Raise e ->
  mapM f (l1 ++ x :: l2) = Raise e.
Proof.
  intros H Hx. induction H as [|a l1 [b Ha] _ IH]; simpl.
  - now rewrite Hx.
  - now rewrite Ha, bind_Ok_l, IH.
Qed.

(** A loop all of whose failures are the same exception, and one of whose
    turns fails, fails with it. *)
Lemma mapM_raise_any {A B : Type} (f : A -> res B) (e : exn) (l : list A) (x : A) :
  (forall a, In a l -> (exists b, f a = Ok b) \/ f a = Raise e) ->
  In x l -> f x = Raise e -> mapM f l = Raise e.
Proof.
  induction l as [|a l IH]; intros Hall Hin Hx; [destruct Hin|].
  simpl. destruct (Hall a (or_introl eq_refl)) as [[b Ha]|Ha].
  - rewrite Ha, bind_Ok_l.
    destruct Hin as [->|Hin]; [congruence|].
    rewrite IH; [reflexivity| |assumption|assumption].
    intros a' Ha'. apply Hall. now right.
  - now rewrite Ha.
Qed.

Lemma mapM_keys {A : Type} (g : string * A -> res pyobj)
      (l : list (string * A)) (r : record) :
  mapM (fun f => v <- g f ;; Ok (fst f, v)) l = Ok r ->
  map fst r = map fst l.
Proof.
  revert r. induction l as [|f l IH]; intros r H; simpl in H.
  - now injection H as <-.
  - destruct (g f) as [v|]; [|discriminate]. simpl in H.
    destruct (mapM (fun f0 => v0 <- g f0 ;; Ok (fst f0, v0)) l) as [r'|];
      [|discriminate].
    simpl in H. injection H as <-. simpl. f_equal. now apply IH.
Qed.

Lemma row_of_keys (info stat : pyobj) (r : record) :
  row_of info stat = Ok r -> map fst r = map fst fields.
Proof.
  unfold row_of. intros H. apply bind_Ok in H. destruct H as [env [_ H]].
  exact (mapM_keys _ _ _ H).
Qed.

Lemma mapM_Forall {A B : Type} (f : A -> res B) (P : B -> Prop) (l : list A)
      (m : list B) :
  (forall a b, f a = Ok b -> P b) -> mapM f l = Ok m -> Forall P m.
Proof.
  intros Hf. revert m. induction l as [|a l IH]; intros m H; simpl in H.
  - injection H as <-. constructor.
  - destruct (f a) as [b|] eqn:E; [|discriminate]. simpl in H.
    destruct (mapM f l) as [m'|]; [|discriminate]. simpl in H.
    injection H as <-. constructor; [now apply (Hf a)|now apply IH].
Qed.

Lemma normalize_keys (players : list pyobj) (rs : list record) :
  normalize players = Ok rs ->
  Forall (fun r => map fst r = map fst fields) rs.
Proof.
  unfold normalize. intros H. apply bind_Ok in H. destruct H as [rss [H1 H2]].
  injection H2 as <-.
  assert (Hall : Forall (Forall (fun r => map fst r = map fst fields)) rss).
  { apply (mapM_Forall rows_of_player _ players rss); [|exact H1].
    intros p rows Hp. unfold rows_of_player in Hp.
    apply bind_Ok in Hp. destruct Hp as [info [_ Hp]].
    apply bind_Ok in Hp. destruct Hp as [stats [_ Hp]].
    apply bind_Ok in Hp. destruct Hp as [sts [_ Hp]].
    apply (mapM_Forall (row_of info) _ sts rows); [|exact Hp].
    intros st r. apply row_of_keys. }
  clear H1. induction Hall as [|rows rss Hrows _ IH]; simpl; [constructor|].
  apply Forall_app. split; assumption.
Qed.

Lemma infer_series_len (vals : list pyobj) :
  series_len (infer_series vals) = length vals.
Proof.
  unfold infer_series.
  destruct (forallb is_num_or_none vals && existsb is_num vals); simpl;
    [apply length_map|reflexivity].
Qed.

Lemma wf_DataFrame_of (records : list record) : wf_df (DataFrame_of records).
Proof.
  destruct records as [|r rs]; [constructor|].
  unfold wf_df, DataFrame_of. simpl df_cols. simpl df_len.
  apply Forall_map. apply Forall_forall. intros kv _. simpl.
  rewrite infer_series_len. simpl. f_equal. apply length_map.
Qed.

Lemma fill_series_len (s : Series) : series_len (fill_series s) = series_len s.
Proof. destruct s; simpl; apply length_map. Qed.

Lemma wf_handle_missing_values (df : DataFrame) :
  wf_df df -> wf_df (handle_missing_values df).
Proof.
  unfold wf_df, handle_missing_values. simpl. intros H.
  apply Forall_map. eapply Forall_impl; [|exact H].
  intros [c s] Hs. simpl in *. now rewrite fill_series_len.
Qed.

Lemma fillna_num_present (x : fnum) : is_nan (fillna_num x) = false.
Proof. destruct x; reflexivity. Qed.

Lemma fillna_obj_present (o : pyobj) : py_isna (fillna_obj o) = false.
Proof. destruct o as [|[]| | |]; reflexivity. Qed.

Lemma fillna_num_keep (x : fnum) : is_nan x = false -> fillna_num x = x.
Proof. destruct x; simpl; intros; try discriminate; reflexivity. Qed.

Lemma fillna_obj_keep (o : pyobj) : py_isna o = false -> fillna_obj o = o.
Proof. destruct o as [|[]| | |]; simpl; intros; try discriminate; reflexivity. Qed.

Lemma fill_series_present (s : Series) :
  Forall (fun o => py_isna o = false) (cells (fill_series s)).
Proof.
  destruct s as [v|v]; simpl.
  - rewrite map_map. apply Forall_map. apply Forall_forall. intros x _.
    simpl. pose proof (fillna_num_present x) as H.
    destruct (fillna_num x); simpl in *; congruence.
  - apply Forall_map. apply Forall_forall. intros o _.
    apply fillna_obj_present.
Qed.

Lemma fill_series_keep (s : Series) :
  Forall (fun o => py_isna o = false) (cells s) -> fill_series s = s.
Proof.
  destruct s as [v|v]; simpl; intros H; f_equal.
  - rewrite Forall_map in H. rewrite <- (map_id v) at 2.
    apply map_ext_in. intros x Hx. rewrite Forall_forall in H.
    apply fillna_num_keep. specialize (H x Hx). simpl in H.
    destruct x; simpl in *; congruence.
  - rewrite <- (map_id v) at 2. apply map_ext_in. intros o Ho.
    rewrite Forall_forall in H. now apply fillna_obj_keep, H.
Qed.

Lemma handle_missing_values_keep (df : DataFrame) :
  no_missing df -> handle_missing_values df = df.
Proof.
  destruct df as [len cols]. intros H. unfold handle_missing_values. simpl.
  f_equal. unfold no_missing in H. simpl in H.
  rewrite <- (map_id cols) at 2. apply map_ext_in. intros [c s] Hin.
  simpl. f_equal. apply fill_series_keep. now apply (H c).
Qed.

Lemma handle_missing_values_present (df : DataFrame) :
  no_missing (handle_missing_values df).
Proof.
  intros c s Hin. unfold handle_missing_values in Hin. simpl in Hin.
  apply in_map_iff in Hin. destruct Hin as [[c0 s0] [Heq _]].
  injection Heq as _ <-. apply fill_series_present.
Qed.

(** X4.  [handle_missing_values] leaves no missing cell, changes no table that
    has none, hence changes nothing when applied a second time; it keeps
    the number of rows and the columns' names and order. *)
Theorem handle_missing_values_fills (df : DataFrame) :
  no_missing (handle_missing_values df) /\
  handle_missing_values (handle_missing_values df) = handle_missing_values df /\
  (no_missing df -> handle_missing_values df = df) /\
  df_len (handle_missing_values df) = df_len df /\
  map fst (df_cols (handle_missing_values df)) = map fst (df_cols df).
Proof.
  split; [apply handle_missing_values_present|].
  split; [apply handle_missing_values_keep, handle_missing_values_present|].
  split; [apply handle_missing_values_keep|].
  split; [reflexivity|].
  unfold handle_missing_values. simpl. rewrite map_map. reflexivity.
Qed.

Lemma DataFrame_of_columns (records : list record) :
  Forall (fun r => map fst r = map fst fields) records ->
  df_cols (DataFrame_of records) = [] \/
  map fst (df_cols (DataFrame_of records)) = map fst fields.
Proof.
  destruct records as [|r rs]; [now left|]. intros H. right.
  inversion H as [|? ? Hr _]; subst.
  unfold DataFrame_of. simpl df_cols. rewrite map_map. simpl. exact Hr.
Qed.

(** What a completed run has stored. *)
Lemma process_complete_inv (self self' : t) (data : pyobj) (df : DataFrame) :
  process_players_data self data = ([processing_complete df], self') ->
  self' = mk (Some df) /\ wf_df df /\ no_missing df /\
  (df = mkDF 0 [] \/
   (df_len df <> 0%nat /\ map fst (df_cols df) = map fst fields)).
Proof.
  unfold process_players_data.
  destruct (py_get data "response" (PList [])) as [players|e]; simpl;
    [|discriminate].
  destruct (py_truthy players); simpl; [|discriminate].
  destruct (py_iter players) as [ps|e]; simpl; [|discriminate].
  destruct (normalize ps) as [rs|e] eqn:Hn; simpl; [|discriminate].
  intros H. injection H as <- <-.
  split; [reflexivity|].
  split; [apply wf_handle_missing_values, wf_DataFrame_of|].
  split; [apply handle_missing_values_present|].
  apply normalize_keys in Hn.
  destruct rs as [|r rs]; [now left|]. right. split; [discriminate|].
  inversion Hn as [|? ? Hr _]; subst.
  unfold handle_missing_values, DataFrame_of. simpl df_cols.
  rewrite !map_map. simpl. exact Hr.
Qed.

Lemma process_cases (self : t) (data : pyobj) :
  (exists err, process_players_data self data = ([processing_error err], self))
  \/ (exists df,
         process_players_data self data
         = ([processing_complete df], mk (Some df))).
Proof.
  unfold process_players_data.
  destruct (bind (py_get data "response" (PList [])) _) as [[df|]|e];
    [right|left|left]; eexists; reflexivity.
Qed.

(** X5.  Whatever the input, [process_players_data] emits one signal.  Either it
    is an error and the state is the one before the call; or it is
    [processing_complete] with the table now stored, in which every column
    has one cell per row, no cell is missing, and the columns are the 27 of
    the row literal, in its order (none at all when no entry had a
    statistics block). *)
Theorem process_players_data_outcome (self : t) (data : pyobj) :
  (exists err, process_players_data self data = ([processing_error err], self))
  \/ (exists df,
         process_players_data self data = ([processing_complete df], mk (Some df)) /\
         wf_df df /\ no_missing df /\
         (df = mkDF 0 [] \/
          (df_len df <> 0%nat /\ map fst (df_cols df) = map fst fields))).
Proof.
  destruct (process_cases self data) as [Herr|[df Hrun]]; [now left|].
  right. exists df. split; [exact Hrun|].
  now destruct (process_complete_inv _ _ _ _ Hrun) as (_ & Hwf & Hmiss & Hcols).
Qed.

Lemma block_fields (b : block) :
  exists c k, In (c, (b, k)) fields.
Proof.
  destruct b;
    [ exists "player_id", "id" | exists "team_id", "id"
    | exists "league_id", "id" | exists "appearances", "appearances"
    | exists "shots_total", "total" | exists "goals_total", "total"
    | exists "passes_total", "total" | exists "tackles_total", "total"
    | exists "duels_total", "total" ];
    simpl; tauto.
Qed.

Lemma py_get_cases (o : pyobj) (k : string) (d : pyobj) :
  (is_dict o = true /\ exists v, py_get o k d = Ok v) \/
  (is_dict o = false /\ py_get o k d = Raise AttributeError).
Proof. destruct o; simpl; try (now right); left; split; eauto. Qed.

(** A statistics block is read when the player block, the statistics
    block and the nested blocks that are there are dicts, and only then:
    otherwise the read raises [AttributeError]. *)
Lemma row_of_fails (info stat : pyobj) :
  is_dict info && stat_ok stat = false ->
  row_of info stat = Raise AttributeError.
Proof.
  intros H. unfold row_of.
  destruct (is_dict stat) eqn:Hstat.
  - rewrite (mapM_ok _ (fun bk => (fst bk, getd stat (snd bk))))
      by (intros bk _; rewrite py_get_dict by assumption; reflexivity).
    rewrite bind_Ok_l. fold (env_of stat).
    assert (Hb : exists b, is_dict (block_of b ((BPlayer, info) :: env_of stat)) = false).
    { destruct (is_dict info) eqn:Hi; [|exists BPlayer; exact Hi].
      simpl in H. unfold stat_ok in H.
      destruct stat as [| | | |d]; try discriminate Hstat.
      simpl in H.
      repeat match type of H with
             | (?a && ?b)%bool = false =>
                 apply andb_false_iff in H; destruct H as [H|H]
             end;
        [ exists BTeam | exists BLeague | exists BGames | exists BShots
        | exists BGoals | exists BPasses | exists BTackles | exists BDuels
        | discriminate H ];
        simpl; match type of H with
               | match assoc ?k d with _ => _ end = false =>
                   destruct (assoc k d); [exact H|discriminate H]
               end. }
    destruct Hb as [b Hb]. destruct (block_fields b) as [c [k Hin]].
    apply (mapM_raise_any _ AttributeError fields (c, (b, k))); [|exact Hin|].
    + intros f _.
      destruct (py_get_cases (block_of (fst (snd f)) ((BPlayer, info) :: env_of stat))
                             (snd (snd f)) PNone) as [[_ [v Hv]]|[_ Hv]];
        rewrite Hv; [left; eexists; reflexivity|right; reflexivity].
    + simpl fst. simpl snd.
      destruct (py_get_cases (block_of b ((BPlayer, info) :: env_of stat)) k PNone)
        as [[Hd _]|[_ Hv]]; [congruence|]. now rewrite Hv.
  - destruct stat; try discriminate Hstat; reflexivity.
Qed.

Lemma existsb_split {A : Type} (p : A -> bool) (l : list A) :
  existsb p l = true ->
  exists l1 x l2, l = l1 ++ x :: l2 /\ forallb (fun a => negb (p a)) l1 = true /\
                  p x = true.
Proof.
  induction l as [|a l IH]; simpl; [discriminate|].
  destruct (p a) eqn:E.
  - intros _. exists [], a, l. auto.
  - simpl. intros H. destruct (IH H) as [l1 [x [l2 [-> [H1 Hx]]]]].
    exists (a :: l1), x, l2. simpl. rewrite E. auto.
Qed.

(** X6.  An entry with a statistics block that cannot be read (the player block,
    the statistics block or one of its eight nested blocks is there but is
    not a dict, as a JSON [null] is) fails the whole run with
    [AttributeError]: the error is emitted, no table is stored, and the rows
    of the entries read before are dropped. *)
Theorem unreadable_block_fails
        (self : t) (data : pyobj) (before after : list pyobj)
        (d : list (string * pyobj)) (sts : list pyobj) :
  py_get data "response" (PList []) = Ok (PList (before ++ PDict d :: after)) ->
  Forall (fun p => entry_ok p = true) before ->
  assoc "statistics" d = Some (PList sts) ->
  existsb (fun st => negb (is_dict (info_of (PDict d)) && stat_ok st)) sts = true ->
  process_players_data self data
  = ([processing_error (ProcessingError AttributeError)], self).
Proof.
  intros Hdata Hbefore Hstats Hbad.
  assert (Hrows : rows_of_player (PDict d) = Raise AttributeError).
  { unfold rows_of_player. simpl py_get. rewrite !bind_Ok_l.
    change (match assoc "player" d with Some v => v | None => PDict [] end)
      with (info_of (PDict d)).
    rewrite Hstats. simpl py_iter. rewrite bind_Ok_l.
    destruct (existsb_split _ _ Hbad) as [l1 [st [l2 [-> [Hl1 Hst]]]]].
    apply mapM_raise.
    - apply Forall_forall. intros a Ha.
      eapply forallb_forall in Hl1; [|exact Ha].
      apply negb_true_iff, negb_false_iff, andb_prop in Hl1.
      destruct Hl1 as [Hi Hs]. rewrite row_of_ok by assumption. eauto.
    - apply row_of_fails. now apply negb_true_iff in Hst. }
  assert (Hnorm : normalize (before ++ PDict d :: after) = Raise AttributeError).
  { unfold normalize. rewrite (mapM_raise rows_of_player AttributeError);
      [reflexivity| |exact Hrows].
    eapply Forall_impl; [|exact Hbefore].
    intros p Hp. rewrite rows_of_player_ok by assumption. eauto. }
  unfold process_players_data. rewrite Hdata, bind_Ok_l.
  replace (py_truthy (PList (before ++ PDict d :: after))) with true
    by (destruct before; reflexivity).
  simpl negb. cbv iota. simpl py_iter. rewrite bind_Ok_l, Hnorm. reflexivity.
Qed.

Lemma unreadable_block_fails_witness :
  process_players_data
    (mk None)
    (PDict [("response",
             PList [PDict [("player", PDict [("id", Samples.n 1)]);
                           ("statistics", PList [PDict [("games", PNone)]])]])])
  = ([processing_error (ProcessingError AttributeError)], mk None).
Proof.
  exact (unreadable_block_fails
           (mk None)
           (PDict [("response",
                    PList [PDict [("player", PDict [("id", Samples.n 1)]);
                                  ("statistics", PList [PDict [("games", PNone)]])]])])
           [] []
           [("player", PDict [("id", Samples.n 1)]);
            ("statistics", PList [PDict [("games", PNone)]])]
           [PDict [("games", PNone)]]
           eq_refl (Forall_nil _) eq_refl eq_refl).
Defined.

End NormalizerShape.

(* ================================================================== *)
(** ** More of the Metric Calculator *)
(* ================================================================== *)

Module MetricRuns.

Import DataProcessor MetricFacts FrameFacts NormalizerShape.

Lemma map2_length {A B C : Type} (g : A -> B -> C) (l : list A) (m : list B) :
  length (map2 g l m) = Nat.min (length l) (length m).
Proof.
  revert m. induction l as [|a l IH]; intros [|b m]; simpl; try reflexivity.
  now rewrite IH.
Qed.

Lemma getcol_setcol (df : DataFrame) (c c' : string) (s : Series) :
  c' <> c -> getcol (setcol df c s) c' = getcol df c'.
Proof.
  intros H. unfold getcol, setcol. simpl. rewrite assoc_set_assoc.
  apply String.eqb_neq in H. now rewrite H.
Qed.

Lemma getcol_Some (df : DataFrame) (c : string) (s : Series) :
  assoc c (df_cols df) = Some s -> getcol df c = Ok s.
Proof. unfold getcol. now intros ->. Qed.

Lemma assoc_setcol_other (df : DataFrame) (c c' : string) (s : Series) :
  c' <> c -> assoc c' (df_cols (setcol df c s)) = assoc c' (df_cols df).
Proof.
  intros H. unfold setcol. simpl. rewrite assoc_set_assoc.
  apply String.eqb_neq in H. now rewrite H.
Qed.

Lemma wf_replace_inf (df : DataFrame) : wf_df df -> wf_df (replace_inf df).
Proof.
  unfold wf_df, replace_inf. simpl. intros H.
  apply Forall_map. eapply Forall_impl; [|exact H].
  intros [c s] Hs. simpl in *. destruct s; simpl in *; now rewrite length_map.
Qed.

Lemma rate_numeric (out num den : string) (df : DataFrame) (n d : list fnum) :
  getcol df den = Ok (NumCol d) -> getcol df num = Ok (NumCol n) ->
  rate out num den df = Ok (setcol df out (NumCol (rate_values n d))).
Proof. intros Hd Hn. unfold rate. now rewrite Hd, Hn. Qed.

Lemma rate_values_length (n d : list fnum) (len : nat) :
  length n = len -> length d = len -> length (rate_values n d) = len.
Proof.
  intros Hn Hd. unfold rate_values.
  rewrite map2_length, !length_map, map2_length. lia.
Qed.

Ltac other_column := rewrite !getcol_setcol by discriminate.

(** X7.  On a table whose columns have one cell per row and where the six
    columns the arithmetic reads are numeric and [passes_accuracy] is
    there, the Metric Calculator completes.  The enriched table has the
    rows of the input and no missing cell; of a column of the input that
    is not one of the four derived ones, it holds the values, an infinity
    or a missing value apart, which reads [0] (['']  in an object
    column). *)
Theorem metrics_complete_on_numeric
        (df : DataFrame) (mp ap st gt dt dw : list fnum) (pa : Series) :
  wf_df df ->
  assoc "minutes_played" (df_cols df) = Some (NumCol mp) ->
  assoc "appearances" (df_cols df) = Some (NumCol ap) ->
  assoc "passes_accuracy" (df_cols df) = Some pa ->
  assoc "shots_total" (df_cols df) = Some (NumCol st) ->
  assoc "goals_total" (df_cols df) = Some (NumCol gt) ->
  assoc "duels_total" (df_cols df) = Some (NumCol dt) ->
  assoc "duels_won" (df_cols df) = Some (NumCol dw) ->
  exists df',
    calculate_player_metrics df = Enriched df' /\
    wf_df df' /\ df_len df' = df_len df /\ no_missing df' /\
    forall c s, assoc c (df_cols df) = Some s -> ~ In c derived_columns ->
                assoc c (df_cols df') = Some (fill_series (replace_series s)).
Proof.
  intros Hwf Hmp Hap Hpa Hst Hgt Hdt Hdw.
  pose proof (wf_df_column df _ _ Hwf Hmp) as Lmp.
  pose proof (wf_df_column df _ _ Hwf Hap) as Lap.
  pose proof (wf_df_column df _ _ Hwf Hpa) as Lpa.
  pose proof (wf_df_column df _ _ Hwf Hst) as Lst.
  pose proof (wf_df_column df _ _ Hwf Hgt) as Lgt.
  pose proof (wf_df_column df _ _ Hwf Hdt) as Ldt.
  pose proof (wf_df_column df _ _ Hwf Hdw) as Ldw.
  simpl in Lmp, Lap, Lst, Lgt, Ldt, Ldw. rewrite length_map in *.
  apply getcol_Some in Hmp, Hap, Hpa, Hst, Hgt, Hdt, Hdw.
  set (df1 := setcol df "minutes_per_appearance" (NumCol (map2 fdiv mp ap))).
  set (df2 := setcol df1 "pass_completion_rate" pa).
  set (df3 := setcol df2 "shot_conversion_rate" (NumCol (rate_values gt st))).
  set (df4 := setcol df3 "duels_success_rate" (NumCol (rate_values dw dt))).
  assert (E1 : minutes_per_appearance df = Ok df1).
  { unfold minutes_per_appearance. now rewrite Hmp, Hap. }
  assert (E2 : pass_completion_rate df1 = Ok df2).
  { unfold pass_completion_rate, df1. other_column. now rewrite Hpa. }
  assert (E3 : shot_conversion_rate df2 = Ok df3).
  { unfold shot_conversion_rate. apply rate_numeric; unfold df2, df1;
      other_column; assumption. }
  assert (E4 : duels_success_rate df3 = Ok df4).
  { unfold duels_success_rate. apply rate_numeric; unfold df3, df2, df1;
      other_column; assumption. }
  exists (handle_missing_values (replace_inf df4)).
  split; [|split; [|split; [reflexivity|split]]].
  - unfold calculate_player_metrics, run. now rewrite E1, E2, E3, E4.
  - apply wf_handle_missing_values, wf_replace_inf.
    unfold df4, df3, df2, df1.
    repeat apply wf_df_setcol; try assumption; simpl.
    + rewrite map2_length. lia.
    + rewrite <- cells_length. exact Lpa.
    + now apply rate_values_length.
    + now apply rate_values_length.
  - apply handle_missing_values_present.
  - intros c s Hc Hnot. rewrite assoc_cleaned.
    unfold df4, df3, df2, df1.
    rewrite !assoc_setcol_other, Hc; [reflexivity| | | |];
      intros ->; apply Hnot; simpl; tauto.
Qed.

Lemma metrics_complete_on_numeric_witness :
  exists df',
    calculate_player_metrics Samples.metrics_table = Enriched df' /\
    wf_df df' /\ df_len df' = 2%nat /\ no_missing df'.
Proof.
  destruct (metrics_complete_on_numeric
              Samples.metrics_table
              [Samples.f 180; Samples.f 0] [Samples.f 2; Samples.f 0]
              [Samples.f 2; Samples.f 0] [Samples.f 3; Samples.f 0]
              [Samples.f 4; Samples.f 0] [Samples.f 1; Samples.f 0]
              (NumCol [Samples.f 80; Samples.f 0])
              wf_metrics_table eq_refl eq_refl eq_refl eq_refl eq_refl eq_refl
              eq_refl)
    as [df' [Hrun [Hwf [Hlen [Hmiss _]]]]].
  exists df'. repeat split; assumption.
Defined.

(** X8.  In the enriched table [pass_completion_rate] is a copy of
    [passes_accuracy]: the two columns are the same, cell for cell. *)
Theorem pass_completion_rate_copies (df df' : DataFrame) :
  calculate_player_metrics df = Enriched df' ->
  exists pa,
    assoc "passes_accuracy" (df_cols df') = Some pa /\
    assoc "pass_completion_rate" (df_cols df') = Some pa.
Proof.
  intros H. apply calculate_enriched in H.
  destruct H as (a & b & q & pa & d1 & c1 & n1 & q1 & m1 & d2 & c2 & n2 & q2
                 & m2 & _ & _ & _ & Hpa & _ & _ & _ & _ & _ & _ & _ & _ & _ & _
                 & ->).
  exists (fill_series (replace_series pa)).
  rewrite !assoc_cleaned. unfold setcol. simpl df_cols.
  repeat (rewrite assoc_set_assoc; simpl String.eqb; cbv iota).
  rewrite Hpa. split; reflexivity.
Qed.

Lemma pass_completion_rate_copies_witness :
  exists df' pa,
    calculate_player_metrics Samples.metrics_table = Enriched df' /\
    assoc "passes_accuracy" (df_cols df') = Some pa /\
    assoc "pass_completion_rate" (df_cols df') = Some pa.
Proof.
  eexists.
  destruct (pass_completion_rate_copies Samples.metrics_table _ eq_refl)
    as [pa [H1 H2]].
  exists pa. split; [reflexivity|]. split; assumption.
Defined.

Lemma mapM_exn {A B : Type} (f : A -> res B) (P : exn -> Prop) (l : list A) e :
  (forall a e', f a = Raise e' -> P e') -> mapM f l = Raise e -> P e.
Proof.
  intros Hf. induction l as [|a l IH]; simpl; [discriminate|].
  destruct (f a) eqn:E; simpl; [|intros H; injection H as <-; eauto].
  destruct (mapM f l); simpl; [discriminate|].
  intros H. injection H as <-. now apply IH.
Qed.

Lemma mapM2_exn {A B C : Type} (f : A -> B -> res C) (P : exn -> Prop)
      (l : list A) (m : list B) e :
  (forall a b e', f a b = Raise e' -> P e') -> mapM2 f l m = Raise e -> P e.
Proof.
  intros Hf. revert m. induction l as [|a l IH]; intros [|b m]; simpl;
    try discriminate.
  destruct (f a b) eqn:E; simpl; [|intros H; injection H as <-; eauto].
  destruct (mapM2 f l m) eqn:E2; simpl; [discriminate|].
  intros H. injection H as <-. now apply (IH m).
Qed.

Lemma getcol_exn (df : DataFrame) (c : string) e :
  In c read_columns -> getcol df c = Raise e -> metrics_exn e.
Proof.
  intros Hin. unfold getcol. destruct (assoc c (df_cols df)); [discriminate|].
  intros H. injection H as <-. right. right. eauto.
Qed.

Lemma py_div_exn (a b : pyobj) e : py_div a b = Raise e -> metrics_exn e.
Proof.
  unfold py_div.
  destruct a as [|u| | |]; try (intros H; injection H as <-; now left).
  destruct b as [|[q| | |]| | |]; try discriminate;
    try (intros H; injection H as <-; now left).
  destruct (Qeq_bool q 0); [|discriminate].
  intros H. injection H as <-. right. now left.
Qed.

Lemma obj_div_exn (x y : list pyobj) e :
  obj_div x y = Raise e -> metrics_exn e.
Proof.
  unfold obj_div.
  destruct (mapM2 py_div x y) as [r|e0] eqn:E; [discriminate|].
  assert (H0 : metrics_exn e0).
  { revert E. apply mapM2_exn. intros a b e'. apply py_div_exn. }
  destruct e0; try (intros H; injection H as <-; exact H0).
  apply mapM2_exn. intros a b e'. unfold masked.
  destruct (py_isna a || py_isna b); [discriminate|apply py_div_exn].
Qed.

Lemma series_div_exn (a b : Series) e :
  series_div a b = Raise e -> metrics_exn e.
Proof.
  assert (H : forall x y, (v <- obj_div x y ;; Ok (ObjCol v)) = Raise e ->
                          metrics_exn e).
  { intros x y. destruct (obj_div x y) as [v|e0] eqn:E; simpl; [discriminate|].
    intros H. injection H as <-. now apply (obj_div_exn x y). }
  destruct a as [x|x], b as [y|y]; simpl; try discriminate; apply H.
Qed.

Lemma series_gt0_exn (a : Series) e : series_gt0 a = Raise e -> metrics_exn e.
Proof.
  destruct a as [x|x]; simpl; [discriminate|]. apply mapM_exn.
  intros o e'. destruct o; simpl; try discriminate;
    intros H; injection H as <-; now left.
Qed.

Lemma series_mul_exn (a : Series) k e :
  series_mul a k = Raise e -> metrics_exn e.
Proof.
  destruct a as [x|x]; simpl; [discriminate|].
  destruct (mapM (py_mul_num k) x) eqn:E; simpl; [discriminate|].
  intros H. injection H as <-. revert E. apply mapM_exn.
  intros o e'. destruct o; simpl; try discriminate;
    intros H; injection H as <-; now left.
Qed.

Lemma rate_assignment (out num den : string) :
  In out derived_columns -> In num read_columns -> In den read_columns ->
  assignment (rate out num den).
Proof.
  intros Hout Hnum Hden df. unfold rate.
  destruct (getcol df den) as [d|e] eqn:E1; simpl;
    [|now apply (getcol_exn df den)].
  destruct (series_gt0 d) as [cond|e] eqn:E2; simpl;
    [|now apply (series_gt0_exn d)].
  destruct (getcol df num) as [n|e] eqn:E3; simpl;
    [|now apply (getcol_exn df num)].
  destruct (series_div n d) as [q|e] eqn:E4; simpl;
    [|now apply (series_div_exn n d)].
  destruct (series_mul q (Fin 100)) as [m|e] eqn:E5; simpl;
    [|now apply (series_mul_exn q (Fin 100))].
  exists out, (np_where0 cond m). split; [assumption|reflexivity].
Qed.

Lemma run_failed (steps : list (DataFrame -> res DataFrame)) (df df' : DataFrame) e :
  Forall assignment steps ->
  run steps df = MetricsFailed e df' ->
  metrics_exn e /\ df_len df' = df_len df /\
  forall c, ~ In c derived_columns ->
            assoc c (df_cols df') = assoc c (df_cols df).
Proof.
  intros Hsteps. revert df.
  induction Hsteps as [|step steps Hstep _ IH]; intros df; simpl;
    [discriminate|].
  specialize (Hstep df). destruct (step df) as [df1|e1].
  - destruct Hstep as [c [s [Hc ->]]]. intros H.
    destruct (IH _ H) as [He [Hlen Hcols]]. split; [exact He|].
    split; [exact Hlen|]. intros c' Hc'. rewrite (Hcols c' Hc').
    apply assoc_setcol_other. intros ->. contradiction.
  - intros H. injection H as <- <-. auto.
Qed.

(** X9.  When the Metric Calculator fails, the frame it returns has the rows of
    the input and, for every column that is not a derived one, the cells of
    the input as they were: the clean-up has not run.  The exception is a
    [KeyError] for one of the seven columns read, a [TypeError] or a
    [ZeroDivisionError]. *)
Theorem failed_metrics_keep_input (df df' : DataFrame) (e : exn) :
  calculate_player_metrics df = MetricsFailed e df' ->
  metrics_exn e /\ df_len df' = df_len df /\
  forall c, ~ In c derived_columns ->
            assoc c (df_cols df') = assoc c (df_cols df).
Proof.
  apply run_failed. repeat constructor.
  - intros d. unfold minutes_per_appearance.
    destruct (getcol d "minutes_played") as [a|e1] eqn:E1; simpl;
      [|apply (getcol_exn d "minutes_played"); [simpl; tauto|exact E1]].
    destruct (getcol d "appearances") as [b|e1] eqn:E2; simpl;
      [|apply (getcol_exn d "appearances"); [simpl; tauto|exact E2]].
    destruct (series_div a b) as [q|e1] eqn:E3; simpl;
      [|now apply (series_div_exn a b)].
    exists "minutes_per_appearance", q. split; [simpl; tauto|reflexivity].
  - intros d. unfold pass_completion_rate.
    destruct (getcol d "passes_accuracy") as [a|e1] eqn:E1; simpl;
      [|apply (getcol_exn d "passes_accuracy"); [simpl; tauto|exact E1]].
    exists "pass_completion_rate", a. split; [simpl; tauto|reflexivity].
  - apply rate_assignment; simpl; tauto.
  - apply rate_assignment; simpl; tauto.
Qed.

Lemma failed_metrics_keep_input_witness :
  calculate_player_metrics Samples.two_stints
  = MetricsFailed (KeyError "appearances") Samples.two_stints /\
  metrics_exn (KeyError "appearances").
Proof.
  split; [reflexivity|].
  exact (proj1 (failed_metrics_keep_input
                  Samples.two_stints Samples.two_stints (KeyError "appearances")
                  eq_refl)).
Defined.

End MetricRuns.

(* ================================================================== *)
(** ** More of the similarity mode *)
(* ================================================================== *)

Module SimilarityRuns.

Import Recommender QueryFacts IndexFacts FrameFacts SortFacts.

Section WithNumerics.

Context {num : Numerics}.

Lemma positions_of_none (mask : list bool) :
  Forall (fun b => b = false) mask -> positions_of mask = [].
Proof.
  induction 1 as [|b mask -> _ IH]; [reflexivity|].
  rewrite positions_of_cons, IH. reflexivity.
Qed.

(** X10.  A trained engine asked for the players similar to an id that no row of
    its table carries emits the player-not-found error, and nothing else;
    no attribute of the engine changes. *)
Theorem unknown_player_rejected
        (self : t) (knn : NearestNeighbors) (df : DataFrame) (ids : Series)
        (player_id n : Z) :
  knn_model self = Some knn ->
  players_df self = Some df ->
  assoc "player_id" (df_cols df) = Some ids ->
  Forall (fun c => py_eq c (PNum (Fin (inject_Z player_id))) = false) (cells ids) ->
  recommend_similar_players self player_id n
  = ([error_occurred (PlayerNotFoundError player_id)], self).
Proof.
  intros Hknn Hdf Hids Hnone.
  unfold recommend_similar_players, prepare_query.
  rewrite Hknn, Hdf. unfold getcol. rewrite Hids.
  rewrite positions_of_none; [now rewrite Hknn|].
  rewrite series_eq_int. now apply Forall_map.
Qed.

Lemma to_array_length (df : DataFrame) (cols : list string) M :
  to_array df cols = Ok M -> length M = df_len df.
Proof.
  unfold to_array. intros H. apply bind_Ok in H.
  destruct H as [columns [_ H]].
  destruct (existsb (existsb is_inf) columns); [discriminate|].
  injection H as <-. now rewrite length_map, length_seq.
Qed.

(** X11.  A run of [train_models] that emits [model_trained] has fitted the
    index on one vector per row of the table, asks it for
    [min(11, rows)] neighbours, has clustered the same vectors into
    [min(8, rows)] clusters, and has stored the labels in the [cluster]
    column of the table; the feature schema is the list of the fourteen
    candidates, whatever columns the table has. *)
Theorem train_models_fits_every_row (self self' : t) sigs :
  train_models self = (sigs, self') ->
  In model_trained sigs ->
  exists df knn km,
    players_df self = Some df /\ df_len df <> 0%nat /\
    sigs = [model_trained] /\
    knn_model self' = Some knn /\
    length (fit_X knn) = df_len df /\
    n_neighbors knn = Nat.min 11 (df_len df) /\
    kmeans_model self' = Some km /\
    n_clusters km = Nat.min 8 (df_len df) /\
    labels_ km = kmeans_fit_predict (fit_X knn) (n_clusters km) /\
    length (labels_ km) = df_len df /\
    players_df self'
    = Some (setcol df "cluster" (NumCol (map label_cell (labels_ km)))) /\
    feature_columns self' = Some candidate_features.
Proof.
  unfold train_models.
  destruct (preprocess_data self) as [[[[X cols]|] sigs0] self1] eqn:Hpre.
  - apply preprocess_data_some in Hpre.
    destruct Hpre as (df & M & p & Hdf & Hlen & HM & Hp & -> & -> & ->).
    apply to_array_length in HM.
    unfold fitted.
    cbn [players_df knn_model kmeans_model feature_columns scaler].
    rewrite Hdf.
    destruct (Nat.eqb _ (df_len df)) eqn:Hlabels.
    + intros H _. inversion H; subst; clear H.
      apply Nat.eqb_eq in Hlabels.
      exists df. eexists. eexists.
      cbn [players_df knn_model kmeans_model feature_columns scaler].
      split; [reflexivity|]. split; [exact Hlen|]. split; [reflexivity|].
      split; [reflexivity|].
      cbn [fit_X n_neighbors n_clusters labels_].
      rewrite length_map, HM.
      split; [reflexivity|]. split; [reflexivity|]. split; [reflexivity|].
      split; [reflexivity|]. split; [reflexivity|].
      split; [|split; reflexivity].
      rewrite length_map, HM in Hlabels. exact Hlabels.
    + intros H Hin. inversion H; subst; clear H.
      destruct Hin as [Hin|[]]. discriminate Hin.
  - apply preprocess_data_none in Hpre. destruct Hpre as [[err ->] _].
    intros H Hin. inversion H; subst; clear H.
    destruct Hin as [Hin|[]]. discriminate Hin.
Qed.

Lemma map_snd_enumerate_with {A B : Type} (g : A -> B) (l : list A) :
  map snd (map (fun ir : nat * A => (g (snd ir), fst ir)) (enumerate l))
  = seq 0 (length l).
Proof.
  rewrite map_map. simpl. rewrite <- enumerate_fst. reflexivity.
Qed.

Lemma NoDup_firstn_of {A : Type} (k : nat) (l : list A) :
  NoDup l -> NoDup (firstn k l).
Proof.
  intros H. revert k. induction H as [|x l Hx _ IH]; intros [|k]; simpl;
    try constructor.
  - intros Hin. apply Hx. eapply firstn_incl. exact Hin.
  - apply IH.
Qed.

(** The search never returns a fitted row twice. *)
Lemma kneighbors_distinct (m : NearestNeighbors) (q : list Q) (k : Z)
      (neighbours : list (Q * nat)) :
  kneighbors m q k = Ok neighbours -> NoDup (map snd neighbours).
Proof.
  unfold kneighbors.
  destruct (Z.leb k 0); [discriminate|].
  destruct (negb _); [discriminate|].
  destruct (Z.ltb _ k); [discriminate|].
  intros H. injection H as <-.
  rewrite <- firstn_map. apply NoDup_firstn_of.
  eapply Permutation_NoDup.
  - apply Permutation_map. symmetry. apply isort_perm.
  - rewrite (map_snd_enumerate_with (euclidean q)). apply seq_NoDup.
Qed.

(** X12.  The rows of a recommendation are rows of the engine's table taken at
    pairwise distinct positions, in the order found, with one score each:
    no row is recommended twice. *)
Theorem recommended_rows_distinct
        (self self' : t) (player_id n : Z) sigs (out : DataFrame) :
  recommend_similar_players self player_id n = (sigs, self') ->
  In (recommendation_ready out) sigs ->
  exists df idxs scores,
    players_df self' = Some df /\
    NoDup idxs /\
    Forall (fun i => (i < df_len df)%nat) idxs /\
    length scores = length idxs /\
    out = setcol (df_take idxs df) "similarity_score" (NumCol scores).
Proof.
  intros Hrun Hin.
  destruct (recommendation_ready_inv _ _ _ _ _ _ Hrun Hin)
    as (q & r & sigs0 & Hq & Hr & ->).
  apply prepare_query_some in Hq.
  destruct Hq as (self1 & sigs1 & df & ids & M & p & row & _ & _ & Hdf & Hqdf
                  & _ & _ & _ & _ & _ & _ & _ & _ & ->).
  apply answer_ok in Hr.
  destruct Hr as (neighbours & Hk & Hidx & Hdist & Hbound & Hout).
  exists df, (similar_indices r), (map similarity_score (similar_distances r)).
  rewrite Hqdf in *. split; [exact Hdf|]. split.
  - rewrite Hidx. pose proof (kneighbors_distinct _ _ _ _ Hk) as Hnd.
    destruct neighbours as [|nb rest]; [constructor|].
    simpl in *. now inversion Hnd.
  - split; [exact Hbound|]. split; [|exact Hout].
    now rewrite length_map, Hidx, Hdist, !length_map.
Qed.

End WithNumerics.

#[local] Existing Instance Samples.numerics.

Lemma trained_two_stints_model :
  exists knn,
    knn_model (snd (train_models (set_data init Samples.two_stints))) = Some knn /\
    players_df (snd (train_models (set_data init Samples.two_stints)))
    = Some (setcol Samples.two_stints "cluster"
                   (NumCol [Samples.f 0; Samples.f 0])).
Proof. eexists. split; vm_compute; reflexivity. Qed.

Lemma unknown_player_rejected_witness :
  let trained := snd (train_models (set_data init Samples.two_stints)) in
  recommend_similar_players trained 7 1
  = ([error_occurred (PlayerNotFoundError 7)], trained).
Proof.
  destruct trained_two_stints_model as [knn [Hknn Hdf]].
  apply (unknown_player_rejected
           (snd (train_models (set_data init Samples.two_stints))) knn
           (setcol Samples.two_stints "cluster" (NumCol [Samples.f 0; Samples.f 0]))
           (NumCol [Samples.f 1; Samples.f 1]) 7 1
           Hknn Hdf eq_refl).
  repeat constructor.
Defined.

Lemma train_models_fits_every_row_witness :
  exists knn km,
    knn_model (snd (train_models (set_data init Samples.two_stints))) = Some knn /\
    length (fit_X knn) = 2%nat /\ n_neighbors knn = 2%nat /\
    kmeans_model (snd (train_models (set_data init Samples.two_stints))) = Some km /\
    n_clusters km = 2%nat.
Proof.
  destruct (train_models_fits_every_row
              (set_data init Samples.two_stints) _ _
              TrainQuery.two_stints_trained (or_introl eq_refl))
    as (df & knn & km & Hdf & _ & _ & Hknn & Hrows & Hn & Hkm & Hk & _).
  injection Hdf as <-.
  exists knn, km. repeat split; assumption.
Defined.

Lemma four_players_recommended :
  exists out self',
    recommend_similar_players (set_data init Samples.four_players) 1 2
    = ([model_trained; recommendation_ready out], self').
Proof. eexists. eexists. vm_compute. reflexivity. Qed.

Lemma recommended_rows_distinct_witness :
  exists out self' df idxs scores,
    recommend_similar_players (set_data init Samples.four_players) 1 2
    = ([model_trained; recommendation_ready out], self') /\
    players_df self' = Some df /\ NoDup idxs /\
    out = setcol (df_take idxs df) "similarity_score" (NumCol scores).
Proof.
  destruct four_players_recommended as [out [self' Hrun]].
  destruct (recommended_rows_distinct
              (set_data init Samples.four_players) self' 1 2 _ out Hrun
              (or_intror (or_introl eq_refl)))
    as (df & idxs & scores & Hdf & Hnd & _ & _ & Hout).
  exists out, self', df, idxs, scores. repeat split; assumption.
Defined.

End SimilarityRuns.

(* ================================================================== *)
(** ** More of the criteria mode *)
(* ================================================================== *)

Module CriteriaRuns.

Import Recommender CriteriaFacts IndexFacts FrameFacts SortFacts.

Lemma filter_length_le {A : Type} (p : A -> bool) (l : list A) :
  (length (filter p l) <= length l)%nat.
Proof.
  induction l as [|a l IH]; simpl; [lia|]. destruct (p a); simpl; lia.
Qed.

Lemma series_ge_length (s : Series) (v : pyobj) (mask : list bool) :
  series_ge s v = Ok mask -> length mask = length (cells s).
Proof.
  unfold series_ge. destruct (py_isna v).
  - intros H. injection H as <-. apply length_map.
  - destruct s as [x|x]; simpl.
    + destruct v; try discriminate. intros H. injection H as <-.
      now rewrite !length_map.
    + apply mapM_length.
Qed.

Lemma series_le_length (s : Series) (v : pyobj) (mask : list bool) :
  series_le s v = Ok mask -> length mask = length (cells s).
Proof.
  unfold series_le. destruct (py_isna v).
  - intros H. injection H as <-. apply length_map.
  - destruct s as [x|x]; simpl.
    + destruct v; try discriminate. intros H. injection H as <-.
      now rewrite !length_map.
    + apply mapM_length.
Qed.

Lemma ranked_filter (mask : list bool) (df : DataFrame) :
  ranked_table df -> length mask = df_len df ->
  ranked_table (df_filter mask df) /\
  (df_len (df_filter mask df) <= df_len df)%nat.
Proof.
  intros [Hwf [v Hv]] Hlen. split; [split|].
  - now apply wf_df_filter.
  - exists (mask_filter mask v). now rewrite assoc_df_filter, Hv.
  - unfold df_filter. simpl. rewrite <- Hlen. apply filter_length_le.
Qed.

Lemma apply_threshold_ranked (df df' : DataFrame) (kv : string * pyobj) :
  ranked_table df -> apply_threshold df kv = Ok df' ->
  ranked_table df' /\ (df_len df' <= df_len df)%nat.
Proof.
  intros Hr. destruct kv as [key value]. unfold apply_threshold.
  assert (Hkeep : forall d : DataFrame, Ok df = Ok d ->
                    ranked_table d /\ (df_len d <= df_len df)%nat).
  { intros d H. injection H as <-. split; [exact Hr|lia]. }
  assert (Hmask : forall s mask c,
             getcol df c = Ok s -> length mask = length (cells s) ->
             ranked_table (df_filter mask df) /\
             (df_len (df_filter mask df) <= df_len df)%nat).
  { intros s mask c Hs Hlen. apply ranked_filter; [exact Hr|].
    apply getcol_Ok in Hs. rewrite Hlen.
    now apply (wf_df_column df c s (proj1 Hr)). }
  destruct (startswith "min_" key && negb (py_eq value PNone)).
  - destruct (has_col df (drop4 key)); [|apply Hkeep].
    destruct (getcol df (drop4 key)) as [s|] eqn:Hs; simpl; [|discriminate].
    destruct (series_ge s value) as [mask|] eqn:Hm; simpl; [|discriminate].
    intros H. injection H as <-.
    apply (Hmask s mask (drop4 key) Hs). now apply (series_ge_length s value).
  - destruct (startswith "max_" key && negb (py_eq value PNone));
      [|apply Hkeep].
    destruct (has_col df (drop4 key)); [|apply Hkeep].
    destruct (getcol df (drop4 key)) as [s|] eqn:Hs; simpl; [|discriminate].
    destruct (series_le s value) as [mask|] eqn:Hm; simpl; [|discriminate].
    intros H. injection H as <-.
    apply (Hmask s mask (drop4 key) Hs). now apply (series_le_length s value).
Qed.

Lemma apply_thresholds_ranked (items : list (string * pyobj)) (df df' : DataFrame) :
  ranked_table df -> apply_thresholds df items = Ok df' ->
  ranked_table df' /\ (df_len df' <= df_len df)%nat.
Proof.
  revert df. induction items as [|kv items IH]; intros df Hr; simpl.
  - intros H. injection H as <-. split; [exact Hr|lia].
  - destruct (apply_threshold df kv) as [d|] eqn:E; simpl; [|discriminate].
    destruct (apply_threshold_ranked _ _ _ Hr E) as [Hd Hle].
    intros H. destruct (IH d Hd H) as [Hr' Hle']. split; [exact Hr'|lia].
Qed.

Lemma filter_position_ranked (df df' : DataFrame) criteria :
  ranked_table df -> filter_position df criteria = Ok df' ->
  ranked_table df' /\ (df_len df' <= df_len df)%nat.
Proof.
  intros Hr. unfold filter_position. destruct (position_of criteria) as [p|].
  - destruct (getcol df "position") as [s|] eqn:Hs; simpl; [|discriminate].
    intros H. injection H as <-. apply ranked_filter; [exact Hr|].
    unfold series_eq. rewrite length_map. apply getcol_Ok in Hs.
    now apply (wf_df_column df "position" s (proj1 Hr)).
  - intros H. injection H as <-. split; [exact Hr|lia].
Qed.

(** The head of a table sorted by its numeric rating. *)
Lemma sort_head_ranked (df : DataFrame) (n : Z) :
  ranked_table df ->
  exists out v,
    (sorted <- (if has_col df "rating" then sort_values_desc "rating" df
                else Ok df) ;;
     Ok (df_head n sorted)) = Ok out /\
    wf_df out /\ df_len out = head_count (df_len df) n /\
    assoc "rating" (df_cols out) = Some (NumCol v) /\
    StronglySorted (fun a b => desc_before (PNum a) (PNum b) = true) v.
Proof.
  intros [Hwf [w Hw]].
  destruct (Lookups.sort_values_numeric "rating" false df w Hwf Hw)
    as [order [Hsort [Hperm Hs]]].
  assert (Hlen : length order = df_len df).
  { rewrite (Permutation_length Hperm). apply length_seq. }
  assert (Hin : Forall (fun i => (i < df_len df)%nat) order).
  { apply Forall_forall. intros i Hi.
    apply (Permutation_in _ Hperm), in_seq in Hi. lia. }
  set (k := head_count (df_len df) n).
  assert (Hk : (k <= df_len df)%nat).
  { subst k. unfold head_count. destruct (Z.leb 0 n); lia. }
  assert (Hin' : Forall (fun i => (i < df_len df)%nat) (firstn k order)).
  { apply Forall_forall. intros i Hi. rewrite Forall_forall in Hin.
    apply Hin. eapply firstn_incl. exact Hi. }
  exists (df_take (firstn k order) df),
         (map (fun i => nth i w NaN) (firstn k order)).
  split; [|split; [|split; [|split]]].
  - unfold has_col. rewrite Hw.
    change (sort_values_desc "rating" df) with (sort_values "rating" false df).
    rewrite Hsort, bind_Ok_l, (df_head_take n order df Hwf Hin), Hlen.
    reflexivity.
  - now apply wf_df_take.
  - simpl. rewrite length_firstn. lia.
  - rewrite assoc_df_take, Hw. simpl. f_equal. f_equal.
    apply take_nth. pose proof (wf_df_column df _ _ Hwf Hw) as L.
    simpl in L. rewrite length_map in L. now rewrite L.
  - apply (StronglySorted_map_inv (fun i => nth i w NaN)
             (fun a b => desc_before (PNum a) (PNum b) = true)).
    apply firstn_sorted. exact Hs.
Qed.

(** X13.  A criteria query on a table that has one cell per row in every column
    and a numeric [rating] column either fails with the criteria error or
    emits one recommendation; the engine is left as it was.  The
    recommendation has at most [n] rows (for [0 <= n]), all of them rows
    of the table, and they come by rating, highest first. *)
Theorem criteria_result_ranked
        (self : t) (df : DataFrame) (ratings : list fnum)
        (criteria : list (string * pyobj)) (n : Z) :
  players_df self = Some df ->
  wf_df df ->
  assoc "rating" (df_cols df) = Some (NumCol ratings) ->
  (exists e,
      recommend_by_criteria self criteria n
      = ([error_occurred (CriteriaError e)], self))
  \/ (exists out v,
         recommend_by_criteria self criteria n
         = ([recommendation_ready out], self) /\
         wf_df out /\
         (df_len out <= df_len df)%nat /\
         ((0 <= n)%Z -> (Z.of_nat (df_len out) <= n)%Z) /\
         assoc "rating" (df_cols out) = Some (NumCol v) /\
         StronglySorted (fun a b => desc_before (PNum a) (PNum b) = true) v).
Proof.
  intros Hdf Hwf Hrating.
  assert (Hr : ranked_table df) by (split; eauto).
  unfold recommend_by_criteria. rewrite Hdf. unfold criteria_rows.
  destruct (filter_position df criteria) as [d1|e] eqn:E1;
    [|left; eexists; reflexivity].
  destruct (filter_position_ranked _ _ _ Hr E1) as [Hr1 Hle1].
  rewrite bind_Ok_l.
  destruct (apply_thresholds d1 criteria) as [d2|e] eqn:E2;
    [|left; eexists; reflexivity].
  destruct (apply_thresholds_ranked _ _ _ Hr1 E2) as [Hr2 Hle2].
  rewrite bind_Ok_l.
  destruct (sort_head_ranked d2 n Hr2) as (out & v & Hout & Hwfo & Hlen & Hv & Hs).
  right. exists out, v. rewrite Hout.
  split; [reflexivity|]. split; [exact Hwfo|].
  assert (Hk : (df_len out <= df_len d2)%nat).
  { rewrite Hlen. unfold head_count. destruct (Z.leb 0 n); lia. }
  split; [lia|]. split; [|split; assumption].
  intros Hn. rewrite Hlen. unfold head_count.
  destruct (Z.leb 0 n) eqn:E; lia.
Qed.

Lemma criteria_result_ranked_witness :
  (exists e,
      recommend_by_criteria (set_data init Samples.defenders)
                            Samples.defenders_criteria 5
      = ([error_occurred (CriteriaError e)], set_data init Samples.defenders))
  \/ (exists out v,
         recommend_by_criteria (set_data init Samples.defenders)
                               Samples.defenders_criteria 5
         = ([recommendation_ready out], set_data init Samples.defenders) /\
         wf_df out /\
         (df_len out <= 3)%nat /\
         ((0 <= 5)%Z -> (Z.of_nat (df_len out) <= 5)%Z) /\
         assoc "rating" (df_cols out) = Some (NumCol v) /\
         StronglySorted (fun a b => desc_before (PNum a) (PNum b) = true) v).
Proof.
  exact (criteria_result_ranked
           (set_data init Samples.defenders) Samples.defenders
           [Samples.f 7; Samples.f 6; Samples.f 8]
           Samples.defenders_criteria 5 eq_refl wf_defenders eq_refl).
Defined.

Lemma assoc_app_other {A : Type} (k key : string) (v : A)
      (c1 c2 : list (string * A)) :
  key <> k -> assoc k (c1 ++ (key, v) :: c2) = assoc k (c1 ++ c2).
Proof.
  intros Hne. induction c1 as [|[k' v'] c1 IH]; simpl.
  - assert (E : String.eqb k key = false)
      by (apply String.eqb_neq; congruence).
    now rewrite E.
  - destruct (String.eqb k k'); [reflexivity|exact IH].
Qed.

Lemma apply_thresholds_app (c1 c2 : list (string * pyobj)) (df : DataFrame) :
  apply_thresholds df (c1 ++ c2)
  = (d <- apply_thresholds df c1 ;; apply_thresholds d c2).
Proof.
  revert df. induction c1 as [|kv c1 IH]; intros df; simpl; [reflexivity|].
  destruct (apply_threshold df kv) as [d|]; simpl; [apply IH|reflexivity].
Qed.

Lemma apply_threshold_unknown (df : DataFrame) (key : string) (v : pyobj) :
  has_col df (drop4 key) = false -> apply_threshold df (key, v) = Ok df.
Proof.
  intros H. unfold apply_threshold. rewrite H.
  destruct (startswith "min_" key && negb (py_eq v PNone));
    [reflexivity|].
  destruct (startswith "max_" key && negb (py_eq v PNone)); reflexivity.
Qed.

Lemma filter_position_has_col (df d : DataFrame) criteria (c : string) :
  filter_position df criteria = Ok d -> has_col d c = has_col df c.
Proof.
  unfold filter_position. destruct (position_of criteria).
  - destruct (getcol df "position"); simpl; [|discriminate].
    intros H. injection H as <-. apply has_col_filter.
  - intros H. now injection H as <-.
Qed.

(** X14.  A threshold on a column the table does not have changes nothing: the
    query answers as it does without the key. *)
Theorem unknown_column_key_ignored
        (self : t) (df : DataFrame) (c1 c2 : list (string * pyobj))
        (key : string) (v : pyobj) (n : Z) :
  players_df self = Some df ->
  key <> "position" ->
  has_col df (drop4 key) = false ->
  recommend_by_criteria self (c1 ++ (key, v) :: c2) n
  = recommend_by_criteria self (c1 ++ c2) n.
Proof.
  intros Hdf Hkey Hcol.
  unfold recommend_by_criteria. rewrite Hdf.
  assert (E : criteria_rows df (c1 ++ (key, v) :: c2) n
              = criteria_rows df (c1 ++ c2) n); [|now rewrite E].
  unfold criteria_rows.
  assert (Hpos : filter_position df (c1 ++ (key, v) :: c2)
                 = filter_position df (c1 ++ c2)).
  { unfold filter_position, position_of. now rewrite assoc_app_other. }
  rewrite Hpos.
  destruct (filter_position df (c1 ++ c2)) as [d1|] eqn:E1; [|reflexivity].
  rewrite !bind_Ok_l. rewrite !apply_thresholds_app.
  destruct (apply_thresholds d1 c1) as [d2|] eqn:E2; [|reflexivity].
  rewrite !bind_Ok_l.
  change (apply_thresholds d2 ((key, v) :: c2))
    with (d <- apply_threshold d2 (key, v) ;; apply_thresholds d c2).
  rewrite apply_threshold_unknown; [reflexivity|].
  destruct (apply_thresholds_keep _ _ _ E2) as [Hhas _].
  now rewrite Hhas, (filter_position_has_col _ _ _ _ E1).
Qed.

Lemma unknown_column_key_ignored_witness :
  recommend_by_criteria (set_data init Samples.defenders)
                        ([("position", PStr "Defender")]
                           ++ ("min_speed", Samples.n 30)
                           :: [("min_tackles_total", Samples.n 50)]) 5
  = recommend_by_criteria (set_data init Samples.defenders)
                          ([("position", PStr "Defender")]
                             ++ [("min_tackles_total", Samples.n 50)]) 5.
Proof.
  apply (unknown_column_key_ignored
           (set_data init Samples.defenders) Samples.defenders).
  - reflexivity.
  - discriminate.
  - reflexivity.
Defined.

End CriteriaRuns.

(* ================================================================== *)
(** ** Standardization *)
(* ================================================================== *)

Module Standardization.

Import Recommender QueryFacts SimilarityRuns.

Section WithNumerics.

Context {num : Numerics}.

Lemma Qsum_zero (l : list Q) : Forall (fun x => x == 0) l -> Qsum l == 0.
Proof.
  induction 1 as [|x l Hx _ IH]; simpl; [reflexivity|].
  rewrite Hx, IH. reflexivity.
Qed.

Lemma Qsum_ext {A : Type} (f g : A -> Q) (l : list A) :
  (forall a, In a l -> f a == g a) -> Qsum (map f l) == Qsum (map g l).
Proof.
  induction l as [|a l IH]; intros H; simpl; [reflexivity|].
  rewrite (H a (or_introl eq_refl)), IH; [reflexivity|].
  intros b Hb. apply H. now right.
Qed.

Lemma Qsum_centred {A : Type} (g : A -> Q) (m s : Q) (l : list A) :
  Qsum (map (fun a => (g a - m) / s) l)
  == (Qsum (map g l) - inject_Z (Z.of_nat (length l)) * m) / s.
Proof.
  induction l as [|a l IH].
  - simpl. unfold Qdiv. ring.
  - change (Qsum (map (fun a0 => (g a0 - m) / s) (a :: l)))
      with ((g a - m) / s + Qsum (map (fun a0 => (g a0 - m) / s) l)).
    change (Qsum (map g (a :: l))) with (g a + Qsum (map g l)).
    rewrite IH.
    replace (length (a :: l)) with (S (length l)) by reflexivity.
    rewrite Nat2Z.inj_succ. unfold Z.succ. rewrite inject_Z_plus.
    unfold Qdiv. ring.
Qed.

Lemma scale_row_length (ms ss r : list Q) :
  length ms = length r -> length ss = length r ->
  length (scale_row ms ss r) = length r.
Proof.
  revert ss r. induction ms as [|m ms IH]; intros [|s ss] [|x r]; simpl;
    try discriminate; try reflexivity.
  intros H1 H2. f_equal. apply IH; congruence.
Qed.

Lemma nth_scale_row (ms ss r : list Q) (j : nat) :
  (j < length r)%nat -> length ms = length r -> length ss = length r ->
  nth j (scale_row ms ss r) 0%Q = ((nth j r 0 - nth j ms 0) / nth j ss 0)%Q.
Proof.
  revert ss r j. induction ms as [|m ms IH]; intros [|s ss] [|x r] j; simpl;
    try discriminate; try lia.
  intros Hj H1 H2. destruct j as [|j]; [reflexivity|].
  apply IH; [lia|congruence|congruence].
Qed.

Lemma nth_map_seq {A : Type} (f : nat -> A) (w j : nat) (d : A) :
  (j < w)%nat -> nth j (map f (seq 0 w)) d = f j.
Proof.
  intros Hj. rewrite (nth_indep _ d (f 0%nat))
    by (now rewrite length_map, length_seq).
  rewrite map_nth, seq_nth by assumption. reflexivity.
Qed.

(** Centring: the columns of a matrix from whose columns their mean has
    been subtracted sum to zero, whatever they are divided by. *)
Lemma centred_columns (I : list (list Q)) (w : nat) (ss : list Q) (j : nat) :
  I <> [] -> Forall (fun r => length r = w) I -> length ss = w ->
  Qsum (column 0%Q j
          (map (scale_row (map (fun j => mean (column 0%Q j I)) (seq 0 w)) ss) I))
  == 0.
Proof.
  intros Hne Hrect Hss. unfold column at 1. rewrite map_map.
  set (ms := map (fun j0 => mean (column 0%Q j0 I)) (seq 0 w)).
  assert (Hms : length ms = w) by (subst ms; now rewrite length_map, length_seq).
  destruct (Nat.lt_ge_cases j w) as [Hj|Hj].
  - rewrite (Qsum_ext _ (fun r => (nth j r 0 - nth j ms 0) / nth j ss 0)).
    + rewrite Qsum_centred.
      subst ms. rewrite nth_map_seq by assumption.
      unfold mean, column.
      set (total := Qsum (map (fun r => nth j r 0) I)).
      rewrite length_map.
      assert (Hn : ~ inject_Z (Z.of_nat (length I)) == 0).
      { destruct I as [|r0 I']; [contradiction|].
        replace (length (r0 :: I')) with (S (length I')) by reflexivity.
        rewrite Nat2Z.inj_succ. unfold Qeq. simpl. lia. }
      rewrite Qmult_div_r by assumption. unfold Qdiv. ring.
    + intros r Hr. rewrite Forall_forall in Hrect.
      pose proof (Hrect r Hr) as Lr.
      rewrite nth_scale_row; [reflexivity|lia|congruence|congruence].
  - apply Qsum_zero. apply Forall_map. apply Forall_forall. intros r Hr.
    rewrite Forall_forall in Hrect. pose proof (Hrect r Hr) as Lr.
    rewrite nth_overflow; [reflexivity|].
    rewrite scale_row_length; [lia|congruence|congruence].
Qed.

Lemma impute_row_length (stats : list (option Q)) (r r' : list fnum) :
  length r = length r' ->
  length (impute_row stats r) = length (impute_row stats r').
Proof.
  revert r r'. induction stats as [|st stats IH]; intros [|x r] [|x' r'];
    simpl; try discriminate; try reflexivity.
  intros H. injection H as H. destruct st; simpl; [f_equal|]; now apply IH.
Qed.

Lemma to_array_rows (df : DataFrame) (cols : list string) M :
  to_array df cols = Ok M -> exists w, Forall (fun r => length r = w) M.
Proof.
  unfold to_array. intros H. apply bind_Ok in H.
  destruct H as [columns [_ H]].
  destruct (existsb (existsb is_inf) columns); [discriminate|].
  injection H as <-. exists (length columns).
  apply Forall_map. apply Forall_forall. intros i _. apply length_map.
Qed.

Lemma same_length_width {A : Type} (M : list (list A)) (w : nat) :
  M <> [] -> Forall (fun r => length r = w) M -> width M = w.
Proof.
  destruct M as [|r M]; [contradiction|]. intros _ H. now inversion H.
Qed.

(** The matrix a preprocessing run returns: the imputed matrix, scaled
    with the means and the deviations of its columns. *)
Lemma preprocess_matrix (self self' : t) X cols sigs :
  preprocess_data self = (Some (X, cols), sigs, self') ->
  exists df M p,
    players_df self = Some df /\
    to_array df (existing_columns df) = Ok M /\
    pipeline_fit M = Ok p /\
    let I := map (impute_row (statistics_ p)) M in
    I <> [] /\
    Forall (fun r => length r = width I) I /\
    mean_ (scaler_step p)
    = map (fun j => mean (column 0%Q j I)) (seq 0 (width I)) /\
    scale_ (scaler_step p)
    = map (fun j => if is_constant_feature (variance (column 0%Q j I))
                                           (mean (column 0%Q j I)) (length I)
                    then 1%Q
                    else sqrt (variance (column 0%Q j I)))
          (seq 0 (width I)) /\
    X = map (scale_row (mean_ (scaler_step p)) (scale_ (scaler_step p))) I.
Proof.
  intros H. apply preprocess_data_some in H.
  destruct H as (df & M & p & Hdf & Hlen & HM & Hp & -> & _ & _).
  exists df, M, p. split; [exact Hdf|]. split; [exact HM|].
  split; [exact Hp|].
  destruct (to_array_rows _ _ _ HM) as [w0 Hrows].
  apply to_array_length in HM.
  assert (HMne : M <> []).
  { intros ->. simpl in HM. congruence. }
  unfold pipeline_fit in Hp. cbv zeta in Hp.
  apply bind_Ok in Hp. destruct Hp as [sc [Hsc Hp]]. injection Hp as <-.
  cbn [scaler_step statistics_]. cbv zeta.
  set (I := map (impute_row (imputer_fit M)) M) in *.
  unfold scaler_fit in Hsc.
  destruct (Nat.eqb (width I) 0); [discriminate|]. injection Hsc as <-.
  cbn [mean_ scale_].
  split; [subst I; destruct M; [contradiction|discriminate]|].
  split; [|split; [reflexivity|split; [reflexivity|]]].
  - destruct M as [|r0 M'] eqn:EM; [contradiction|].
    subst I. simpl width. apply Forall_map. apply Forall_forall.
    intros r Hr. apply impute_row_length.
    rewrite Forall_forall in Hrows.
    rewrite (Hrows r Hr), (Hrows r0 (or_introl eq_refl)). reflexivity.
  - unfold transform_row. cbn [scaler_step statistics_ mean_ scale_].
    subst I. now rewrite map_map.
Qed.

(** X15.  The matrix the index is fitted on is standardized column by column:
    it has a row per table row, all rows of the same length, and every one
    of its columns has mean zero. *)
Theorem standardized_columns_centred (self self' : t) X cols sigs :
  preprocess_data self = (Some (X, cols), sigs, self') ->
  X <> [] /\
  Forall (fun r => length r = width X) X /\
  forall j, mean (column 0%Q j X) == 0.
Proof.
  intros H. apply preprocess_matrix in H.
  destruct H as (df & M & p & _ & _ & _ & H). cbv zeta in H.
  destruct H as (HIne & Hrect & Hms & Hss & ->).
  set (I := map (impute_row (statistics_ p)) M) in *.
  assert (Lms : length (mean_ (scaler_step p)) = width I)
    by (rewrite Hms; now rewrite length_map, length_seq).
  assert (Lss : length (scale_ (scaler_step p)) = width I)
    by (rewrite Hss; now rewrite length_map, length_seq).
  assert (HX : Forall (fun r => length r = width I)
                      (map (scale_row (mean_ (scaler_step p))
                                      (scale_ (scaler_step p))) I)).
  { apply Forall_map. eapply Forall_impl; [|exact Hrect].
    intros r Hr. simpl. rewrite scale_row_length; congruence. }
  assert (HXne : map (scale_row (mean_ (scaler_step p))
                                (scale_ (scaler_step p))) I <> []).
  { destruct I; [contradiction|discriminate]. }
  split; [exact HXne|]. split.
  - now rewrite (same_length_width _ _ HXne HX).
  - intros j. unfold mean at 1. rewrite Hms.
    rewrite (centred_columns I (width I) _ j HIne Hrect Lss).
    unfold Qdiv. ring.
Qed.

Lemma Qsum_scale {A : Type} (f : A -> Q) (c : Q) (l : list A) :
  Qsum (map (fun a => f a * c) l) == Qsum (map f l) * c.
Proof.
  induction l as [|a l IH]; simpl; [ring|]. rewrite IH. ring.
Qed.

Lemma Qsum_nonneg (l : list Q) : Forall (fun x => 0 <= x) l -> 0 <= Qsum l.
Proof.
  induction 1 as [|x l Hx _ IH]; simpl; [apply Qle_refl|].
  replace 0 with (0 + 0) by reflexivity. now apply Qplus_le_compat.
Qed.

Lemma Qsum_nonneg_zero (l : list Q) :
  Forall (fun x => 0 <= x) l -> Qsum l == 0 -> Forall (fun x => x == 0) l.
Proof.
  induction 1 as [|x l Hx Hl IH]; simpl; intros H; constructor.
  - pose proof (Qsum_nonneg l Hl). lra.
  - apply IH. pose proof (Qsum_nonneg l Hl). lra.
Qed.

Lemma length_nonzero {A : Type} (l : list A) :
  l <> [] -> ~ inject_Z (Z.of_nat (length l)) == 0.
Proof.
  destruct l as [|a l]; [contradiction|]. intros _.
  replace (length (a :: l)) with (S (length l)) by reflexivity.
  rewrite Nat2Z.inj_succ. unfold Qeq. simpl. lia.
Qed.

Lemma Qsquare_nonneg (y : Q) : 0 <= y * y.
Proof.
  destruct (Qlt_le_dec y 0) as [Hy|Hy].
  - assert (E : y * y == (- y) * (- y)) by ring.
    rewrite E. apply Qmult_le_0_compat; lra.
  - apply Qmult_le_0_compat; assumption.
Qed.

(** A column without variance is constant. *)
Lemma variance_zero (col : list Q) :
  col <> [] -> variance col == 0 ->
  Forall (fun x => x - mean col == 0) col.
Proof.
  intros Hne Hv. unfold variance in Hv. cbv zeta in Hv.
  unfold mean at 1 in Hv. rewrite length_map in Hv.
  pose proof (length_nonzero col Hne) as Hn.
  assert (Hs : Qsum (map (fun x => (x - mean col) * (x - mean col)) col) == 0).
  { rewrite <- (Qmult_div_r _ _ Hn). rewrite Hv. ring. }
  apply Qsum_nonneg_zero in Hs.
  - rewrite Forall_map in Hs. eapply Forall_impl; [|exact Hs].
    intros x Hx. simpl in Hx. apply Qmult_integral in Hx. tauto.
  - apply Forall_map. apply Forall_forall. intros x _. simpl.
    apply Qsquare_nonneg.
Qed.

(** A column from which its mean is subtracted and which is divided by
    its standard deviation has variance one. *)
Lemma standardize_variance (col : list Q) (s : Q) :
  col <> [] -> ~ variance col == 0 -> s * s == variance col ->
  variance (map (fun x => (x - mean col) / s) col) == 1.
Proof.
  intros Hne Hv Hs.
  pose proof (length_nonzero col Hne) as Hn.
  set (m := mean col) in *.
  set (Y := map (fun x => (x - m) / s) col).
  assert (Hmu : mean Y == 0).
  { unfold mean, Y. rewrite Qsum_centred, length_map.
    rewrite map_id. fold (mean col). unfold m at 1. unfold mean at 1.
    rewrite Qmult_div_r by assumption. unfold Qdiv. ring. }
  assert (HlenY : length Y = length col) by (unfold Y; apply length_map).
  unfold variance. cbv zeta. unfold mean at 1. rewrite length_map, HlenY.
  rewrite (Qsum_ext _ (fun y => y * y))
    by (intros y _; rewrite Hmu; ring).
  unfold Y. rewrite map_map.
  rewrite (Qsum_ext _ (fun x => (x - m) * (x - m) * / (s * s)))
    by (intros x _; unfold Qdiv; rewrite Qinv_mult_distr; ring).
  rewrite Qsum_scale, Hs.
  assert (Hvar : variance col
                 == Qsum (map (fun x => (x - m) * (x - m)) col)
                    / inject_Z (Z.of_nat (length col))).
  { unfold variance. cbv zeta. unfold mean at 1. now rewrite length_map. }
  set (S := Qsum (map (fun x => (x - m) * (x - m)) col)) in *.
  set (N := inject_Z (Z.of_nat (length col))) in *.
  assert (E : S * / variance col / N == (S / N) * / variance col)
    by (unfold Qdiv; ring).
  rewrite E, <- Hvar. now apply Qmult_inv_r.
Qed.

Lemma variance_zero_constant (col : list Q) (n : nat) :
  variance col == 0 -> is_constant_feature (variance col) (mean col) n = true.
Proof.
  intros Hv. unfold is_constant_feature. cbv zeta. apply Qle_bool_iff.
  rewrite Hv at 1 2.
  set (k := inject_Z (Z.of_nat n) * mean col * eps).
  pose proof (Qsquare_nonneg k) as Hk.
  assert (E : inject_Z (Z.of_nat n) * eps * 0 + k * k == k * k) by ring.
  now rewrite E.
Qed.

Lemma Forall2_map_l {A B : Type} (R : B -> A -> Prop) (g : A -> B) (l : list A) :
  (forall a, In a l -> R (g a) a) -> Forall2 R (map g l) l.
Proof.
  induction l as [|a l IH]; intros H; simpl; constructor.
  - apply H. now left.
  - apply IH. intros a' Ha'. apply H. now right.
Qed.

(** X16.  Every column of the matrix the index is fitted on is the imputed
    column, centred and scaled.  A column scikit-learn takes for constant
    (its variance is within the rounding bound of [_is_constant_feature],
    as a zero variance is) is centred only; it is all zero when the
    variance is zero.  Any other column has variance one, when the square
    root taken of its variance is exact. *)
Theorem standardized_columns_scaled (self self' : t) X cols sigs :
  preprocess_data self = (Some (X, cols), sigs, self') ->
  exists df M p,
    players_df self = Some df /\
    to_array df (existing_columns df) = Ok M /\
    pipeline_fit M = Ok p /\
    forall j,
      (j < width (map (impute_row (statistics_ p)) M))%nat ->
      let col := column 0%Q j (map (impute_row (statistics_ p)) M) in
      let constant :=
        is_constant_feature (variance col) (mean col) (length M) in
      (constant = true ->
       Forall2 (fun y x => y == x - mean col) (column 0%Q j X) col) /\
      (variance col == 0 -> Forall (fun y => y == 0) (column 0%Q j X)) /\
      (constant = false ->
       sqrt (variance col) * sqrt (variance col) == variance col ->
       variance (column 0%Q j X) == 1).
Proof.
  intros H. apply preprocess_matrix in H.
  destruct H as (df & M & p & Hdf & HM & Hp & H). cbv zeta in H.
  destruct H as (HIne & Hrect & Hms & Hss & ->).
  exists df, M, p. split; [exact Hdf|]. split; [exact HM|].
  split; [exact Hp|].
  rewrite length_map in Hss.
  set (I := map (impute_row (statistics_ p)) M) in *.
  intros j Hj. cbv zeta.
  assert (Lms : length (mean_ (scaler_step p)) = width I)
    by (rewrite Hms; now rewrite length_map, length_seq).
  assert (Lss : length (scale_ (scaler_step p)) = width I)
    by (rewrite Hss; now rewrite length_map, length_seq).
  set (col := column 0%Q j I).
  assert (Hcol : col <> []).
  { subst col. unfold column. destruct I; [contradiction|discriminate]. }
  assert (HX : column 0%Q j (map (scale_row (mean_ (scaler_step p))
                                           (scale_ (scaler_step p))) I)
               = map (fun x => (x - mean col)
                               / (if is_constant_feature (variance col) (mean col)
                                                         (length M)
                                  then 1 else sqrt (variance col))) col).
  { subst col. unfold column. rewrite !map_map.
    apply map_ext_in. intros r Hr. rewrite Forall_forall in Hrect.
    pose proof (Hrect r Hr) as Lr.
    rewrite nth_scale_row; [|lia|congruence|congruence].
    rewrite Hms, Hss, !nth_map_seq by assumption. reflexivity. }
  rewrite HX.
  assert (Hcentred : is_constant_feature (variance col) (mean col) (length M) = true ->
                     forall x, (x - mean col)
                               / (if is_constant_feature (variance col) (mean col)
                                                         (length M)
                                  then 1 else sqrt (variance col))
                               == x - mean col).
  { intros E x. rewrite E. unfold Qdiv. change (/ 1) with 1. ring. }
  split; [|split].
  - intros E. apply Forall2_map_l. intros x _. now apply Hcentred.
  - intros Hv. apply Forall_map.
    eapply Forall_impl; [|exact (variance_zero col Hcol Hv)].
    intros x Hx. simpl in Hx.
    rewrite (Hcentred (variance_zero_constant col (length M) Hv) x).
    exact Hx.
  - intros E Hs. rewrite E. apply standardize_variance; try assumption.
    intros Hv. rewrite (variance_zero_constant col (length M) Hv) in E.
    discriminate E.
Qed.

End WithNumerics.

#[local] Existing Instance Samples.numerics.

Lemma four_players_preprocessed :
  exists X cols self',
    preprocess_data (set_data init Samples.four_players)
    = (Some (X, cols), [], self').
Proof. eexists. eexists. eexists. vm_compute. reflexivity. Qed.

Lemma standardized_columns_centred_witness :
  exists X cols self',
    preprocess_data (set_data init Samples.four_players)
    = (Some (X, cols), [], self') /\
    X <> [] /\ mean (column 0%Q 0 X) == 0 /\ mean (column 0%Q 1 X) == 0.
Proof.
  destruct four_players_preprocessed as (X & cols & self' & Hrun).
  destruct (standardized_columns_centred _ _ _ _ _ Hrun) as [Hne [_ Hmean]].
  exists X, cols, self'. repeat split; [exact Hrun|exact Hne|apply Hmean..].
Defined.

Lemma standardized_columns_scaled_witness :
  exists X cols self',
    preprocess_data (set_data init Samples.four_players)
    = (Some (X, cols), [], self') /\
    variance (column 0%Q 0 X) == 1.
Proof.
  destruct four_players_preprocessed as (X & cols & self' & Hrun).
  exists X, cols, self'. split; [exact Hrun|].
  destruct (standardized_columns_scaled _ _ _ _ _ Hrun)
    as (df & M & p & Hdf & HM & Hp & Hcols).
  injection Hdf as <-.
  assert (EM : Ok M = to_array Samples.four_players
                                (existing_columns Samples.four_players))
    by (now rewrite HM).
  vm_compute in EM. injection EM as ->.
  assert (Ep : Ok p = pipeline_fit
                        (map (map Samples.f)
                             [[0; 0; 0; 0; 0]; [0; 0; 2; 0; 0];
                              [2; 2; 0; 0; 0]; [2; 2; 2; 0; 0]]%Z))
    by (now rewrite <- Hp).
  vm_compute in Ep. injection Ep as ->.
  apply (Hcols 0%nat); vm_compute; try reflexivity; try lia; discriminate.
Defined.

End Standardization.

(* ================================================================== *)
(** ** The reference row, and queries without data *)
(* ================================================================== *)

Module ReferenceRow.

Import Recommender QueryFacts IndexFacts SimilarityRuns.

Lemma In_enumerate {A : Type} (l : list A) (i : nat) (x : A) :
  nth_error l i = Some x -> In (i, x) (enumerate l).
Proof.
  unfold enumerate.
  assert (H : forall s j, nth_error l j = Some x ->
                          In ((s + j)%nat, x) (combine (seq s (length l)) l)).
  { induction l as [|y l IH]; intros s j Hj; [destruct j; discriminate|].
    destruct j as [|j]; simpl in *.
    - injection Hj as ->. left. f_equal. lia.
    - right. replace (s + S j)%nat with (S s + j)%nat by lia. now apply IH. }
  intros Hi. exact (H 0%nat i Hi).
Qed.

Section WithNumerics.

Context {num : Numerics}.

(** X17.  When the reference row (the first row of the table whose
    [player_id] cell equals the id asked for) is strictly nearer to the
    query vector than every other fitted row, the query completes with a
    recommendation that does not hold that row: the frame emitted is the
    table at the row positions found, and the position of the reference
    row is not among them, the result dropped being the reference itself.
    Other rows of the same player are not excluded. *)
Theorem reference_excluded_when_nearest
        (self self' : t) (player_id n : Z) (q : Query) (r : SimilarityResult)
        sigs0 :
  prepare_query self player_id n = (Some q, sigs0, self') ->
  answer q = Ok r ->
  strictly_nearest q = true ->
  exists df ids c,
    recommend_similar_players self player_id n
    = (sigs0 ++ [recommendation_ready (similar_players r)], self') /\
    players_df self' = Some df /\
    assoc "player_id" (df_cols df) = Some ids /\
    nth_error (cells ids) (q_idx q) = Some c /\
    py_eq c (PNum (Fin (inject_Z player_id))) = true /\
    (forall j c', (j < q_idx q)%nat -> nth_error (cells ids) j = Some c' ->
                  py_eq c' (PNum (Fin (inject_Z player_id))) = false) /\
    similar_players r
    = setcol (df_take (similar_indices r) df) "similarity_score"
             (NumCol (map similarity_score (similar_distances r))) /\
    Forall (fun i => (i < df_len df)%nat) (similar_indices r) /\
    ~ In (q_idx q) (similar_indices r).
Proof.
  intros Hq Hr Hnear.
  assert (Hrun : recommend_similar_players self player_id n
                 = (sigs0 ++ [recommendation_ready (similar_players r)], self')).
  { unfold recommend_similar_players. now rewrite Hq, Hr. }
  apply prepare_query_some in Hq.
  destruct Hq as (self1 & sigs1 & df & ids & M & p & row & _ & _ & Hdf & Hqdf
                  & Hids & Hpos & _ & _ & _ & _ & _ & _ & ->).
  destruct (first_position_of_id _ _ _ Hpos) as (c & Hc & Heq & Hbefore).
  exists df, ids, c. split; [exact Hrun|]. split; [exact Hdf|].
  split; [exact Hids|]. split; [exact Hc|]. split; [exact Heq|].
  split; [exact Hbefore|].
  apply answer_ok in Hr.
  destruct Hr as (neighbours & Hk & Hidx & _ & Hbound & Hout).
  rewrite Hqdf in *. split; [exact Hout|]. split; [exact Hbound|].
  pose proof (kneighbors_distinct _ _ _ _ Hk) as Hnd.
  apply kneighbors_ok in Hk.
  destruct Hk as (_ & _ & _ & Hsorted & Hrows).
  rewrite Hidx. intros Hin.
  destruct neighbours as [|h rest]; [destruct Hin|].
  simpl in Hin, Hnd.
  inversion Hnd as [|? ? Hh _]; subst.
  inversion Hsorted as [|? ? _ Hle]; subst.
  inversion Hrows as [|? ? [rowh [Hrowh Hdh]] Hrest]; subst.
  apply in_map_iff in Hin. destruct Hin as [[d i] [Hi Hin]].
  simpl in Hi. subst i.
  rewrite Forall_forall in Hle, Hrest.
  pose proof (Hle _ Hin) as Hnearer. unfold nearer in Hnearer.
  destruct (Hrest _ Hin) as [row0 [Hrow0 Hd0]]. simpl in *.
  unfold strictly_nearest in Hnear. rewrite Hrow0 in Hnear.
  rewrite forallb_forall in Hnear.
  specialize (Hnear (snd h, rowh) (In_enumerate _ _ _ Hrowh)).
  simpl in Hnear.
  assert (Hne : Nat.eqb (snd h) (q_idx q) = false).
  { apply Nat.eqb_neq. intros E. apply Hh. rewrite E.
    apply in_map_iff. exists (d, q_idx q). auto. }
  rewrite Hne in Hnear. simpl in Hnear. apply negb_true_iff in Hnear.
  rewrite <- Hdh, <- Hd0 in Hnear.
  apply Qle_bool_iff in Hnearer. congruence.
Qed.

(** X18.  A similarity query to an engine that has no model and no row to train
    on emits the no-data error of the training it attempts, then the
    untrained-model error, and leaves the engine as it was. *)
Theorem query_without_data (self : t) (player_id n : Z) :
  knn_model self = None ->
  (players_df self = None \/
   exists df, players_df self = Some df /\ df_len df = 0%nat) ->
  recommend_similar_players self player_id n
  = ([error_occurred NoDataError; error_occurred UntrainedModelError], self).
Proof.
  intros Hknn Hdata.
  assert (Hpre : preprocess_data self = (None, [error_occurred NoDataError], self)).
  { unfold preprocess_data. destruct Hdata as [->|[df [-> Hlen]]];
      [reflexivity|]. now rewrite Hlen. }
  unfold recommend_similar_players, prepare_query, train_models.
  rewrite Hknn, Hpre, Hknn. reflexivity.
Qed.

End WithNumerics.

#[local] Existing Instance Samples.numerics.

Lemma four_players_query :
  exists q r self',
    prepare_query (set_data init Samples.four_players) 1 2
    = (Some q, [model_trained], self') /\
    answer q = Ok r /\ strictly_nearest q = true.
Proof.
  eexists. eexists. eexists.
  split; [vm_compute; reflexivity|].
  split; vm_compute; reflexivity.
Qed.

Lemma reference_excluded_when_nearest_witness :
  exists q r self' df,
    recommend_similar_players (set_data init Samples.four_players) 1 2
    = ([model_trained] ++ [recommendation_ready (similar_players r)], self') /\
    players_df self' = Some df /\
    similar_players r
    = setcol (df_take (similar_indices r) df) "similarity_score"
             (NumCol (map similarity_score (similar_distances r))) /\
    ~ In (q_idx q) (similar_indices r).
Proof.
  destruct four_players_query as (q & r & self' & Hq & Hr & Hnear).
  destruct (reference_excluded_when_nearest _ _ _ _ _ _ _ Hq Hr Hnear)
    as (df & ids & c & Hrun & Hdf & _ & _ & _ & _ & Hout & _ & Hnot).
  exists q, r, self', df. repeat split; assumption.
Defined.

Lemma query_without_data_witness :
  recommend_similar_players init 1 5
  = ([error_occurred NoDataError; error_occurred UntrainedModelError], init).
Proof.
  apply query_without_data; [reflexivity|now left].
Defined.

End ReferenceRow.

(* ================================================================== *)
(** ** The Normalizer's table in the engine *)
(* ================================================================== *)

Module NormalizedFeatures.

Import RawRecord NormalizerShape FrameFacts.

Lemma has_col_keys (df : DataFrame) (c : string) :
  has_col df c = existsb (String.eqb c) (map fst (df_cols df)).
Proof.
  unfold has_col. induction (df_cols df) as [|[k s] cols IH]; simpl;
    [reflexivity|].
  destruct (String.eqb c k); [reflexivity|exact IH].
Qed.

Lemma normalized_features (df : DataFrame) :
  map fst (df_cols df) = map fst DataProcessor.fields ->
  Recommender.existing_columns df = Recommender.candidate_features.
Proof.
  intros H. unfold Recommender.existing_columns.
  rewrite (filter_ext (has_col df)
             (fun c => existsb (String.eqb c) (map fst DataProcessor.fields)))
    by (intros c; rewrite has_col_keys, H; reflexivity).
  reflexivity.
Qed.

Section WithNumerics.

Context {num : Numerics}.

(** X19.  The table of a completed Normalizer run that has a row has all
    fourteen candidate feature columns; training the engine on it never
    fails for lack of features or of data: it trains, or fails in the
    preprocessing or the training itself. *)
Theorem normalized_table_has_all_features
        (self self' : DataProcessor.t) (data : pyobj) (df : DataFrame)
        (engine : Recommender.t) :
  DataProcessor.process_players_data self data
  = ([DataProcessor.processing_complete df], self') ->
  df_len df <> 0%nat ->
  Recommender.existing_columns df = Recommender.candidate_features /\
  exists sigs engine',
    Recommender.train_models (Recommender.set_data engine df) = (sigs, engine') /\
    (sigs = [Recommender.model_trained] \/
     (exists e, sigs = [Recommender.error_occurred (Recommender.PreprocessingError e)]) \/
     (exists e, sigs = [Recommender.error_occurred (Recommender.TrainingError e)])).
Proof.
  intros Hrun Hlen.
  destruct (process_complete_inv _ _ _ _ Hrun) as (_ & _ & _ & [->|[_ Hkeys]]);
    [contradiction|].
  pose proof (normalized_features df Hkeys) as Hfeat.
  split; [exact Hfeat|].
  unfold Recommender.train_models, Recommender.preprocess_data,
    Recommender.set_data.
  cbn [Recommender.players_df Recommender.knn_model Recommender.kmeans_model
       Recommender.feature_columns Recommender.scaler].
  apply Nat.eqb_neq in Hlen. rewrite Hlen, Hfeat.
  change (Nat.ltb (length Recommender.candidate_features) 5) with false.
  cbv iota.
  destruct (bind (Recommender.to_array df Recommender.candidate_features) _)
    as [[X p]|e]; cbv beta iota.
  - cbn [Recommender.players_df Recommender.knn_model Recommender.kmeans_model
         Recommender.feature_columns Recommender.scaler].
    destruct (Nat.eqb _ (df_len df)); eexists; eexists;
      (split; [reflexivity|]); simpl app; eauto.
  - eexists. eexists. split; [reflexivity|]. eauto.
Qed.

End WithNumerics.

#[local] Existing Instance Samples.numerics.

Lemma two_stints_normalized :
  exists df,
    DataProcessor.process_players_data (DataProcessor.mk None) Samples.raw_two_stints
    = ([DataProcessor.processing_complete df], DataProcessor.mk (Some df)) /\
    df_len df = 2%nat.
Proof. eexists. split; vm_compute; reflexivity. Qed.

Lemma normalized_table_has_all_features_witness :
  exists df,
    DataProcessor.process_players_data (DataProcessor.mk None) Samples.raw_two_stints
    = ([DataProcessor.processing_complete df], DataProcessor.mk (Some df)) /\
    Recommender.existing_columns df = Recommender.candidate_features.
Proof.
  destruct two_stints_normalized as [df [Hrun Hlen]].
  exists df. split; [exact Hrun|].
  apply (normalized_table_has_all_features _ _ _ df Recommender.init Hrun).
  rewrite Hlen. discriminate.
Defined.

End NormalizedFeatures.

(* ================================================================== *)
(** ** The criteria of the recommendation form *)
(* ================================================================== *)

Module FormCriteria.

Import Recommender MainController CriteriaFacts FrameFacts.

Lemma thresholds_after_rating (df : DataFrame) (rest : list (string * pyobj))
      (min_rating : Q) (cells0 : list pyobj) (s : string) :
  assoc "rating" (df_cols df) = Some (ObjCol (PStr s :: cells0)) ->
  apply_thresholds df (("position", PNone)
                         :: ("min_rating", PNum (Fin min_rating)) :: rest)
  = Raise TypeError.
Proof.
  intros Hr.
  change (apply_thresholds df (("position", PNone)
                                 :: ("min_rating", PNum (Fin min_rating)) :: rest))
    with (d <- apply_threshold df ("min_rating", PNum (Fin min_rating)) ;;
          apply_thresholds d rest).
  unfold apply_threshold.
  change (startswith "min_" "min_rating") with true.
  change (drop4 "min_rating") with "rating".
  simpl andb. cbv iota.
  unfold has_col, getcol. rewrite Hr. reflexivity.
Qed.

(** X20.  With "All Positions" selected, the criteria of the form on a table
    whose [rating] column holds text (the first cell, at least) fail: the
    minimum rating of the form is a number, text cannot be compared with
    it, and the query emits the criteria error with [TypeError] and no
    recommendation. *)
Theorem form_criteria_on_text_ratings
        (self : t) (df : DataFrame) (s : string) (cells0 : list pyobj)
        (min_rating : Q) (max_age n : Z)
        (passing defensive finishing physical : bool) :
  players_df self = Some df ->
  assoc "rating" (df_cols df) = Some (ObjCol (PStr s :: cells0)) ->
  recommend_by_criteria
    self
    (build_criteria "All Positions" min_rating max_age
                    passing defensive finishing physical) n
  = ([error_occurred (CriteriaError TypeError)], self).
Proof.
  intros Hdf Hr. unfold recommend_by_criteria, criteria_rows. rewrite Hdf.
  unfold build_criteria.
  change (negb (String.eqb "All Positions" "All Positions")) with false.
  cbv iota.
  unfold filter_position, position_of.
  cbn [assoc String.eqb Ascii.eqb Bool.eqb py_truthy app].
  rewrite bind_Ok_l.
  now rewrite (thresholds_after_rating df _ min_rating cells0 s Hr).
Qed.

Lemma form_criteria_on_text_ratings_witness :
  recommend_by_criteria
    (set_data init (mkDF 1 [("rating", ObjCol [PStr "7.3"])]))
    (build_criteria "All Positions" 6 30 false false false false) 5
  = ([error_occurred (CriteriaError TypeError)],
     set_data init (mkDF 1 [("rating", ObjCol [PStr "7.3"])])).
Proof.
  exact (form_criteria_on_text_ratings
           (set_data init (mkDF 1 [("rating", ObjCol [PStr "7.3"])]))
           (mkDF 1 [("rating", ObjCol [PStr "7.3"])]) "7.3" []
           6 30 5 false false false false eq_refl eq_refl).
Defined.

End FormCriteria.

(* ================================================================== *)
(** ** The index between queries *)
(* ================================================================== *)

Module IndexRuns.

Import Recommender QueryFacts TrainQuery IndexFacts SortFacts SimilarityRuns
       ReferenceRow.

Lemma set_assoc_twice {A : Type} (c : string) (s s' : A) (cols : list (string * A)) :
  set_assoc c s' (set_assoc c s cols) = set_assoc c s' cols.
Proof.
  induction cols as [|[k v] cols IH]; simpl.
  - now rewrite String.eqb_refl.
  - destruct (String.eqb c k) eqn:E; simpl; rewrite E; [reflexivity|].
    now rewrite IH.
Qed.

Section WithNumerics.

Context {num : Numerics}.

(** The rows the search leaves out are no nearer than the rows it
    returns. *)
Lemma kneighbors_nearest (m : NearestNeighbors) (q : list Q) (k : Z)
      (neighbours : list (Q * nat)) (i : nat) (row : list Q) :
  kneighbors m q k = Ok neighbours ->
  nth_error (fit_X m) i = Some row ->
  ~ In i (map snd neighbours) ->
  Forall (fun di => fst di <= euclidean q row) neighbours.
Proof.
  unfold kneighbors.
  destruct (Z.leb k 0); [discriminate|].
  destruct (negb _); [discriminate|].
  destruct (Z.ltb _ k); [discriminate|].
  intros H Hrow Hout. injection H as <-.
  set (full := isort dist_le
                 (map (fun ir : nat * list Q => (euclidean q (snd ir), fst ir))
                      (enumerate (fit_X m)))) in *.
  assert (Hin : In (euclidean q row, i) full).
  { apply isort_In. apply in_map_iff. exists (i, row).
    split; [reflexivity|now apply In_enumerate]. }
  rewrite <- (firstn_skipn (Z.to_nat k) full) in Hin.
  apply in_app_or in Hin. destruct Hin as [Hin|Hin].
  - exfalso. apply Hout. apply in_map_iff. exists (euclidean q row, i). auto.
  - apply Forall_forall. intros di Hdi.
    exact (StronglySorted_split nearer (Z.to_nat k) full (isort_sorted _)
             di (euclidean q row, i) Hdi Hin).
Qed.

(** X21.  The rows of a recommendation are the nearest ones but one.  The
    frame emitted is the table at the row positions found.  One fitted
    row, the result dropped, is left out although no recommended row is
    nearer to the query vector than it is; every other fitted row that is
    left out is no nearer to the query vector than any recommended row. *)
Theorem recommended_rows_are_nearest
        (self self' : t) (player_id n : Z) sigs (out : DataFrame) :
  recommend_similar_players self player_id n = (sigs, self') ->
  In (recommendation_ready out) sigs ->
  exists q r sigs0 df dropped row0,
    prepare_query self player_id n = (Some q, sigs0, self') /\
    answer q = Ok r /\
    players_df self' = Some df /\
    out = setcol (df_take (similar_indices r) df) "similarity_score"
                 (NumCol (map similarity_score (similar_distances r))) /\
    nth_error (fit_X (q_model q)) dropped = Some row0 /\
    ~ In dropped (similar_indices r) /\
    Forall (fun d => euclidean (q_vector q) row0 <= d) (similar_distances r) /\
    forall i row,
      nth_error (fit_X (q_model q)) i = Some row ->
      i <> dropped ->
      ~ In i (similar_indices r) ->
      Forall (fun d => d <= euclidean (q_vector q) row) (similar_distances r).
Proof.
  intros Hrun Hin.
  destruct (recommendation_ready_inv _ _ _ _ _ _ Hrun Hin)
    as (q & r & sigs0 & Hq & Hr & ->).
  assert (Hdf : players_df self' = Some (q_df q)).
  { pose proof Hq as Hq'. apply prepare_query_some in Hq'.
    destruct Hq' as (self1 & sigs1 & df & ids & M & p & row & _ & _ & Hdf & Hqdf
                     & _ & _ & _ & _ & _ & _ & _ & _ & ->).
    rewrite Hqdf. exact Hdf. }
  pose proof Hr as Hr'. apply answer_ok in Hr'.
  destruct Hr' as (neighbours & Hk & Hidx & Hdist & _ & Hout).
  pose proof (kneighbors_distinct _ _ _ _ Hk) as Hnd.
  pose proof (kneighbors_ok _ _ _ _ Hk) as (Hpos & _ & Hlen & Hsorted & Hrows).
  destruct neighbours as [|h rest].
  { simpl in Hlen. lia. }
  inversion Hnd as [|? ? Hh _]; subst.
  inversion Hsorted as [|? ? _ Hle]; subst.
  inversion Hrows as [|? ? [rowh [Hrowh Hdh]] _]; subst.
  simpl in Hidx, Hdist.
  exists q, r, sigs0, (q_df q), (snd h), rowh.
  split; [exact Hq|]. split; [exact Hr|]. split; [exact Hdf|].
  split; [exact Hout|]. split; [exact Hrowh|].
  split; [now rewrite Hidx|]. split.
  - rewrite Hdist. apply Forall_map. eapply Forall_impl; [|exact Hle].
    intros di Hdi. unfold nearer in Hdi. now rewrite <- Hdh.
  - intros i row Hrow Hne Hout'.
    assert (Hi : ~ In i (map snd (h :: rest))).
    { simpl. intros [E|E]; [now apply Hne|]. apply Hout'. now rewrite Hidx. }
    pose proof (kneighbors_nearest _ _ _ _ i row Hk Hrow Hi) as Hall.
    rewrite Hdist. apply Forall_map. now inversion Hall.
Qed.

(** X22.  A query to an engine that has a model does not train: whatever it
    emits, the index, the cluster model and the table are the ones before
    the query. *)
Theorem trained_query_keeps_index
        (self self' : t) (knn : NearestNeighbors) (player_id n : Z) sigs :
  knn_model self = Some knn ->
  recommend_similar_players self player_id n = (sigs, self') ->
  knn_model self' = Some knn /\
  kmeans_model self' = kmeans_model self /\
  players_df self' = players_df self /\
  ~ In model_trained sigs.
Proof.
  intros Hknn.
  assert (Hkeep : forall sigs0, (forall s, In s sigs0 -> s <> model_trained) ->
            (sigs0, self) = (sigs, self') ->
            knn_model self' = Some knn /\
            kmeans_model self' = kmeans_model self /\
            players_df self' = players_df self /\
            ~ In model_trained sigs).
  { intros sigs0 Hs H. injection H as <- <-. repeat split; auto.
    intros Hin. now apply (Hs _ Hin). }
  assert (Herr : forall err s, In s ([] ++ [error_occurred err]) -> s <> model_trained).
  { intros err s [<-|[]]. discriminate. }
  unfold recommend_similar_players, prepare_query. rewrite Hknn.
  cbv beta iota. rewrite Hknn.
  destruct (players_df self) as [df|] eqn:Hdf; [|apply Hkeep, Herr].
  destruct (getcol df "player_id") as [ids|e]; [|apply Hkeep, Herr].
  destruct (positions_of _) as [|idx rest]; [apply Hkeep, Herr|].
  destruct (preprocess_data self) as [[[[X cols]|] sigs1] self2] eqn:Hpre.
  - apply preprocess_data_some in Hpre.
    destruct Hpre as (df0 & M & p & _ & _ & _ & _ & -> & -> & ->).
    assert (Hfit : knn_model (fitted self p) = Some knn /\
                   kmeans_model (fitted self p) = kmeans_model self /\
                   players_df (fitted self p) = players_df self)
      by (unfold fitted; simpl; rewrite Hdf; auto).
    destruct Hfit as (H1 & H2 & H3). rewrite <- Hdf.
    destruct (nth_error _ idx) as [v|].
    + destruct (answer _) as [r|e]; intros H; injection H as <- <-;
        (split; [exact H1|split; [exact H2|split; [exact H3|]]]);
        simpl; intros [Hc|[]]; discriminate Hc.
    + intros H. injection H as <- <-.
      split; [exact H1|split; [exact H2|split; [exact H3|]]].
      simpl. intros [Hc|[]]. discriminate Hc.
  - apply preprocess_data_none in Hpre.
    destruct Hpre as ([err ->] & H1 & H2 & _ & H3).
    intros H. injection H as <- <-. rewrite H1, H2, H3, Hknn, Hdf.
    repeat split. simpl. intros [Hc|[]]. discriminate Hc.
Qed.

Ltac not_trained :=
  let H := fresh in
  let Hin := fresh in
  intros H Hin; inversion H; subst; clear H;
  simpl in Hin; destruct Hin as [Hin|[]]; discriminate Hin.

(** What a run of [train_models] that emits [model_trained] leaves. *)
Lemma train_models_trained (self self' : t) sigs :
  train_models self = (sigs, self') ->
  In model_trained sigs ->
  exists df M p,
    players_df self = Some df /\
    Nat.eqb (df_len df) 0 = false /\
    Nat.ltb (length (existing_columns df)) 5 = false /\
    to_array df (existing_columns df) = Ok M /\
    pipeline_fit M = Ok p /\
    Nat.eqb (length (kmeans_fit_predict (map (transform_row p) M)
                       (Nat.min 8 (length (map (transform_row p) M)))))
            (df_len df) = true /\
    sigs = [model_trained] /\
    self' = mk (Some (mkKnn (Nat.min 11 (length (map (transform_row p) M)))
                            (map (transform_row p) M)))
               (Some (mkKMeans
                        (Nat.min 8 (length (map (transform_row p) M)))
                        (kmeans_fit_predict
                           (map (transform_row p) M)
                           (Nat.min 8 (length (map (transform_row p) M))))))
               (Some candidate_features)
               (Some (scaler_step p))
               (Some (setcol df "cluster"
                        (NumCol (map label_cell
                                   (kmeans_fit_predict
                                      (map (transform_row p) M)
                                      (Nat.min 8 (length (map (transform_row p) M)))))))).
Proof.
  unfold train_models, preprocess_data. cbv zeta.
  destruct (players_df self) as [df|] eqn:Hdf; [|not_trained].
  destruct (Nat.eqb (df_len df) 0) eqn:Hlen; [not_trained|].
  destruct (Nat.ltb (length (existing_columns df)) 5) eqn:Hfive;
    [not_trained|].
  destruct (to_array df (existing_columns df)) as [M|e] eqn:HM;
    [|not_trained].
  rewrite bind_Ok_l. unfold fit_transform.
  destruct (pipeline_fit M) as [p|e] eqn:Hp; [|not_trained].
  rewrite bind_Ok_l. cbv beta iota.
  cbn [players_df knn_model kmeans_model feature_columns scaler].
  destruct (Nat.eqb (length (kmeans_fit_predict _ _)) (df_len df)) eqn:Hlab;
    [|not_trained].
  intros H _. injection H as <- <-.
  exists df, M, p. repeat split; assumption.
Qed.

(** X23.  Training again on the table a training has left gives the engine the
    first training gave: the [cluster] column is not a feature, and the
    fit, the index and the labels are computed from the same matrix. *)
Theorem retraining_changes_nothing (self self1 : t) sigs :
  train_models self = (sigs, self1) ->
  In model_trained sigs ->
  train_models self1 = ([model_trained], self1).
Proof.
  intros Hrun Hin.
  destruct (train_models_trained _ _ _ Hrun Hin)
    as (df & M & p & Hdf & Hlen & Hfive & HM & Hp & Hlab & _ & ->).
  unfold train_models, preprocess_data. cbv zeta.
  cbn [players_df knn_model kmeans_model feature_columns scaler].
  change (df_len (setcol df "cluster" ?s)) with (df_len df).
  rewrite Hlen, existing_columns_cluster, Hfive.
  rewrite <- (existing_columns_cluster df) at 1.
  rewrite to_array_cluster, HM, bind_Ok_l.
  unfold fit_transform. rewrite Hp, bind_Ok_l. cbv beta iota.
  cbn [players_df knn_model kmeans_model feature_columns scaler].
  change (df_len (setcol df "cluster" ?s)) with (df_len df).
  rewrite Hlab. unfold setcol. cbn [df_len df_cols]. rewrite set_assoc_twice.
  reflexivity.
Qed.

End WithNumerics.

#[local] Existing Instance Samples.numerics.

Lemma recommended_rows_are_nearest_witness :
  exists out self' q r df dropped row0,
    recommend_similar_players (set_data init Samples.four_players) 1 2
    = ([model_trained; recommendation_ready out], self') /\
    answer q = Ok r /\
    players_df self' = Some df /\
    out = setcol (df_take (similar_indices r) df) "similarity_score"
                 (NumCol (map similarity_score (similar_distances r))) /\
    nth_error (fit_X (q_model q)) dropped = Some row0 /\
    ~ In dropped (similar_indices r) /\
    Forall (fun d => euclidean (q_vector q) row0 <= d) (similar_distances r) /\
    forall i row,
      nth_error (fit_X (q_model q)) i = Some row ->
      i <> dropped ->
      ~ In i (similar_indices r) ->
      Forall (fun d => d <= euclidean (q_vector q) row) (similar_distances r).
Proof.
  destruct four_players_recommended as [out [self' Hrun]].
  destruct (recommended_rows_are_nearest
              (set_data init Samples.four_players) self' 1 2 _ out Hrun
              (or_intror (or_introl eq_refl)))
    as (q & r & sigs0 & df & dropped & row0 & _ & Hr & Hdf & Hout & Hd & Hn
        & Hle & Hnear).
  exists out, self', q, r, df, dropped, row0. repeat split; assumption.
Defined.

Lemma trained_query_keeps_index_witness :
  players_df
    (snd (recommend_similar_players
            (snd (train_models (set_data init Samples.two_stints))) 1 1))
  = players_df (snd (train_models (set_data init Samples.two_stints))) /\
  ~ In model_trained
       (fst (recommend_similar_players
               (snd (train_models (set_data init Samples.two_stints))) 1 1)).
Proof.
  destruct trained_two_stints_model as [knn [Hknn _]].
  destruct (recommend_similar_players
              (snd (train_models (set_data init Samples.two_stints))) 1 1)
    as [sigs self'] eqn:Hrun.
  destruct (trained_query_keeps_index _ self' knn 1 1 sigs Hknn Hrun)
    as (_ & _ & Hdf & Hsig).
  split; assumption.
Defined.

Lemma retraining_changes_nothing_witness :
  let trained := snd (train_models (set_data init Samples.two_stints)) in
  train_models trained = ([model_trained], trained).
Proof.
  exact (retraining_changes_nothing
           (set_data init Samples.two_stints) _ _
           two_stints_trained (or_introl eq_refl)).
Defined.

End IndexRuns.

(* ================================================================== *)
(** ** The rows of a criteria query *)
(* ================================================================== *)

Module CriteriaSelection.

Import Recommender CriteriaFacts IndexFacts FrameFacts SortFacts CriteriaRuns.

Lemma positions_of_bound (mask : list bool) :
  Forall (fun i => (i < length mask)%nat) (positions_of mask).
Proof.
  induction mask as [|b mask IH]; [constructor|].
  rewrite positions_of_cons. apply Forall_app. split.
  - destruct b; [constructor; [simpl; lia|constructor]|constructor].
  - apply Forall_map. eapply Forall_impl; [|exact IH].
    intros i Hi. simpl in *. lia.
Qed.

Lemma positions_of_distinct (mask : list bool) : NoDup (positions_of mask).
Proof.
  induction mask as [|b mask IH]; [constructor|].
  rewrite positions_of_cons.
  assert (Hs : NoDup (map S (positions_of mask))).
  { clear b. induction IH as [|i l Hi _ IHl]; simpl; constructor;
      [|exact IHl].
    intros Hin. apply in_map_iff in Hin. destruct Hin as [x [Hx Hxl]].
    injection Hx as ->. contradiction. }
  destruct b; [|exact Hs]. simpl. constructor; [|exact Hs].
  intros Hin. apply in_map_iff in Hin. destruct Hin as [x [Hx _]].
  discriminate Hx.
Qed.

Lemma take_take {A : Type} (d : A) (a b : list nat) (l : list A) :
  Forall (fun i => (i < length b)%nat) a ->
  Forall (fun i => (i < length l)%nat) b ->
  take a (take b l) = take (map (fun i => nth i b 0%nat) a) l.
Proof.
  intros Ha Hb.
  rewrite (take_nth d b l Hb).
  rewrite (take_nth d a) by (now rewrite length_map).
  rewrite (take_nth d (map _ a) l).
  - rewrite map_map. apply map_ext_in. intros i Hi.
    rewrite Forall_forall in Ha. specialize (Ha i Hi).
    rewrite (nth_indep _ d (nth 0%nat l d)) by (now rewrite length_map).
    now rewrite (map_nth (fun j => nth j l d) b 0%nat).
  - apply Forall_map. rewrite Forall_forall in *. intros i Hi.
    apply Hb. apply nth_In. now apply Ha.
Qed.

Lemma series_take_take (a b : list nat) (s : Series) :
  Forall (fun i => (i < length b)%nat) a ->
  Forall (fun i => (i < series_len s)%nat) b ->
  series_take a (series_take b s)
  = series_take (map (fun i => nth i b 0%nat) a) s.
Proof.
  intros Ha Hb. destruct s as [v|v]; simpl in *; f_equal.
  - now apply (take_take NaN).
  - now apply (take_take PNone).
Qed.

Lemma df_take_take (a b : list nat) (df : DataFrame) :
  wf_df df ->
  Forall (fun i => (i < length b)%nat) a ->
  Forall (fun i => (i < df_len df)%nat) b ->
  df_take a (df_take b df) = df_take (map (fun i => nth i b 0%nat) a) df.
Proof.
  intros Hwf Ha Hb. unfold df_take. simpl. rewrite length_map. f_equal.
  rewrite map_map. apply map_ext_in. intros [c s] Hin. simpl. f_equal.
  apply series_take_take; [exact Ha|].
  unfold wf_df in Hwf. rewrite Forall_forall in Hwf.
  pose proof (Hwf (c, s) Hin) as Hlen. simpl in Hlen. now rewrite Hlen.
Qed.

Lemma NoDup_map_nth (a b : list nat) :
  NoDup a -> NoDup b -> Forall (fun i => (i < length b)%nat) a ->
  NoDup (map (fun i => nth i b 0%nat) a).
Proof.
  intros Ha Hb Hbound. induction Ha as [|i a Hi Ha IH]; simpl; [constructor|].
  inversion Hbound as [|? ? Hib Hrest]; subst.
  constructor; [|now apply IH].
  intros Hin. apply in_map_iff in Hin. destruct Hin as [j [Hj Hja]].
  rewrite Forall_forall in Hrest.
  assert (E : j = i).
  { apply (proj1 (NoDup_nth b 0%nat) Hb); [now apply Hrest|exact Hib|exact Hj]. }
  subst j. contradiction.
Qed.

Lemma df_take_all (df : DataFrame) :
  wf_df df -> df_take (seq 0 (df_len df)) df = df.
Proof.
  intros Hwf. destruct df as [len cols]. unfold df_take. simpl in *.
  rewrite length_seq. f_equal.
  rewrite <- (map_id cols) at 2. apply map_ext_in. intros [c s] Hin. simpl.
  f_equal. unfold wf_df in Hwf. rewrite Forall_forall in Hwf.
  pose proof (Hwf (c, s) Hin) as Hlen. simpl in Hlen.
  destruct s as [v|v]; simpl in *; f_equal;
    rewrite take_seq_firstn by lia; rewrite <- Hlen; apply firstn_all.
Qed.

Lemma selection_refl (df : DataFrame) : wf_df df -> row_selection df df.
Proof.
  intros Hwf. exists (seq 0 (df_len df)). split; [apply seq_NoDup|].
  split; [|symmetry; now apply df_take_all].
  apply Forall_forall. intros i Hi. apply in_seq in Hi. lia.
Qed.

Lemma selection_take (df d : DataFrame) (idxs : list nat) :
  wf_df df -> row_selection df d ->
  NoDup idxs -> Forall (fun i => (i < df_len d)%nat) idxs ->
  row_selection df (df_take idxs d).
Proof.
  intros Hwf (b & Hb & Hbound & ->) Ha Habound. simpl in Habound.
  exists (map (fun i => nth i b 0%nat) idxs).
  split; [now apply NoDup_map_nth|]. split.
  - apply Forall_map. rewrite Forall_forall in *. intros i Hi.
    apply Hbound. apply nth_In. now apply Habound.
  - now apply df_take_take.
Qed.

Lemma df_filter_take (mask : list bool) (df : DataFrame) :
  wf_df df -> length mask = df_len df ->
  df_filter mask df = df_take (positions_of mask) df.
Proof.
  intros Hwf Hlen. unfold df_filter, df_take.
  rewrite positions_of_length. f_equal.
  apply map_ext_in. intros [c s] Hin. simpl. f_equal.
  unfold wf_df in Hwf. rewrite Forall_forall in Hwf.
  pose proof (Hwf (c, s) Hin) as Hs. simpl in Hs.
  pose proof (positions_of_bound mask) as Hb. rewrite Hlen, <- Hs in Hb.
  destruct s as [v|v]; simpl in *; f_equal.
  - rewrite (mask_filter_positions NaN) by congruence.
    symmetry. now apply take_nth.
  - rewrite (mask_filter_positions PNone) by congruence.
    symmetry. now apply take_nth.
Qed.

Lemma selection_filter (df d : DataFrame) (mask : list bool) :
  wf_df df -> row_selection df d -> wf_df d -> length mask = df_len d ->
  row_selection df (df_filter mask d).
Proof.
  intros Hwf Hsel Hwfd Hlen. rewrite (df_filter_take mask d Hwfd Hlen).
  apply selection_take; try assumption; [apply positions_of_distinct|].
  rewrite <- Hlen. apply positions_of_bound.
Qed.

(** A threshold keeps the frame or filters it with a mask of its length. *)
Lemma apply_threshold_mask (df df' : DataFrame) (kv : string * pyobj) :
  wf_df df -> apply_threshold df kv = Ok df' ->
  df' = df \/ exists mask, length mask = df_len df /\ df' = df_filter mask df.
Proof.
  intros Hwf. destruct kv as [key value]. unfold apply_threshold.
  assert (Hkeep : forall d : DataFrame, Ok df = Ok d ->
            d = df \/ exists mask, length mask = df_len df /\ d = df_filter mask df).
  { intros d H. injection H as <-. now left. }
  destruct (startswith "min_" key && negb (py_eq value PNone)).
  - destruct (has_col df (drop4 key)); [|apply Hkeep].
    destruct (getcol df (drop4 key)) as [s|] eqn:Hs; simpl; [|discriminate].
    destruct (series_ge s value) as [mask|] eqn:Hm; simpl; [|discriminate].
    intros H. injection H as <-. right. exists mask. split; [|reflexivity].
    rewrite (series_ge_length s value mask Hm). apply getcol_Ok in Hs.
    now apply (wf_df_column df (drop4 key)).
  - destruct (startswith "max_" key && negb (py_eq value PNone));
      [|apply Hkeep].
    destruct (has_col df (drop4 key)); [|apply Hkeep].
    destruct (getcol df (drop4 key)) as [s|] eqn:Hs; simpl; [|discriminate].
    destruct (series_le s value) as [mask|] eqn:Hm; simpl; [|discriminate].
    intros H. injection H as <-. right. exists mask. split; [|reflexivity].
    rewrite (series_le_length s value mask Hm). apply getcol_Ok in Hs.
    now apply (wf_df_column df (drop4 key)).
Qed.

Lemma apply_thresholds_selection (items : list (string * pyobj))
      (df d d' : DataFrame) :
  wf_df df -> wf_df d -> row_selection df d ->
  apply_thresholds d items = Ok d' ->
  wf_df d' /\ row_selection df d'.
Proof.
  intros Hwf. revert d. induction items as [|kv items IH]; intros d Hwfd Hsel;
    simpl.
  - intros H. injection H as <-. auto.
  - destruct (apply_threshold d kv) as [d1|] eqn:E; simpl; [|discriminate].
    destruct (apply_threshold_mask _ _ _ Hwfd E) as [->|[mask [Hlen ->]]].
    + now apply IH.
    + apply IH; [now apply wf_df_filter|now apply selection_filter].
Qed.

Lemma argsort_desc_perm (s : Series) (order : list nat) :
  argsort_desc s = Ok order -> Permutation order (seq 0 (length (cells s))).
Proof.
  unfold argsort_desc. destruct (sortable (cells s)); [|discriminate].
  intros H. injection H as <-. rewrite isort_perm. now rewrite enumerate_fst.
Qed.

(** X24.  The rows a criteria query recommends are rows of the engine's table,
    none of them twice: the recommendation is the table at pairwise
    distinct row positions. *)
Theorem criteria_rows_from_table
        (self self' : t) (df : DataFrame) (criteria : list (string * pyobj))
        (n : Z) sigs (out : DataFrame) :
  players_df self = Some df ->
  wf_df df ->
  recommend_by_criteria self criteria n = (sigs, self') ->
  In (recommendation_ready out) sigs ->
  row_selection df out.
Proof.
  intros Hdf Hwf. unfold recommend_by_criteria. rewrite Hdf.
  destruct (criteria_rows df criteria n) as [rows|e] eqn:E;
    intros H Hin; injection H as <- <-; destruct Hin as [Hin|[]];
    [|discriminate Hin].
  injection Hin as ->.
  unfold criteria_rows in E.
  apply bind_Ok in E. destruct E as [d1 [E1 E]].
  apply bind_Ok in E. destruct E as [d2 [E2 E]].
  apply bind_Ok in E. destruct E as [d3 [E3 E]]. injection E as <-.
  assert (H1 : wf_df d1 /\ row_selection df d1).
  { unfold filter_position in E1. destruct (position_of criteria) as [p|].
    - apply bind_Ok in E1. destruct E1 as [s [Hs E1]]. injection E1 as <-.
      apply getcol_Ok in Hs.
      assert (Hlen : length (series_eq s p) = df_len df).
      { unfold series_eq. rewrite length_map.
        now apply (wf_df_column df "position"). }
      split; [now apply wf_df_filter|].
      apply selection_filter; try assumption. now apply selection_refl.
    - injection E1 as <-. split; [exact Hwf|now apply selection_refl]. }
  destruct H1 as [Hwf1 Hsel1].
  destruct (apply_thresholds_selection _ _ _ _ Hwf Hwf1 Hsel1 E2)
    as [Hwf2 Hsel2].
  assert (H3 : wf_df d3 /\ row_selection df d3).
  { destruct (has_col d2 "rating"); [|injection E3 as <-; auto].
    unfold sort_values_desc in E3.
    apply bind_Ok in E3. destruct E3 as [s [Hs E3]].
    apply bind_Ok in E3. destruct E3 as [order [Ho E3]]. injection E3 as <-.
    apply getcol_Ok in Hs. apply argsort_desc_perm in Ho.
    rewrite (wf_df_column d2 "rating" s Hwf2 Hs) in Ho.
    assert (Hb : Forall (fun i => (i < df_len d2)%nat) order).
    { apply Forall_forall. intros i Hi.
      apply (Permutation_in _ Ho), in_seq in Hi. lia. }
    split; [now apply wf_df_take|].
    apply selection_take; try assumption.
    apply (Permutation_NoDup (Permutation_sym Ho)), seq_NoDup. }
  destruct H3 as [Hwf3 Hsel3].
  unfold df_head. apply selection_take; try assumption; [apply seq_NoDup|].
  apply Forall_forall. intros i Hi. apply in_seq in Hi.
  assert (head_count (df_len d3) n <= df_len d3)%nat; [|lia].
  unfold head_count. destruct (Z.leb 0 n); lia.
Qed.

Lemma defenders_recommended :
  exists out,
    recommend_by_criteria (set_data init Samples.defenders)
                          Samples.defenders_criteria 5
    = ([recommendation_ready out], set_data init Samples.defenders).
Proof. eexists. vm_compute. reflexivity. Qed.

Lemma criteria_rows_from_table_witness :
  exists out,
    recommend_by_criteria (set_data init Samples.defenders)
                          Samples.defenders_criteria 5
    = ([recommendation_ready out], set_data init Samples.defenders) /\
    row_selection Samples.defenders out.
Proof.
  destruct defenders_recommended as [out Hrun].
  exists out. split; [exact Hrun|].
  exact (criteria_rows_from_table
           (set_data init Samples.defenders) _ Samples.defenders
           Samples.defenders_criteria 5 _ out
           eq_refl wf_defenders Hrun (or_introl eq_refl)).
Defined.

End CriteriaSelection.

(* ================================================================== *)
(** ** The cells of the Normalizer's table *)
(* ================================================================== *)

Module NormalizerCells.

Import DataProcessor RawRecord Normalizer NormalizerShape.

Lemma record_of_field (pr : pyobj * pyobj) (c : string) (b : block) (k : string) :
  In (c, (b, k)) fields ->
  assoc c (record_of pr)
  = Some (getn (block_of b ((BPlayer, fst pr) :: env_of (snd pr))) k).
Proof.
  intros Hin. unfold fields in Hin. simpl in Hin.
  repeat (destruct Hin as [Hin|Hin];
          [injection Hin as <- <- <-; reflexivity|]).
  destruct Hin.
Qed.

Lemma assoc_map_key {A B : Type} (h : string -> B) (c : string)
      (r : list (string * A)) :
  assoc c (map (fun kv => (fst kv, h (fst kv))) r)
  = option_map (fun _ => h c) (assoc c r).
Proof.
  induction r as [|[k v] r IH]; simpl; [reflexivity|].
  destruct (String.eqb c k) eqn:E; [|exact IH].
  apply String.eqb_eq in E. now subst k.
Qed.

(** The value a field has in the row of a (player, statistics block)
    pair: [block.get(key)], the block being [{}] when it is not there. *)
Lemma DataFrame_of_column (prs : list (pyobj * pyobj)) (c : string)
      (b : block) (k : string) :
  prs <> [] -> In (c, (b, k)) fields ->
  assoc c (df_cols (DataFrame_of (map record_of prs)))
  = Some (infer_series
            (map (fun pr => getn (block_of b ((BPlayer, fst pr) :: env_of (snd pr))) k)
                 prs)).
Proof.
  intros Hne Hin. destruct prs as [|pr0 prs]; [contradiction|].
  change (DataFrame_of (map record_of (pr0 :: prs)))
    with (mkDF (length (map record_of (pr0 :: prs)))
               (map (fun kv : string * pyobj =>
                       (fst kv,
                        infer_series
                          (map (fun r' => match assoc (fst kv) r' with
                                          | Some v => v
                                          | None => PNone
                                          end)
                               (map record_of (pr0 :: prs)))))
                    (record_of pr0))).
  cbn [df_cols].
  rewrite (assoc_map_key
             (fun key => infer_series
                           (map (fun r' => match assoc key r' with
                                           | Some v => v
                                           | None => PNone
                                           end)
                                (map record_of (pr0 :: prs))))).
  rewrite (record_of_field pr0 c b k Hin). cbn [option_map]. f_equal. f_equal.
  rewrite map_map. apply map_ext. intros pr.
  now rewrite (record_of_field pr c b k Hin).
Qed.

(** X25.  The cells of the Normalizer's table, for well-shaped entries:
    the cell of a field in the row of a (player, statistics block) pair
    is the value of the field in that pair ([block.get(key)], the block
    being [{}] when it is not there) when the value is there, and [0] or
    [''] when it is missing. *)
Theorem normalized_column
        (self : t) (data : pyobj) (players : list pyobj)
        (c : string) (b : block) (k : string) (i : nat) (pr : pyobj * pyobj) :
  py_get data "response" (PList []) = Ok (PList players) ->
  Forall (fun p => entry_ok p = true) players ->
  In (c, (b, k)) fields ->
  nth_error (pairs players) i = Some pr ->
  exists df cell,
    process_players_data self data = ([processing_complete df], mk (Some df)) /\
    cell_at df c i = Some cell /\
    let v := getn (block_of b ((BPlayer, fst pr) :: env_of (snd pr))) k in
    (py_isna v = false -> cell = v) /\
    (py_isna v = true -> cell = PNum (Fin 0) \/ cell = PStr "").
Proof.
  intros Hdata Hok Hin Hi.
  assert (Hne : pairs players <> []).
  { intros E. rewrite E in Hi. destruct i; discriminate. }
  assert (Hplayers : players <> []) by (intros ->; now apply Hne).
  set (value := fun pr0 : pyobj * pyobj =>
                  getn (block_of b ((BPlayer, fst pr0) :: env_of (snd pr0))) k).
  assert (Hrun : process_players_data self data
                 = ([processing_complete
                       (handle_missing_values
                          (DataFrame_of (map record_of (pairs players))))],
                    mk (Some (handle_missing_values
                                (DataFrame_of (map record_of (pairs players))))))).
  { unfold process_players_data. rewrite Hdata.
    destruct players as [|p ps]; [contradiction|].
    rewrite bind_Ok_l. cbv beta.
    change (py_truthy (PList (p :: ps))) with true. simpl negb. cbv iota.
    change (py_iter (PList (p :: ps))) with (Ok (p :: ps)).
    rewrite bind_Ok_l, (normalize_ok _ Hok). reflexivity. }
  assert (Hcol : assoc c (df_cols (handle_missing_values
                                     (DataFrame_of (map record_of (pairs players)))))
                 = Some (fill_series (infer_series (map value (pairs players))))).
  { unfold handle_missing_values. cbn [df_cols].
    rewrite (assoc_map_values fill_series).
    now rewrite (DataFrame_of_column _ c b k Hne Hin). }
  assert (Hv : nth_error (map value (pairs players)) i = Some (value pr))
    by (now rewrite nth_error_map, Hi).
  exists (handle_missing_values (DataFrame_of (map record_of (pairs players)))).
  unfold cell_at. rewrite Hcol. cbv zeta. fold (value pr).
  unfold infer_series.
  destruct (forallb is_num_or_none (map value (pairs players))
            && existsb is_num (map value (pairs players))) eqn:E.
  - exists (PNum (fillna_num (to_float (value pr)))).
    split; [exact Hrun|]. split.
    + cbn [fill_series cells]. rewrite !nth_error_map, Hi. reflexivity.
    + apply andb_prop in E. destruct E as [E _].
      rewrite forallb_forall in E.
      specialize (E (value pr) (nth_error_In _ _ Hv)).
      destruct (value pr) as [|[q| | |]| | |]; try discriminate E; simpl;
        split; intros H; try discriminate H; auto.
  - exists (fillna_obj (value pr)).
    split; [exact Hrun|]. split.
    + cbn [fill_series cells]. rewrite !nth_error_map, Hi. reflexivity.
    + unfold fillna_obj. destruct (py_isna (value pr));
        split; intros H; try discriminate H; auto.
Qed.

Lemma normalized_column_witness :
  exists df,
    process_players_data (mk None) Samples.raw_two_stints
    = ([processing_complete df], mk (Some df)) /\
    cell_at df "minutes_played" 1 = Some (Samples.n 180) /\
    (cell_at df "rating" 1 = Some (PNum (Fin 0)) \/
     cell_at df "rating" 1 = Some (PStr "")).
Proof.
  pose proof (fun pr =>
                normalized_column
                  (mk None) Samples.raw_two_stints _ "minutes_played" BGames
                  "minutes" 1 pr eq_refl) as Hminutes.
  pose proof (fun pr =>
                normalized_column
                  (mk None) Samples.raw_two_stints _ "rating" BGames
                  "rating" 1 pr eq_refl) as Hrating.
  edestruct Hminutes as (df & cell & Hrun & Hcell & Hthere & _);
    [repeat constructor|simpl; tauto|reflexivity|].
  edestruct Hrating as (df' & cell' & Hrun' & Hcell' & _ & Hmissing);
    [repeat constructor|simpl; tauto|reflexivity|].
  assert (E : df' = df) by congruence. subst df'.
  exists df. split; [exact Hrun|]. split.
  - rewrite Hcell. f_equal. now apply Hthere.
  - rewrite Hcell'. destruct (Hmissing eq_refl) as [->| ->]; auto.
Defined.

End NormalizerCells.
